(** * Order aggregation of the Relix daily reporting scripts

    Shallow embedding of the pure aggregation core shared by
    [daily_revenue_report.py] and [update_ecom_dashboard.py]:
    [sum_revenue], [classify_line_item], [count_units_by_category],
    [top_products] and [monthly_revenue], together with the parts of the
    Python runtime they rely on ([str.strip], [str.lower], [in] on strings,
    [int(str)], [decimal.Decimal] under the default context).

    Conventions of the model:
    - a Rocq [string] is a Python [str] whose code points are all below 256
      (Latin-1); [str.lower], [str.strip] and [int] are modelled on that range;
    - a JSON scalar decoded from the commerce API is a [jval]: string,
      integer, boolean or null (JSON numbers with a fraction are not modelled);
      an absent key of a record is [None];
    - a Python exception is [Raise e] in the [result] type. *)

From Stdlib Require Import ZArith NArith String Ascii List Bool Lia.
From Stdlib Require Import Permutation Sorted.
From Stdlib Require Import QArith Qpower.
Import ListNotations.
Open Scope string_scope.
Open Scope list_scope.
Open Scope Z_scope.

(** ** Exceptions and the error monad *)

Inductive exn :=
| InvalidOperation   (** [decimal.InvalidOperation] (also conversion syntax) *)
| Overflow           (** [decimal.Overflow] *)
| TypeError
| ValueError
| AttributeError
| KeyError.

Inductive result (A : Type) :=
| Ok (a : A)
| Raise (e : exn).
Arguments Ok {A} a.
Arguments Raise {A} e.

Definition res_bind {A B} (m : result A) (k : A -> result B) : result B :=
  match m with
  | Ok a => k a
  | Raise e => Raise e
  end.

Notation "'let*' x ':=' m 'in' k" := (res_bind m (fun x => k))
  (at level 200, x name, right associativity).

(** ** Python [str] helpers (Latin-1 code points) *)

Definition py_isspace (c : ascii) : bool :=
  let n := N_of_ascii c in
  ((9 <=? n) && (n <=? 13))%N || ((28 <=? n) && (n <=? 32))%N
  || (n =? 133)%N || (n =? 160)%N.

Definition py_lower_char (c : ascii) : ascii :=
  let n := N_of_ascii c in
  if ((65 <=? n) && (n <=? 90))%N
     || ((192 <=? n) && (n <=? 222) && negb (n =? 215))%N
  then ascii_of_N (n + 32) else c.

(** [s.lower()] *)
Fixpoint py_lower (s : string) : string :=
  match s with
  | EmptyString => EmptyString
  | String c r => String (py_lower_char c) (py_lower r)
  end.

Fixpoint py_lstrip (s : string) : string :=
  match s with
  | EmptyString => EmptyString
  | String c r => if py_isspace c then py_lstrip r else s
  end.

Fixpoint py_rstrip (s : string) : string :=
  match s with
  | EmptyString => EmptyString
  | String c r =>
      let r' := py_rstrip r in
      if py_isspace c && String.eqb r' "" then "" else String c r'
  end.

(** [s.strip()] *)
Definition py_strip (s : string) : string := py_rstrip (py_lstrip s).

(** [needle in hay] for two strings *)
Fixpoint py_contains (needle hay : string) : bool :=
  String.prefix needle hay
  || match hay with
     | EmptyString => false
     | String _ r => py_contains needle r
     end.

(** [s[i:i+k]] for non-negative [i] and [k] is [substring i k s]. *)

Definition is_digit (c : ascii) : bool :=
  let n := N_of_ascii c in ((48 <=? n) && (n <=? 57))%N.

Definition digit_val (c : ascii) : N := (N_of_ascii c - 48)%N.

Fixpoint all_digits (s : string) : bool :=
  match s with
  | EmptyString => true
  | String c r => is_digit c && all_digits r
  end.

Fixpoint digits_value_acc (s : string) (acc : N) : N :=
  match s with
  | EmptyString => acc
  | String c r => digits_value_acc r (acc * 10 + digit_val c)
  end.

Definition digits_value (s : string) : N := digits_value_acc s 0.

(** Leading run of ASCII digits, and the rest. *)
Fixpoint take_digits (s : string) : string * string :=
  match s with
  | String c r =>
      if is_digit c then let (d, rest) := take_digits r in (String c d, rest)
      else ("", s)
  | EmptyString => ("", "")
  end.

(** [str(n)] for a natural number. *)
Fixpoint n_to_digits (fuel : nat) (n : N) (acc : string) : string :=
  match fuel with
  | O => acc
  | S f =>
      let acc' := String (ascii_of_N (48 + n mod 10)) acc in
      if (n <? 10)%N then acc' else n_to_digits f (n / 10) acc'
  end.

Definition n_to_string (n : N) : string :=
  n_to_digits (S (N.to_nat (N.size n))) n "".

(** [str(z)] for a Python [int]. *)
Definition z_to_string (z : Z) : string :=
  if z <? 0 then String "-" (n_to_string (Z.to_N (- z)))
  else n_to_string (Z.to_N z).

(** [int(s)] for a [str]: surrounding whitespace, an optional sign, and
    digits in which single underscores may separate digits. *)
Fixpoint int_body_ok (s : string) : bool :=
  match s with
  | EmptyString => true
  | String c r =>
      if is_digit c then int_body_ok r
      else if Ascii.eqb c "_" then
        match r with
        | String d _ => is_digit d && int_body_ok r
        | EmptyString => false
        end
      else false
  end.

Fixpoint drop_underscores (s : string) : string :=
  match s with
  | EmptyString => EmptyString
  | String c r =>
      if Ascii.eqb c "_" then drop_underscores r else String c (drop_underscores r)
  end.

Definition py_int_unsigned (s : string) : option Z :=
  match s with
  | String c _ =>
      if is_digit c && int_body_ok s
      then Some (Z.of_N (digits_value (drop_underscores s))) else None
  | EmptyString => None
  end.

Definition py_int (s : string) : result Z :=
  let t := py_strip s in
  let r :=
    match t with
    | String c rest =>
        if Ascii.eqb c "+" then py_int_unsigned rest
        else if Ascii.eqb c "-" then option_map Z.opp (py_int_unsigned rest)
        else py_int_unsigned t
    | EmptyString => None
    end in
  match r with
  | Some z => Ok z
  | None => Raise ValueError
  end.

(** ** [decimal.Decimal] under the default context

    A finite value is [(-1)^neg * coef * 10^exp]; the default context has
    precision 28, rounding ROUND_HALF_EVEN, Emax 999999, Emin -999999,
    clamp 0, and traps InvalidOperation, DivisionByZero and Overflow.
    NaN payloads and the sign of NaN are not modelled. *)

Inductive decimal :=
| DFin (neg : bool) (coef : N) (exp : Z)
| DInf (neg : bool)
| DNaN (signaling : bool).

Definition prec : Z := 28.
Definition emax : Z := 999999.
Definition emin : Z := -999999.
Definition etiny : Z := emin - prec + 1.
Definition etop : Z := emax - prec + 1.

(** Number of decimal digits of a positive coefficient ([len(self._int)]). *)
Fixpoint ndigits_aux (fuel : nat) (c : N) : N :=
  match fuel with
  | O => 0
  | S f => if (c =? 0)%N then 0 else 1 + ndigits_aux f (c / 10)
  end.

Definition ndigits (c : N) : N := ndigits_aux (N.to_nat (N.size c)) c.

(** Keep [c / 10^k], rounding the dropped digits half-to-even. *)
Definition round_half_even (c : N) (k : Z) : N :=
  let p := (10 ^ Z.to_N k)%N in
  let q := (c / p)%N in
  let r := (c mod p)%N in
  match N.compare (2 * r) p with
  | Lt => q
  | Gt => q + 1
  | Eq => if N.even q then q else q + 1
  end%N.

(** [Decimal._fix]: round to the context and check the exponent range. *)
Definition dec_fix (neg : bool) (c : N) (e : Z) : result decimal :=
  if (c =? 0)%N then Ok (DFin neg 0 (Z.min (Z.max e etiny) emax))
  else
    let exp_min := Z.of_N (ndigits c) + e - prec in
    if etop <? exp_min then Raise Overflow
    else
      let exp_min := Z.max exp_min etiny in
      if e <? exp_min then
        let q := round_half_even c (exp_min - e) in
        let '(q, exp_min) :=
          if (10 ^ Z.to_N prec <=? q)%N then ((q / 10)%N, exp_min + 1)
          else (q, exp_min) in
        if etop <? exp_min then Raise Overflow else Ok (DFin neg q exp_min)
      else Ok (DFin neg c e).

Definition zval (neg : bool) (c : N) : Z := if neg then - Z.of_N c else Z.of_N c.

Definition scale (c : N) (k : Z) : N := (c * 10 ^ Z.to_N k)%N.

(** [Decimal.__add__]: two zeros give a zero at the smaller exponent
    (negative only if both are); a zero operand rescales the other one to
    [max(exp, other._exp - prec - 1)]; otherwise the exact sum at the smaller
    exponent, positive when it is zero; the result goes through [_fix]. *)
Definition dec_add (x y : decimal) : result decimal :=
  match x, y with
  | DNaN true, _ | _, DNaN true => Raise InvalidOperation
  | DNaN false, _ => Ok x
  | _, DNaN false => Ok y
  | DInf s1, DInf s2 => if Bool.eqb s1 s2 then Ok x else Raise InvalidOperation
  | DInf _, _ => Ok x
  | _, DInf _ => Ok y
  | DFin s1 c1 e1, DFin s2 c2 e2 =>
      let e := Z.min e1 e2 in
      if (c1 =? 0)%N && (c2 =? 0)%N then dec_fix (s1 && s2) 0 e
      else if (c1 =? 0)%N then
        let e' := Z.max e (e2 - prec - 1) in dec_fix s2 (scale c2 (e2 - e')) e'
      else if (c2 =? 0)%N then
        let e' := Z.max e (e1 - prec - 1) in dec_fix s1 (scale c1 (e1 - e')) e'
      else
        let v := zval s1 (scale c1 (e1 - e)) + zval s2 (scale c2 (e2 - e)) in
        if v =? 0 then dec_fix false 0 e
        else dec_fix (v <? 0) (Z.to_N (Z.abs v)) e
  end.

(** [Decimal.__mul__]. *)
Definition dec_mul (x y : decimal) : result decimal :=
  match x, y with
  | DNaN true, _ | _, DNaN true => Raise InvalidOperation
  | DNaN false, _ => Ok x
  | _, DNaN false => Ok y
  | DInf s1, DInf s2 => Ok (DInf (xorb s1 s2))
  | DInf s1, DFin s2 c2 _ =>
      if (c2 =? 0)%N then Raise InvalidOperation else Ok (DInf (xorb s1 s2))
  | DFin s1 c1 _, DInf s2 =>
      if (c1 =? 0)%N then Raise InvalidOperation else Ok (DInf (xorb s1 s2))
  | DFin s1 c1 e1, DFin s2 c2 e2 => dec_fix (xorb s1 s2) (c1 * c2) (e1 + e2)
  end.

(** [Decimal(i)] for a Python [int] [i]: exact. *)
Definition dec_of_int (z : Z) : decimal := DFin (z <? 0) (Z.to_N (Z.abs z)) 0.

(** [Decimal("0.00")] *)
Definition dec_zero_00 : decimal := DFin false 0 (-2).

(** *** [Decimal(str)]

    The string is stripped of surrounding whitespace, every underscore is
    dropped, and the rest must match
    [[sign] (digits ['.' [digits]] | '.' digits) [('e'|'E') [sign] digits]],
    [[sign] ('inf' | 'infinity')] or [[sign] ['s'] 'nan' [digits]]
    (letters in any case). The conversion is exact: a finite value whose
    exponent or adjusted exponent lies outside the limits of the maximal
    context is refused, as the C implementation does. *)

Definition max_emax : Z := 999999999999999999.
Definition max_etiny : Z := -1999999999999999997.

Definition parse_exponent (s : string) : option Z :=
  match s with
  | EmptyString => Some 0
  | String c r =>
      if Ascii.eqb (py_lower_char c) "e" then
        let '(sgn, ds) :=
          match r with
          | String d r' =>
              if Ascii.eqb d "+" then (1, r')
              else if Ascii.eqb d "-" then (-1, r') else (1, r)
          | EmptyString => (1, r)
          end in
        match ds with
        | EmptyString => None
        | _ => if all_digits ds then Some (sgn * Z.of_N (digits_value ds)) else None
        end
      else None
  end.

Definition finite_in_range (c : N) (e : Z) : bool :=
  if (c =? 0)%N then (max_etiny <=? e) && (e <=? max_emax)
  else (max_etiny <=? e) && (Z.of_N (ndigits c) - 1 + e <=? max_emax).

Definition parse_unsigned (neg : bool) (s : string) : option decimal :=
  let ls := py_lower s in
  if String.eqb ls "inf" || String.eqb ls "infinity" then Some (DInf neg)
  else if String.prefix "nan" ls && all_digits (substring 3 (String.length ls) ls)
  then Some (DNaN false)
  else if String.prefix "snan" ls && all_digits (substring 4 (String.length ls) ls)
  then Some (DNaN true)
  else
    let '(ip, rest) := take_digits s in
    let '(fp, rest) :=
      match rest with
      | String c r => if Ascii.eqb c "." then take_digits r else ("", rest)
      | EmptyString => ("", rest)
      end in
    if (String.eqb ip "" && String.eqb fp "")%bool then None
    else
      match parse_exponent rest with
      | None => None
      | Some x =>
          let c := digits_value (ip ++ fp)%string in
          let e := x - Z.of_nat (String.length fp) in
          if finite_in_range c e then Some (DFin neg c e) else None
      end.

Definition parse_decimal (s : string) : option decimal :=
  let t := drop_underscores (py_strip s) in
  match t with
  | String c r =>
      if Ascii.eqb c "+" then parse_unsigned false r
      else if Ascii.eqb c "-" then parse_unsigned true r
      else parse_unsigned false t
  | EmptyString => None
  end.

(** [Decimal(s)]: a malformed string raises InvalidOperation. *)
Definition Decimal (s : string) : result decimal :=
  match parse_decimal s with
  | Some d => Ok d
  | None => Raise InvalidOperation
  end.

(** ** Order records of the commerce API *)

Inductive jval :=
| JStr (s : string)
| JInt (z : Z)
| JBool (b : bool)
| JNull.

(** [str(v)] *)
Definition py_str (v : jval) : string :=
  match v with
  | JStr s => s
  | JInt z => z_to_string z
  | JBool true => "True"
  | JBool false => "False"
  | JNull => "None"
  end.

(** Truth value of [v]. *)
Definition py_truthy (v : jval) : bool :=
  match v with
  | JStr s => negb (String.eqb s "")
  | JInt z => negb (z =? 0)
  | JBool b => b
  | JNull => false
  end.

(** [==] between two JSON scalars used as dict keys ([True == 1]). *)
Definition py_key_eqb (a b : jval) : bool :=
  match a, b with
  | JStr x, JStr y => String.eqb x y
  | JInt x, JInt y => x =? y
  | JInt x, JBool y | JBool y, JInt x => x =? (if y then 1 else 0)
  | JBool x, JBool y => Bool.eqb x y
  | JNull, JNull => true
  | _, _ => false
  end.

(** [d.get(key, default)] *)
Definition py_get (f : option jval) (default : jval) : jval :=
  match f with
  | Some v => v
  | None => default
  end.

Record line_item := {
  li_title : option jval;
  li_product_type : option jval;
  li_price : option jval;
  li_quantity : option jval
}.

(** An order; [o_line_items] is [order.get("line_items", [])], the empty
    list when the key is absent. *)
Record order := {
  o_created_at : option jval;
  o_total_price : option jval;
  o_line_items : list line_item
}.

(** The line items of all orders, in iteration order. *)
Definition all_items (orders : list order) : list line_item :=
  flat_map o_line_items orders.

(** [x + v] for a Python [int] [x] and a JSON value [v] ([bool] is an [int]). *)
Definition py_int_add (x : Z) (v : jval) : result Z :=
  match v with
  | JInt z => Ok (x + z)
  | JBool b => Ok (x + if b then 1 else 0)
  | _ => Raise TypeError
  end.

(** [d * v] for a [Decimal] [d] and a JSON value [v]. *)
Definition dec_mul_jval (d : decimal) (v : jval) : result decimal :=
  match v with
  | JInt z => dec_mul d (dec_of_int z)
  | JBool b => dec_mul d (dec_of_int (if b then 1 else 0))
  | _ => Raise TypeError
  end.

(** ** Configuration *)

Definition CATEGORIES : list string := ["Vinyl"; "Books"; "Posters"; "Tees"].

Definition CATEGORY_KEYWORDS : list (string * string) :=
  [("vinyl", "Vinyl"); ("record", "Vinyl"); ("lp", "Vinyl");
   ("book", "Books"); ("poster", "Posters"); ("print", "Posters");
   ("tee", "Tees"); ("t-shirt", "Tees"); ("shirt", "Tees")].

(** ** [sum_revenue] (identical in both scripts) *)

Definition sum_revenue_step (total : decimal) (o : order) : decimal :=
  match Decimal (py_str (py_get (o_total_price o) (JStr "0"))) with
  | Ok d =>
      match dec_add total d with
      | Ok t => t
      | Raise _ => total
      end
  | Raise _ => total
  end.

Definition sum_revenue (orders : list order) : decimal :=
  fold_left sum_revenue_step orders dec_zero_00.

(** ** [classify_line_item] (identical in both scripts) *)

(** [(item.get(key) or "")] followed by a [str] method: a truthy non-string
    value has no such method. *)
Definition text_or_empty (f : option jval) : result string :=
  let v := py_get f JNull in
  if py_truthy v then
    match v with
    | JStr s => Ok s
    | _ => Raise AttributeError
    end
  else Ok "".

Fixpoint first_exact (pt : string) (cats : list string) : option string :=
  match cats with
  | [] => None
  | cat :: rest =>
      if String.eqb (py_lower pt) (py_lower cat) then Some cat else first_exact pt rest
  end.

Fixpoint first_keyword (s : string) (kws : list (string * string)) : option string :=
  match kws with
  | [] => None
  | (keyword, cat) :: rest =>
      if py_contains keyword s then Some cat else first_keyword s rest
  end.

Definition classify_line_item (item : line_item) : result (option string) :=
  let* pt := text_or_empty (li_product_type item) in
  let product_type := py_strip pt in
  match first_exact product_type CATEGORIES with
  | Some cat => Ok (Some cat)
  | None =>
      let pt_lower := py_lower product_type in
      match first_keyword pt_lower CATEGORY_KEYWORDS with
      | Some cat => Ok (Some cat)
      | None =>
          let* t := text_or_empty (li_title item) in
          Ok (first_keyword (py_lower t) CATEGORY_KEYWORDS)
      end
  end.

(** ** Dicts and loops *)

(** A Python [dict] as an association list in insertion order: an update of
    a present key keeps its place, a new key goes last. *)
Fixpoint assoc_lookup {K V} (eqb : K -> K -> bool) (k : K) (d : list (K * V))
  : option V :=
  match d with
  | [] => None
  | (k', v) :: r => if eqb k' k then Some v else assoc_lookup eqb k r
  end.

Fixpoint assoc_set {K V} (eqb : K -> K -> bool) (k : K) (v : V) (d : list (K * V))
  : list (K * V) :=
  match d with
  | [] => [(k, v)]
  | (k', v') :: r =>
      if eqb k' k then (k', v) :: r else (k', v') :: assoc_set eqb k v r
  end.

(** A [for] loop whose body may raise. *)
Fixpoint fold_res {A B} (f : A -> B -> result A) (l : list B) (a : A) : result A :=
  match l with
  | [] => Ok a
  | x :: r => let* a' := f a x in fold_res f r a'
  end.

(** ** [count_units_by_category] (daily report)

    The nested loops over orders and their line items visit [all_items]. *)

Definition count_units_step (counts : list (string * Z)) (item : line_item)
  : result (list (string * Z)) :=
  let* cat := classify_line_item item in
  match cat with
  | Some c =>
      match assoc_lookup String.eqb c counts with
      | Some cur =>
          let* v := py_int_add cur (py_get (li_quantity item) (JInt 0)) in
          Ok (assoc_set String.eqb c v counts)
      | None => Raise KeyError
      end
  | None => Ok counts
  end.

Definition count_units_by_category (orders : list order)
  : result (list (string * Z)) :=
  fold_res count_units_step (all_items orders) (map (fun cat => (cat, 0)) CATEGORIES).

(** ** [top_products] (dashboard) *)

Record product := {
  p_title : jval;
  p_units : Z;
  p_revenue : decimal;
  p_category : string
}.

Definition top_products_step (products : list (jval * product)) (item : line_item)
  : result (list (jval * product)) :=
  let title := py_get (li_title item) (JStr "Unknown") in
  let* price := Decimal (py_str (py_get (li_price item) (JStr "0"))) in
  let qty := py_get (li_quantity item) (JInt 0) in
  let* c := classify_line_item item in
  let cat := match c with Some c => c | None => "Other" end in
  let products :=
    match assoc_lookup py_key_eqb title products with
    | Some _ => products
    | None =>
        products ++ [(title, {| p_title := title; p_units := 0;
                                p_revenue := dec_zero_00; p_category := cat |})]
    end in
  match assoc_lookup py_key_eqb title products with
  | Some p =>
      let* u := py_int_add (p_units p) qty in
      let* m := dec_mul_jval price qty in
      let* r := dec_add (p_revenue p) m in
      Ok (assoc_set py_key_eqb title
            {| p_title := p_title p; p_units := u; p_revenue := r;
               p_category := p_category p |} products)
  | None => Raise KeyError
  end.

(** [products.values()] after the loop. *)
Definition group_products (orders : list order) : result (list product) :=
  let* ps := fold_res top_products_step (all_items orders) [] in
  Ok (map snd ps).

(** [sorted(ps, key=lambda p: p["units"], reverse=True)]: a stable sort,
    non-increasing in units, equal units keeping their order. *)
Fixpoint insert_desc (p : product) (l : list product) : list product :=
  match l with
  | [] => [p]
  | q :: r => if p_units q <=? p_units p then p :: q :: r else q :: insert_desc p r
  end.

Definition sort_by_units_desc (l : list product) : list product :=
  fold_right insert_desc [] l.

(** [l[:n]] *)
Definition py_slice_upto {A} (l : list A) (n : Z) : list A :=
  if 0 <=? n then firstn (Z.to_nat n) l
  else firstn (Z.to_nat (Z.of_nat (length l) + n)) l.

Definition top_products (orders : list order) (n : Z) : result (list product) :=
  let* g := group_products orders in
  Ok (py_slice_upto (sort_by_units_desc g) n).

(** ** [monthly_revenue] (dashboard)

    [by_month[month] += Decimal(...)] reads [by_month[month]] first: the
    [defaultdict] inserts [Decimal("0.00")] under [month] before the price
    is converted, and the insertion survives a conversion error caught by
    the [except]. Slicing a non-string [created_at] raises [TypeError],
    which is caught as well. *)
Definition monthly_revenue_step (by_month : list (Z * decimal)) (o : order)
  : list (Z * decimal) :=
  match py_get (o_created_at o) (JStr "") with
  | JStr created =>
      match py_int (substring 5 2 created) with
      | Ok month =>
          let '(cur, by_month) :=
            match assoc_lookup Z.eqb month by_month with
            | Some v => (v, by_month)
            | None => (dec_zero_00, by_month ++ [(month, dec_zero_00)])
            end in
          match Decimal (py_str (py_get (o_total_price o) (JStr "0"))) with
          | Ok d =>
              match dec_add cur d with
              | Ok v => assoc_set Z.eqb month v by_month
              | Raise _ => by_month
              end
          | Raise _ => by_month
          end
      | Raise _ => by_month
      end
  | _ => by_month
  end.

Definition monthly_revenue (orders : list order) : list (Z * decimal) :=
  fold_left monthly_revenue_step orders [].

(** ** Readings of the specification

    Definitions used to state the claims; each one follows the wording of
    the specification, not the code. *)

(** Classification as the specification orders its rules: exact match of
    the trimmed lower-cased product type, then the first keyword of the
    table contained in the lower-cased product type, then in the lower-cased
    title. *)
Definition classify_spec (pt title : string) : option string :=
  match find (fun cat => String.eqb (py_lower (py_strip pt)) (py_lower cat)) CATEGORIES with
  | Some cat => Some cat
  | None =>
      match find (fun kc => py_contains (fst kc) (py_lower pt)) CATEGORY_KEYWORDS with
      | Some (_, cat) => Some cat
      | None =>
          match find (fun kc => py_contains (fst kc) (py_lower title)) CATEGORY_KEYWORDS with
          | Some (_, cat) => Some cat
          | None => None
          end
      end
  end.

(** The fields of a line item as [top_products] reads them. *)
Definition item_key (it : line_item) : jval := py_get (li_title it) (JStr "Unknown").
Definition item_price (it : line_item) : result decimal :=
  Decimal (py_str (py_get (li_price it) (JStr "0"))).
Definition item_qty (it : line_item) : jval := py_get (li_quantity it) (JInt 0).

Definition category_label (c : option string) : string :=
  match c with Some c => c | None => "Other" end.

(** Line items whose title is [k] for the dict ([==] on keys). *)
Definition same_key (k : jval) (it : line_item) : bool := py_key_eqb (item_key it) k.

(** Units of a group of line items: their quantities added from 0. *)
Definition group_units (g : list line_item) : result Z :=
  fold_res (fun u it => py_int_add u (item_qty it)) g 0.

(** Revenue of a group: [price * quantity] of each occurrence added from 0.00. *)
Definition group_revenue (g : list line_item) : result decimal :=
  fold_res (fun r it =>
              let* pr := item_price it in
              let* m := dec_mul_jval pr (item_qty it) in
              dec_add r m) g dec_zero_00.

(** One occurrence added to the aggregate of its title, as the loop body of
    [top_products] does it when viewed from that title alone. *)
Definition agg_step (acc : option product) (it : line_item) : result product :=
  let* price := item_price it in
  let qty := item_qty it in
  let* c := classify_line_item it in
  let p := match acc with
           | Some p => p
           | None => {| p_title := item_key it; p_units := 0;
                        p_revenue := dec_zero_00; p_category := category_label c |}
           end in
  let* u := py_int_add (p_units p) qty in
  let* m := dec_mul_jval price qty in
  let* r := dec_add (p_revenue p) m in
  Ok {| p_title := p_title p; p_units := u; p_revenue := r; p_category := p_category p |}.

Fixpoint agg_fold (acc : option product) (l : list line_item) : result (option product) :=
  match l with
  | [] => Ok acc
  | it :: r => let* p := agg_step acc it in agg_fold (Some p) r
  end.

(** Non-increasing in units. *)
Definition units_ge (a b : product) : Prop := p_units b <= p_units a.

(** Titles that [top_products] files under ["Unknown"]: absent, or the
    string ["Unknown"] itself. *)
Definition unknown_title (it : line_item) : bool :=
  match li_title it with
  | None => true
  | Some (JStr s) => String.eqb s "Unknown"
  | Some _ => false
  end.

(** The quantity of a line item as a number ([None] when it is not one). *)
Definition qty_val (it : line_item) : option Z :=
  match item_qty it with
  | JInt z => Some z
  | JBool b => Some (if b then 1 else 0)
  | _ => None
  end.

Definition qty_int (it : line_item) : Z :=
  match qty_val it with Some q => q | None => 0 end.

Definition total_quantity (orders : list order) : Z :=
  fold_right (fun it acc => qty_int it + acc) 0 (all_items orders).

(** Units of the line items classified into [cat]. *)
Definition category_contrib (cat : string) (it : line_item) : Z :=
  match classify_line_item it with
  | Ok (Some c) => if String.eqb c cat then qty_int it else 0
  | _ => 0
  end.

Fixpoint category_units (cat : string) (items : list line_item) : Z :=
  match items with
  | [] => 0
  | it :: r => category_contrib cat it + category_units cat r
  end.

Definition sum_values (m : list (string * Z)) : Z :=
  fold_right (fun kv acc => snd kv + acc) 0 m.

(** An order's total price, parsed as [sum_revenue] parses it. *)
Definition order_price (o : order) : result decimal :=
  Decimal (py_str (py_get (o_total_price o) (JStr "0"))).

(** Exact value of a finite decimal, in hundredths, when its exponent is at
    least -2; the parseable totals of a list of orders added exactly. *)
Definition cents (d : decimal) : Z :=
  match d with
  | DFin s c e => zval s (scale c (e + 2))
  | _ => 0
  end.

Definition order_cents (o : order) : Z :=
  match order_price o with Ok d => cents d | Raise _ => 0 end.

Definition cents_total (orders : list order) : Z :=
  fold_right (fun o acc => order_cents o + acc) 0 orders.

Definition cents_abs_total (orders : list order) : Z :=
  fold_right (fun o acc => Z.abs (order_cents o) + acc) 0 orders.

(** A decimal amount held with exactly two fractional digits. *)
Definition dec_cents (v : Z) : decimal := DFin (v <? 0) (Z.to_N (Z.abs v)) (-2).

(** Every parseable total is finite with at most two fractional digits. *)
Definition totals_are_cents (orders : list order) : Prop :=
  forall o d, In o orders -> order_price o = Ok d ->
    exists s c e, d = DFin s c e /\ -2 <= e.

(** Non-negative decimal ([Decimal("-0") >= 0] holds; NaN is not). *)
Definition dec_nonneg (d : decimal) : bool :=
  match d with
  | DFin s c _ => negb s || (c =? 0)%N
  | DInf s => negb s
  | DNaN _ => false
  end.

(** The month [monthly_revenue] reads from an order, if it parses. *)
Definition order_month (o : order) : option Z :=
  match py_get (o_created_at o) (JStr "") with
  | JStr created =>
      match py_int (substring 5 2 created) with
      | Ok m => Some m
      | Raise _ => None
      end
  | _ => None
  end.

Definition month_is (k : Z) (o : order) : bool :=
  match order_month o with Some m => m =? k | None => false end.

(** ** Sample records *)

Definition mk_item (t pt p q : option jval) : line_item :=
  {| li_title := t; li_product_type := pt; li_price := p; li_quantity := q |}.

Definition mk_order (c tp : option jval) (l : list line_item) : order :=
  {| o_created_at := c; o_total_price := tp; o_line_items := l |}.

Definition priced (s : string) : order := mk_order None (Some (JStr s)) [].

Definition tote (q : Z) : line_item :=
  mk_item (Some (JStr "Tote Bag")) None (Some (JStr "20.00")) (Some (JInt q)).

(** Every character of a string satisfies [f]. *)
Fixpoint str_forall (f : ascii -> bool) (s : string) : bool :=
  match s with
  | EmptyString => true
  | String c r => f c && str_forall f r
  end.

(** ** [parse_link_header] (identical in both scripts) *)

(** [s.split(sep)] for a one-character separator. *)
Fixpoint py_split_char (sep : ascii) (s : string) : list string :=
  match s with
  | EmptyString => [""]
  | String c r =>
      let parts := py_split_char sep r in
      if Ascii.eqb c sep then "" :: parts
      else match parts with
           | w :: ws => String c w :: ws
           | [] => [String c ""]
           end
  end.

(** [c in chars] for a character and a string. *)
Definition py_in_chars (chars : string) (c : ascii) : bool :=
  existsb (Ascii.eqb c) (list_ascii_of_string chars).

Fixpoint py_lstrip_chars (chars s : string) : string :=
  match s with
  | EmptyString => EmptyString
  | String c r => if py_in_chars chars c then py_lstrip_chars chars r else s
  end.

Fixpoint py_rstrip_chars (chars s : string) : string :=
  match s with
  | EmptyString => EmptyString
  | String c r =>
      let r' := py_rstrip_chars chars r in
      if py_in_chars chars c && String.eqb r' "" then "" else String c r'
  end.

(** [s.strip(chars)] *)
Definition py_strip_chars (chars s : string) : string :=
  py_rstrip_chars chars (py_lstrip_chars chars s).

Definition dquote : ascii := ascii_of_nat 34.

(** The Python literal ['rel="next"']. *)
Definition rel_next : string := "rel=" ++ String dquote ("next" ++ String dquote "").

(** [parse_link_header(resp)]: [link_header] is the [Link] header of the
    response, [None] when absent ([resp.headers.get("Link", "")]). *)
Definition parse_link_header (link_header : option string) : option string :=
  let link := match link_header with Some l => l | None => "" end in
  match find (py_contains rel_next) (py_split_char "," link) with
  | Some part =>
      Some (py_strip_chars "<>" (py_strip (hd "" (py_split_char ";" part))))
  | None => None
  end.

(** ** [get_sample_line_items] (daily report) *)

(** The dict built for one line item; absent keys read as [None]. *)
Record sample := {
  s_title : jval;
  s_product_type : jval;
  s_quantity : jval;
  s_classified_as : option string
}.

Definition mk_sample (item : line_item) (c : option string) : sample :=
  {| s_title := py_get (li_title item) JNull;
     s_product_type := py_get (li_product_type item) JNull;
     s_quantity := py_get (li_quantity item) JNull;
     s_classified_as := c |}.

(** The nested loops over the line items, returning as soon as
    [len(samples) >= n] after an append. *)
Fixpoint sample_loop (n : Z) (items : list line_item) (samples : list sample)
  : result (list sample) :=
  match items with
  | [] => Ok samples
  | item :: rest =>
      let* c := classify_line_item item in
      let samples := samples ++ [mk_sample item c] in
      if n <=? Z.of_nat (length samples) then Ok samples
      else sample_loop n rest samples
  end.

Definition get_sample_line_items (orders : list order) (n : Z) : result (list sample) :=
  sample_loop n (all_items orders) [].

(** ** Google Sheets updates (dashboard)

    A worksheet call is recorded with the title of its worksheet. A cell
    value [float(d)] is kept as the [Decimal] [d] it converts. *)

Inductive cell :=
| CInt (z : Z)
| CStr (s : string)
| CJson (v : jval)
| CFloat (d : decimal).

Inductive sheet_op :=
| BatchClear (tab : string) (ranges : list string)
| Update (tab : string) (range : string) (rows : list (list cell))
| BatchUpdate (tab : string) (updates : list (string * list (list cell))).

(** [enumerate(l, start)] *)
Fixpoint enumerate {A} (start : Z) (l : list A) : list (Z * A) :=
  match l with
  | [] => []
  | x :: r => (start, x) :: enumerate (start + 1) r
  end.

(** The row of the product ranked [rank]. *)
Definition top_product_row (rp : Z * product) : list cell :=
  let '(rank, p) := rp in
  [CInt rank; CJson (p_title p); CInt (p_units p); CFloat (p_revenue p); CStr (p_category p)].

(** [update_top_products_tab(sh, tab_name, orders)]; [row_count] is
    [ws.row_count]. [top_products] runs before any call on the sheet. *)
Definition update_top_products_tab (row_count : Z) (tab_name : string)
  (orders : list order) : result (list sheet_op) :=
  let* products := top_products orders 20 in
  let clear := if 1 <? row_count then [BatchClear tab_name ["A2:E22"]] else [] in
  match products with
  | [] => Ok clear
  | _ :: _ =>
      let rows := map top_product_row (enumerate 1 products) in
      Ok (clear ++ [Update tab_name ("A2:E" ++ z_to_string (1 + Z.of_nat (length rows)))%string
                           rows])
  end.

(** [update_goals_tab(sh, qtd_orders)] *)
Definition update_goals_tab (qtd_orders : list order) : list sheet_op :=
  let by_month := monthly_revenue qtd_orders in
  let updates :=
    map (fun mr =>
           let '(month_num, row_num) := mr in
           let revenue := match assoc_lookup Z.eqb month_num by_month with
                          | Some v => v
                          | None => dec_zero_00
                          end in
           (("C" ++ z_to_string row_num)%string, [[CFloat revenue]]))
        [(1, 2); (2, 3); (3, 4)] in
  [BatchUpdate "Q1 2026 Goals" updates].

Fixpoint map_res {A B} (f : A -> result B) (l : list A) : result (list B) :=
  match l with
  | [] => Ok []
  | x :: r => let* y := f x in let* ys := map_res f r in Ok (y :: ys)
  end.

Definition sample_of (item : line_item) : result sample :=
  let* c := classify_line_item item in Ok (mk_sample item c).

Definition month_total (k : Z) (orders : list order) : decimal :=
  if existsb (month_is k) orders then sum_revenue (filter (month_is k) orders)
  else dec_zero_00.

Definition row_rank (row : list cell) : Z :=
  match row with CInt r :: _ => r | _ => 0 end.

Definition link_entry (e : string * string) : string :=
  ("<" ++ fst e ++ ">; rel=" ++ String dquote (snd e ++ String dquote ""))%string.

Fixpoint render_links (es : list (string * string)) : string :=
  match es with
  | [] => ""
  | [e] => link_entry e
  | e :: r => (link_entry e ++ ", " ++ render_links r)%string
  end.

Definition url_ok (u : string) : bool :=
  str_forall (fun c => negb (py_in_chars ",;<>" c) && negb (Ascii.eqb c dquote)) u.

Definition rel_ok (r : string) : bool :=
  str_forall (fun c => negb (Ascii.eqb c ",") && negb (Ascii.eqb c dquote)) r.

Definition noquote (c : ascii) : bool := negb (Ascii.eqb c dquote).

Definition url_char (c : ascii) : bool :=
  negb (py_in_chars ",;<>" c) && negb (Ascii.eqb c dquote).

Definition nocomma (c : ascii) : bool := negb (Ascii.eqb c ",").

Definition nosemi (c : ascii) : bool := negb (Ascii.eqb c ";").

(** ** [datetime] arithmetic of the date helpers

    An aware [datetime] in Eastern time; all the values of one run share the
    same [tzinfo], so arithmetic and comparison act on the wall-clock fields
    (Python adds a [timedelta] to the naive fields and keeps [tzinfo]). *)

Record datetime := {
  dt_year : Z; dt_month : Z; dt_day : Z;
  dt_hour : Z; dt_minute : Z; dt_second : Z; dt_microsecond : Z
}.

(** The exceptions of [datetime]: [ValueError] from [replace] and
    [OverflowError] from an out-of-range [timedelta] subtraction. *)
Inductive dt_exn := DtValueError | DtOverflowError.

Inductive dt_result (A : Type) :=
| DtOk (a : A)
| DtRaise (e : dt_exn).

Arguments DtOk {A} a.
Arguments DtRaise {A} e.

Definition dt_bind {A B} (m : dt_result A) (k : A -> dt_result B) : dt_result B :=
  match m with
  | DtOk a => k a
  | DtRaise e => DtRaise e
  end.

Notation "'let%' x ':=' m 'in' k" := (dt_bind m (fun x => k))
  (at level 200, x name, right associativity).

Definition is_leap (y : Z) : bool :=
  (y mod 4 =? 0) && (negb (y mod 100 =? 0) || (y mod 400 =? 0)).

Definition days_in_month (y m : Z) : Z :=
  if m =? 2 then (if is_leap y then 29 else 28)
  else if (m =? 4) || (m =? 6) || (m =? 9) || (m =? 11) then 30 else 31.

(** The checks of the [datetime] constructor on the date fields
    ([MINYEAR] is 1, [MAXYEAR] 9999). *)
Definition valid_date (y m d : Z) : bool :=
  (1 <=? y) && (y <=? 9999) && (1 <=? m) && (m <=? 12)
  && (1 <=? d) && (d <=? days_in_month y m).

(** [x.replace(year=y, month=m, day=d)] *)
Definition dt_replace_date (x : datetime) (y m d : Z) : dt_result datetime :=
  if valid_date y m d
  then DtOk {| dt_year := y; dt_month := m; dt_day := d; dt_hour := dt_hour x;
               dt_minute := dt_minute x; dt_second := dt_second x;
               dt_microsecond := dt_microsecond x |}
  else DtRaise DtValueError.

(** [x.replace(hour=0, minute=0, second=0, microsecond=0)] *)
Definition dt_midnight (x : datetime) : datetime :=
  {| dt_year := dt_year x; dt_month := dt_month x; dt_day := dt_day x;
     dt_hour := 0; dt_minute := 0; dt_second := 0; dt_microsecond := 0 |}.

(** The calendar day before [(y, m, d)]. *)
Definition prev_date (ymd : Z * Z * Z) : Z * Z * Z :=
  let '(y, m, d) := ymd in
  if 1 <? d then (y, m, d - 1)
  else if 1 <? m then (y, m - 1, days_in_month y (m - 1))
  else (y - 1, 12, 31).

(** [x - timedelta(days=days, seconds=seconds)] for non-negative [days] and
    [seconds]: the time of day is moved back, borrowing whole days, and a
    date before 0001-01-01 raises [OverflowError]. *)
Definition dt_sub (x : datetime) (days seconds : Z) : dt_result datetime :=
  let t := dt_hour x * 3600 + dt_minute x * 60 + dt_second x - seconds in
  let back := days - t / 86400 in
  let t' := t mod 86400 in
  let '(y, m, d) := Nat.iter (Z.to_nat back) prev_date (dt_year x, dt_month x, dt_day x) in
  if y <? 1 then DtRaise DtOverflowError
  else DtOk {| dt_year := y; dt_month := m; dt_day := d; dt_hour := t' / 3600;
               dt_minute := t' mod 3600 / 60; dt_second := t' mod 60;
               dt_microsecond := dt_microsecond x |}.

(** [date.toordinal()]: day 1 is 0001-01-01 (the cumulative month table
    of [datetime._DAYS_BEFORE_MONTH]). *)
Definition days_before_year (y : Z) : Z :=
  let y' := y - 1 in y' * 365 + y' / 4 - y' / 100 + y' / 400.

Definition days_before_month (y m : Z) : Z :=
  nth (Z.to_nat m) [0; 0; 31; 59; 90; 120; 151; 181; 212; 243; 273; 304; 334] 0
  + (if (2 <? m) && is_leap y then 1 else 0).

Definition toordinal (x : datetime) : Z :=
  days_before_year (dt_year x) + days_before_month (dt_year x) (dt_month x) + dt_day x.

Definition WEEKDAY_NAMES : list string :=
  ["Monday"; "Tuesday"; "Wednesday"; "Thursday"; "Friday"; "Saturday"; "Sunday"].

Definition MONTH_NAMES : list string :=
  ["January"; "February"; "March"; "April"; "May"; "June"; "July"; "August";
   "September"; "October"; "November"; "December"].

(** [x.strftime("%A, %B %-d")] in the C locale. *)
Definition strftime_label (x : datetime) : string :=
  (nth (Z.to_nat ((toordinal x + 6) mod 7)) WEEKDAY_NAMES ""
   ++ ", " ++ nth (Z.to_nat (dt_month x - 1)) MONTH_NAMES ""
   ++ " " ++ z_to_string (dt_day x))%string.

(** Two-digit zero-padded field. *)
Definition pad2 (z : Z) : string :=
  if z <? 10 then ("0" ++ z_to_string z)%string else z_to_string z.

(** [x.strftime("%Y-%m-%d")] *)
Definition strftime_ymd (x : datetime) : string :=
  (z_to_string (dt_year x) ++ "-" ++ pad2 (dt_month x) ++ "-" ++ pad2 (dt_day x))%string.

(** The quarter-start month of both scripts. *)
Definition q_start_month (month : Z) : Z :=
  if month <=? 3 then 1 else if month <=? 6 then 4 else if month <=? 9 then 7 else 10.

(** ** [get_date_ranges] (daily report) *)

Record daily_ranges := {
  dr_yesterday_start : datetime;
  dr_yesterday_end : datetime;
  dr_qtd_start : datetime;
  dr_qtd_end : datetime;
  dr_prior_qtd_start : datetime;
  dr_prior_qtd_end : datetime;
  dr_yesterday_label : string
}.

(** [now_et] is the value of [datetime.now(EASTERN)]. *)
Definition get_date_ranges_daily (reference_date : option datetime) (now_et : datetime)
  : dt_result daily_ranges :=
  let today_et := dt_midnight (match reference_date with Some r => r | None => now_et end) in
  let today_et := match reference_date with None => dt_midnight now_et | Some _ => today_et end in
  let% yesterday_start := dt_sub today_et 1 0 in
  let% yesterday_end := dt_sub today_et 0 1 in
  let q := q_start_month (dt_month today_et) in
  let% qtd_start := dt_replace_date today_et (dt_year today_et) q 1 in
  let qtd_end := yesterday_end in
  let% prior_qtd_start :=
    dt_replace_date qtd_start (dt_year qtd_start - 1) (dt_month qtd_start) (dt_day qtd_start) in
  let% prior_qtd_end :=
    dt_replace_date yesterday_end (dt_year yesterday_end - 1) (dt_month yesterday_end)
      (dt_day yesterday_end) in
  DtOk {| dr_yesterday_start := yesterday_start; dr_yesterday_end := yesterday_end;
          dr_qtd_start := qtd_start; dr_qtd_end := qtd_end;
          dr_prior_qtd_start := prior_qtd_start; dr_prior_qtd_end := prior_qtd_end;
          dr_yesterday_label := strftime_label yesterday_start |}.

(** ** [get_date_ranges] (dashboard) *)

Record dash_ranges := {
  ds_yesterday_start : datetime;
  ds_yesterday_end : datetime;
  ds_yesterday_date : string;
  ds_seven_days_start : datetime;
  ds_thirty_days_start : datetime;
  ds_window_end : datetime;
  ds_qtd_start : datetime;
  ds_qtd_end : datetime;
  ds_prior_yesterday_start : datetime;
  ds_prior_yesterday_end : datetime
}.

Definition get_date_ranges_dash (now_et : datetime) : dt_result dash_ranges :=
  let today := dt_midnight now_et in
  let% yesterday_start := dt_sub today 1 0 in
  let% yesterday_end := dt_sub today 0 1 in
  let% seven_days_start := dt_sub today 7 0 in
  let% thirty_days_start := dt_sub today 30 0 in
  let q := q_start_month (dt_month today) in
  let% qtd_start := dt_replace_date today (dt_year today) q 1 in
  let qtd_end := yesterday_end in
  let% prior_yesterday_start :=
    dt_replace_date yesterday_start (dt_year yesterday_start - 1) (dt_month yesterday_start)
      (dt_day yesterday_start) in
  let% prior_yesterday_end :=
    dt_replace_date yesterday_end (dt_year yesterday_end - 1) (dt_month yesterday_end)
      (dt_day yesterday_end) in
  DtOk {| ds_yesterday_start := yesterday_start; ds_yesterday_end := yesterday_end;
          ds_yesterday_date := strftime_ymd yesterday_start;
          ds_seven_days_start := seven_days_start;
          ds_thirty_days_start := thirty_days_start; ds_window_end := yesterday_end;
          ds_qtd_start := qtd_start; ds_qtd_end := qtd_end;
          ds_prior_yesterday_start := prior_yesterday_start;
          ds_prior_yesterday_end := prior_yesterday_end |}.

(** [x < y] between datetimes of the same [tzinfo]: the fields compared in order. *)
Fixpoint lex_ltb (a b : list Z) : bool :=
  match a, b with
  | x :: r, y :: s => (x <? y) || ((x =? y) && lex_ltb r s)
  | _, _ => false
  end.

Definition dt_ltb (x y : datetime) : bool :=
  lex_ltb [dt_year x; dt_month x; dt_day x; dt_hour x; dt_minute x; dt_second x; dt_microsecond x]
          [dt_year y; dt_month y; dt_day y; dt_hour y; dt_minute y; dt_second y; dt_microsecond y].

Definition ymd_ordinal (p : Z * Z * Z) : Z :=
  let '(y, m, d) := p in days_before_year y + days_before_month y m + d.

Definition ymd_valid (p : Z * Z * Z) : bool :=
  let '(y, m, d) := p in valid_date y m d.

(** ** Report formatting (daily report)

    [Decimal.quantize], the [',.2f'] format of a [Decimal] and [str] of a
    [Decimal], as the formatting helpers use them. *)

(** [len(self._int)]: the coefficient string of a zero is ["0"]. *)
Definition coef_len (c : N) : Z := if (c =? 0)%N then 1 else Z.of_N (ndigits c).

(** [Decimal._rescale(exp, ROUND_HALF_UP)] on a non-zero finite value
    [c * 10^e]: pad with zeros, or keep the digits above [10^qe] and round up
    when the first dropped digit is at least 5. *)
Definition rescale_half_up (c : N) (e qe : Z) : N :=
  if qe <=? e then scale c (e - qe)
  else
    let p := (10 ^ Z.to_N (qe - e))%N in
    let q := (c / p)%N in
    if (p <=? 2 * (c mod p))%N then (q + 1)%N else q.

(** [Decimal._rescale(exp, ROUND_HALF_EVEN)] on a finite value. *)
Definition rescale_half_even (c : N) (e qe : Z) : N :=
  if (c =? 0)%N then 0%N
  else if qe <=? e then scale c (e - qe)
  else round_half_even c (qe - e).

(** [x.quantize(q, rounding=ROUND_HALF_UP)] in the default context. *)
Definition dec_quantize_half_up (x q : decimal) : result decimal :=
  match x, q with
  | DNaN true, _ | _, DNaN true => Raise InvalidOperation
  | DNaN false, _ => Ok x
  | _, DNaN false => Ok q
  | DInf _, DInf _ => Ok x
  | DInf _, _ | _, DInf _ => Raise InvalidOperation
  | DFin s c e, DFin _ _ qe =>
      if negb ((etiny <=? qe) && (qe <=? emax)) then Raise InvalidOperation
      else if (c =? 0)%N then dec_fix s 0 qe
      else
        let adjusted := Z.of_N (ndigits c) + e - 1 in
        if emax <? adjusted then Raise InvalidOperation
        else if prec <? adjusted - qe + 1 then Raise InvalidOperation
        else
          let ans := rescale_half_up c e qe in
          if emax <? coef_len ans + qe - 1 then Raise InvalidOperation
          else if prec <? coef_len ans then Raise InvalidOperation
          else dec_fix s ans qe
  end.

(** ['0' * k] *)
Fixpoint zeros (k : nat) : string :=
  match k with
  | O => ""
  | S k' => String "0" (zeros k')
  end.

(** [_insert_thousands_sep(digits, spec, 0)] with separator [','] and
    groups of three: the last [min(max(len(digits), 1), 3)] digits form a
    group (left-padded with zeros when [digits] is empty) until no digit is
    left; the groups are joined by commas, the leftmost first. Each round
    drops at least one digit, so [length digits + 1] rounds suffice. *)
Fixpoint thousands_groups (fuel : nat) (digits : string) : list string :=
  match fuel with
  | O => []
  | S f =>
      let n := String.length digits in
      let l := Nat.min (Nat.max n 1) 3 in
      let g := (zeros (l - n) ++ substring (n - Nat.min l n) (Nat.min l n) digits)%string in
      let rest := substring 0 (n - Nat.min l n) digits in
      if String.eqb rest "" then [g] else g :: thousands_groups f rest
  end.

Definition insert_thousands_sep (digits : string) : string :=
  String.concat "," (rev (thousands_groups (S (String.length digits)) digits)).

(** [format(x, ',.2f')]: a special value gives its sign and [str] of its
    absolute value; a finite one is rescaled to exponent -2 with the
    context rounding (half-even), split at the decimal point, and its integer
    part grouped by thousands. The sign of a NaN is not modelled. *)
Definition dec_format_comma_2f (x : decimal) : string :=
  match x with
  | DNaN signaling => if signaling then "sNaN" else "NaN"
  | DInf s => ((if s then "-" else "") ++ "Infinity")%string
  | DFin s c e =>
      let ds := n_to_string (rescale_half_even c e (-2)) in
      let n := Z.of_nat (String.length ds) in
      let dotplace := -2 + n in
      let '(intpart, fracpart) :=
        if dotplace <? 0 then ("0", zeros (Z.to_nat (- dotplace)) ++ ds)%string
        else if n <? dotplace then ((ds ++ zeros (Z.to_nat (dotplace - n)))%string, "")
        else
          let ip := substring 0 (Z.to_nat dotplace) ds in
          (if String.eqb ip "" then "0" else ip,
           substring (Z.to_nat dotplace) (Z.to_nat (n - dotplace)) ds) in
      let fracpart := if String.eqb fracpart "" then "" else ("." ++ fracpart)%string in
      ((if s then "-" else "") ++ insert_thousands_sep intpart ++ fracpart)%string
  end.

(** [format_currency(amount)] *)
Definition format_currency (amount : decimal) : result string :=
  let* cent := Decimal "0.01" in
  let* rounded := dec_quantize_half_up amount cent in
  Ok ("$" ++ dec_format_comma_2f rounded)%string.

(** [s.replace(c, "")] for a one-character [c]. *)
Fixpoint py_remove_char (c : ascii) (s : string) : string :=
  match s with
  | EmptyString => EmptyString
  | String d r => if Ascii.eqb d c then py_remove_char c r else String d (py_remove_char c r)
  end.

Definition cent : decimal := DFin false 1 (-2).

Definition numeral_char (c : ascii) : bool := is_digit c || Ascii.eqb c "." || Ascii.eqb c "-".

(** The amount [format_currency] refuses: a signaling NaN, an infinity, or a
    finite amount whose value rounded half-up to hundredths needs more than
    28 digits. *)
Definition currency_invalid (x : decimal) : bool :=
  match x with
  | DNaN signaling => signaling
  | DInf _ => true
  | DFin _ c e => negb (c =? 0)%N && (10 ^ 28 <=? rescale_half_up c e (-2))%N
  end.

(** [x == 0]: comparing a signaling NaN raises InvalidOperation; a quiet
    NaN or an infinity is unequal to 0. *)
Definition dec_eq_zero (d : decimal) : result bool :=
  match d with
  | DNaN true => Raise InvalidOperation
  | DNaN false => Ok false
  | DInf _ => Ok false
  | DFin _ c _ => Ok (c =? 0)%N
  end.

(** [x >= 0]: an ordering comparison with any NaN raises InvalidOperation. *)
Definition dec_ge_zero (d : decimal) : result bool :=
  match d with
  | DNaN _ => Raise InvalidOperation
  | _ => Ok (dec_nonneg d)
  end.

(** [x.copy_negate()] (the sign of a NaN is not modelled). *)
Definition dec_negate (d : decimal) : decimal :=
  match d with
  | DFin s c e => DFin (negb s) c e
  | DInf s => DInf (negb s)
  | DNaN sg => DNaN sg
  end.

(** [Decimal.__sub__]: the NaN checks of [__sub__] and of [__add__] agree
    when the sign of a NaN is ignored, so it is [__add__] of the negated
    operand. *)
Definition dec_sub (x y : decimal) : result decimal := dec_add x (dec_negate y).

(** The loop of [__truediv__] on an exact quotient: drop trailing zeros
    while the exponent is below the ideal one. Each round raises the
    exponent by one, so [ideal - exp] rounds suffice. *)
Fixpoint strip_to_ideal (fuel : nat) (coeff : N) (exp ideal : Z) : N * Z :=
  match fuel with
  | O => (coeff, exp)
  | S f =>
      if (exp <? ideal) && (coeff mod 10 =? 0)%N
      then strip_to_ideal f (coeff / 10)%N (exp + 1) ideal
      else (coeff, exp)
  end.

(** [Decimal.__truediv__] by a divisor that is not zero: [x / 0] raises
    DivisionByZero, which no caller reaches ([format_yoy] tests the divisor
    against 0 first), so the divisor comes with the result of that test. *)
Definition dec_div (x y : decimal) (Hy : dec_eq_zero y = Ok false) : result decimal :=
  match x, y with
  | DNaN true, _ | _, DNaN true => Raise InvalidOperation
  | DNaN false, _ => Ok x
  | _, DNaN false => Ok y
  | DInf _, DInf _ => Raise InvalidOperation
  | DInf s1, DFin s2 _ _ => Ok (DInf (xorb s1 s2))
  | DFin s1 _ _, DInf s2 => Ok (DFin (xorb s1 s2) 0 etiny)
  | DFin s1 c1 e1, DFin s2 c2 e2 =>
      let sign := xorb s1 s2 in
      if (c1 =? 0)%N then dec_fix sign 0 (e1 - e2)
      else
        let shift := Z.of_N (ndigits c2) - Z.of_N (ndigits c1) + prec + 1 in
        let exp := e1 - e2 - shift in
        let '(coeff, remainder) :=
          if 0 <=? shift then N.div_eucl (c1 * 10 ^ Z.to_N shift) c2
          else N.div_eucl c1 (c2 * 10 ^ Z.to_N (- shift)) in
        if negb (remainder =? 0)%N then
          let coeff := if (coeff mod 5 =? 0)%N then (coeff + 1)%N else coeff in
          dec_fix sign coeff exp
        else
          let ideal_exp := e1 - e2 in
          let '(coeff, exp) := strip_to_ideal (Z.to_nat (ideal_exp - exp)) coeff exp ideal_exp in
          dec_fix sign coeff exp
  end.

(** ["%+d" % k] *)
Definition z_to_string_signed (k : Z) : string :=
  if k <? 0 then z_to_string k else ("+" ++ z_to_string k)%string.

(** [str(x)] ([Decimal.__str__] with [capitals=1]); the coefficient string
    of a zero is ["0"]. *)
Definition dec_str (x : decimal) : string :=
  match x with
  | DNaN signaling => if signaling then "sNaN" else "NaN"
  | DInf s => ((if s then "-" else "") ++ "Infinity")%string
  | DFin s c e =>
      let ds := n_to_string c in
      let n := Z.of_nat (String.length ds) in
      let leftdigits := e + n in
      let dotplace := if (e <=? 0) && (-6 <? leftdigits) then leftdigits else 1 in
      let '(intpart, fracpart) :=
        if dotplace <=? 0 then ("0", "." ++ zeros (Z.to_nat (- dotplace)) ++ ds)%string
        else if n <=? dotplace then ((ds ++ zeros (Z.to_nat (dotplace - n)))%string, "")
        else (substring 0 (Z.to_nat dotplace) ds,
              "." ++ substring (Z.to_nat dotplace) (Z.to_nat (n - dotplace)) ds)%string in
      let expo := if leftdigits =? dotplace then ""
                  else ("E" ++ z_to_string_signed (leftdigits - dotplace))%string in
      ((if s then "-" else "") ++ intpart ++ fracpart ++ expo)%string
  end.

Definition NA_TEXT : string := "N/A (no prior year data)".

(** The part of [format_yoy] after the test [prior == 0] has failed. *)
Definition yoy_body (current prior : decimal) (Hz : dec_eq_zero prior = Ok false)
  : result string :=
  let* d := dec_sub current prior in
  let* q := dec_div d prior Hz in
  let* change := dec_mul q (dec_of_int 100) in
  let* tenth := Decimal "0.1" in
  let* change := dec_quantize_half_up change tenth in
  let* nonneg := dec_ge_zero change in
  Ok ((if nonneg then "+" else "") ++ dec_str change ++ "%")%string.

(** The test [if prior == 0:] of [format_yoy] and its two branches; [z] is
    the outcome of the comparison, and the branch after a failed test gets
    the evidence that [prior] is not zero. *)
Definition yoy_branch (current prior : decimal) (z : result bool)
  : dec_eq_zero prior = z -> result string :=
  match z as z0 return dec_eq_zero prior = z0 -> result string with
  | Raise e => fun _ => Raise e
  | Ok true => fun _ => Ok NA_TEXT
  | Ok false => fun Hz => yoy_body current prior Hz
  end.

(** [format_yoy(current, prior)] *)
Definition format_yoy (current prior : decimal) : result string :=
  yoy_branch current prior (dec_eq_zero prior) eq_refl.

(** The value [(-1)^s * c * 10^e] of a finite decimal, as a rational. *)
Definition fin_value (s : bool) (c : N) (e : Z) : Q := inject_Z (zval s c) * inject_Z 10 ^ e.

Definition tenth : decimal := DFin false 1 (-1).

(** ** Requests to the Shopify API ([shopify_get], [shopify_get_url],
    [fetch_all_orders], in both scripts)

    [requests.get] is the environment: each call takes the next outcome of a
    finite trace, and a run that needs more calls than the trace has is
    [None]. A call yields an exception of [requests] (timeout, connection
    error, ...) or a response with its status code, its [Retry-After] and
    [Link] headers and its decoded body. The query parameters and the
    headers sent are not modelled; the calls made and the seconds slept
    are recorded. *)

(** [resp.json()]: not JSON at all, JSON that is not an object, or an
    object whose ["orders"] entry, when present, is an array of orders. A
    non-array ["orders"] value is not modelled. *)
Inductive body :=
| BodyInvalid
| BodyNotObject
| BodyObject (orders : option (list order)).

Record response := {
  r_status : Z;
  r_retry_after : option string;
  r_link : option string;
  r_body : body
}.

Inductive outcome :=
| ReqExc
| Resp (r : response).

(** What a call asks for: an endpoint of the Admin API ([f"{BASE_URL}/{endpoint}.json"])
    or an absolute URL. *)
Inductive target :=
| Endpoint (name : string)
| AbsUrl (url : string).

Record io_state := {
  pending : list outcome;
  requests : list target;
  slept : list Q
}.

Definition io (A : Type) : Type := io_state -> option (result A * io_state).

Definition io_ret {A} (a : A) : io A := fun s => Some (Ok a, s).

Definition io_lift {A} (r : result A) : io A := fun s => Some (r, s).

Definition io_bind {A B} (m : io A) (k : A -> io B) : io B :=
  fun s => match m s with
           | None => None
           | Some (Ok a, s') => k a s'
           | Some (Raise e, s') => Some (Raise e, s')
           end.

Notation "'let!' x ':=' m 'in' k" := (io_bind m (fun x => k))
  (at level 200, x name, right associativity).

(** [requests.get(...)] *)
Definition http_get (t : target) : io outcome :=
  fun s => match pending s with
           | [] => None
           | o :: rest =>
               Some (Ok o, {| pending := rest; requests := requests s ++ [t];
                              slept := slept s |})
           end.

(** [time.sleep(seconds)] *)
Definition sleep (seconds : Q) : io unit :=
  fun s => Some (Ok tt, {| pending := pending s; requests := requests s;
                           slept := slept s ++ [seconds] |}).

Definition MAX_RETRIES : nat := 5.

Definition RATE_LIMIT_DELAY : Q := 1 # 2.

(** [resp.raise_for_status()] raises [HTTPError] for a status in [400, 600). *)
Definition http_error (status : Z) : bool := (400 <=? status) && (status <? 600).

Section Retries.

(** [time.sleep(float(h))] for a [Retry-After] header [h]: the seconds slept,
    or the exception of [float] or [time.sleep] (neither is a
    [RequestException], so it leaves the retry loop). *)
Variable retry_after_wait : string -> result Q.

(** The [for attempt in range(MAX_RETRIES)] loop of [shopify_get] and
    [shopify_get_url], from attempt number [attempt] with [left] attempts
    to go. *)
Fixpoint get_attempts (t : target) (attempt : nat) (left : nat) : io (option response) :=
  match left with
  | O => io_ret None
  | S left' =>
      let on_request_error :=
        if (attempt <? MAX_RETRIES - 1)%nat then
          let! _ := sleep (inject_Z (2 ^ Z.of_nat attempt)) in
          get_attempts t (S attempt) left'
        else io_ret None in
      let! o := http_get t in
      match o with
      | ReqExc => on_request_error
      | Resp r =>
          if r_status r =? 429 then
            let! w := match r_retry_after r with
                      | Some h => io_lift (retry_after_wait h)
                      | None => io_ret (inject_Z (2 ^ Z.of_nat attempt))
                      end in
            let! _ := sleep w in
            get_attempts t (S attempt) left'
          else if http_error (r_status r) then on_request_error
          else
            let! _ := sleep RATE_LIMIT_DELAY in
            io_ret (Some r)
      end
  end.

(** [shopify_get(endpoint, params)] *)
Definition shopify_get (endpoint : string) : io (option response) :=
  get_attempts (Endpoint endpoint) 0 MAX_RETRIES.

(** [shopify_get_url(url)] *)
Definition shopify_get_url (url : string) : io (option response) :=
  get_attempts (AbsUrl url) 0 MAX_RETRIES.

(** [data = resp.json(); orders = data.get("orders", [])]: a body that is
    not JSON raises [requests.exceptions.JSONDecodeError], a [ValueError];
    [.get] on a non-object raises [AttributeError]. *)
Definition page_orders (r : response) : result (list order) :=
  match r_body r with
  | BodyInvalid => Raise ValueError
  | BodyNotObject => Raise AttributeError
  | BodyObject None => Ok []
  | BodyObject (Some l) => Ok l
  end.

(** The [while next_url:] loop of [fetch_all_orders]; each round makes at
    least one call, so [fuel] rounds beyond the length of the trace are
    never needed. *)
Fixpoint next_pages (fuel : nat) (next_url : option string) (all_orders : list order)
  : io (list order) :=
  match fuel with
  | O => fun _ => None
  | S fuel' =>
      match next_url with
      | Some url =>
          if String.eqb url "" then io_ret all_orders
          else
            let! resp := shopify_get_url url in
            match resp with
            | None => io_ret all_orders
            | Some r =>
                let! orders := io_lift (page_orders r) in
                next_pages fuel' (parse_link_header (r_link r)) (all_orders ++ orders)
            end
      | None => io_ret all_orders
      end
  end.

(** [fetch_all_orders(start, end, fields)] *)
Definition fetch_all_orders : io (list order) :=
  fun s =>
    (let! resp := shopify_get "orders" in
     match resp with
     | None => io_ret []
     | Some r =>
         let! orders := io_lift (page_orders r) in
         next_pages (S (length (pending s))) (parse_link_header (r_link r)) orders
     end) s.

End Retries.

(** A response that [shopify_get] returns: neither rate limited nor an HTTP error. *)
Definition accepted (r : response) : bool :=
  negb ((r_status r =? 429) || http_error (r_status r)).

Definition failed (o : outcome) : bool :=
  match o with
  | ReqExc => true
  | Resp r => negb (accepted r)
  end.

(** A failed outcome after which the retry loop goes on without reading a
    [Retry-After] header: an exception of [requests], an HTTP error, or a
    [429] without the header. *)
Definition gives_up (o : outcome) : bool :=
  match o with
  | ReqExc => true
  | Resp r =>
      if r_status r =? 429 then
        match r_retry_after r with Some _ => false | None => true end
      else http_error (r_status r)
  end.

(** An exception of [requests] or an HTTP error other than [429]. *)
Definition request_error (o : outcome) : bool :=
  match o with
  | ReqExc => true
  | Resp r => negb (r_status r =? 429) && http_error (r_status r)
  end.

(** A [Link] header with one link, to the next page. *)
Definition next_link (url : string) : string := render_links [(url, "next")].

(** A successful page of orders, linking to [next] when there is one. *)
Definition ok_page (orders : list order) (next : option string) : response :=
  {| r_status := 200; r_retry_after := None; r_link := option_map next_link next;
     r_body := BodyObject (Some orders) |}.

(** The successful pages of a paginated listing: the current page holds
    [orders], [pages] lists the URL and orders of each page after it, and the
    last page links to [last]. *)
Fixpoint page_trace (orders : list order) (pages : list (string * list order))
  (last : option string) : list outcome :=
  match pages with
  | [] => [Resp (ok_page orders last)]
  | (url, orders') :: rest => Resp (ok_page orders (Some url)) :: page_trace orders' rest last
  end.

(** Page URLs that the [Link] header carries intact: not empty, and free of
    [, ; < >] and double quotes. *)
Definition pages_ok (pages : list (string * list order)) : bool :=
  forallb (fun p => url_ok (fst p) && negb (String.eqb (fst p) "")) pages.

(** The link of the last page, when it has one, is such a URL too. *)
Definition last_ok (last : option string) : bool :=
  match last with Some v => url_ok v | None => true end.

(** ** [build_report] (daily report)

    The report text is kept as its UTF-8 bytes; the characters outside
    ASCII are written out byte by byte. *)

Definition NEWLINE : ascii := ascii_of_nat 10.

(** ["→"] (U+2192) *)
Definition ARROW : string :=
  String (ascii_of_nat 226) (String (ascii_of_nat 134) (String (ascii_of_nat 146) "")).

(** ["🎵"] (U+1F3B5) *)
Definition MUSICAL_NOTE : string :=
  String (ascii_of_nat 240) (String (ascii_of_nat 159)
    (String (ascii_of_nat 142) (String (ascii_of_nat 181) ""))).

(** ["•"] (U+2022) *)
Definition BULLET : string :=
  String (ascii_of_nat 226) (String (ascii_of_nat 128) (String (ascii_of_nat 162) "")).

(** [build_report(yesterday_revenue, qtd_revenue, prior_qtd_revenue,
    category_counts, date_label)]; [category_counts] is a dict from category
    to units, in its insertion order. *)
Definition build_report (yesterday_revenue qtd_revenue prior_qtd_revenue : decimal)
  (category_counts : list (string * Z)) (date_label : string) : result string :=
  let* yoy := format_yoy qtd_revenue prior_qtd_revenue in
  let vinyl_units := match assoc_lookup String.eqb "Vinyl" category_counts with
                     | Some v => v
                     | None => 0
                     end in
  let* yesterday := format_currency yesterday_revenue in
  let* qtd := format_currency qtd_revenue in
  let* prior_qtd := format_currency prior_qtd_revenue in
  let lines :=
    [("Yesterday: " ++ yesterday)%string;
     ("QTD: " ++ qtd ++ " (vs " ++ prior_qtd ++ " last year " ++ ARROW ++ " " ++ yoy ++ ")")%string;
     "";
     (MUSICAL_NOTE ++ " Vinyl units yesterday: " ++ z_to_string vinyl_units)%string] in
  let cats_over_10 := filter (fun kv => 10 <=? snd kv) category_counts in
  let lines :=
    match cats_over_10 with
    | [] => lines
    | _ :: _ =>
        lines ++ [""; "Categories with 10+ units sold:"] ++
        map (fun kv => (BULLET ++ " " ++ fst kv ++ ": " ++ z_to_string (snd kv) ++ " units")%string)
            cats_over_10
    end in
  Ok (String.concat (String NEWLINE "") lines).

(** A string without a line break. *)
Definition no_newline (s : string) : bool := str_forall (fun c => negb (Ascii.eqb c NEWLINE)) s.

(** ** [update_daily_revenue] (dashboard) *)

(** [x > 0]: an ordering comparison with any NaN raises InvalidOperation. *)
Definition dec_gt_zero (d : decimal) : result bool :=
  match d with
  | DNaN _ => Raise InvalidOperation
  | DInf s => Ok (negb s)
  | DFin s c _ => Ok (negb s && negb (c =? 0)%N)
  end.

(** A value found greater than zero is not zero, so dividing by it is
    defined. *)
Definition gt_zero_nonzero (p : decimal) (H : dec_gt_zero p = Ok true) : dec_eq_zero p = Ok false.
Proof.
  destruct p as [s c e|s|sg]; cbn in *.
  - destruct (c =? 0)%N; [rewrite andb_false_r in H; discriminate|reflexivity].
  - reflexivity.
  - discriminate.
Defined.

(** The test [if prior_yesterday_revenue > 0:] and its two branches; [b] is
    the outcome of the comparison, and the branch after a successful test
    gets the evidence that the divisor is not zero. *)
Definition yoy_cell (yesterday_revenue prior_revenue : decimal) (b : result bool)
  : dec_gt_zero prior_revenue = b -> result cell :=
  match b as b0 return dec_gt_zero prior_revenue = b0 -> result cell with
  | Ok true => fun Hgt =>
      let* d := dec_sub yesterday_revenue prior_revenue in
      let* r := dec_div d prior_revenue (gt_zero_nonzero prior_revenue Hgt) in
      Ok (CFloat r)
  | Ok false => fun _ => Ok (CStr "")
  | Raise e => fun _ => Raise e
  end.

(** The YoY cell: [float((yesterday - prior) / prior)] when [prior > 0],
    [""] otherwise. *)
Definition daily_yoy (yesterday_revenue prior_revenue : decimal) : result cell :=
  yoy_cell yesterday_revenue prior_revenue (dec_gt_zero prior_revenue) eq_refl.

(** [Decimal(order.get("total_price", "0"))], the amount [sum_revenue]
    adds for one order. *)
Definition total_of (o : order) : result decimal :=
  Decimal (py_str (py_get (o_total_price o) (JStr "0"))).

(** [update_daily_revenue(sh, ranges, yesterday_orders, qtd_orders,
    prior_yesterday_orders)]: [date_col] is [ws.col_values(1)] of the tab
    ["Daily Revenue Tracker"] and [yesterday_str] is [ranges["yesterday_date"]];
    the result is the row given to [ws.append_row], or [None] when the date
    is already there. *)
Definition update_daily_revenue (date_col : list string) (yesterday_str : string)
  (yesterday_orders qtd_orders prior_yesterday_orders : list order)
  : result (option (list cell)) :=
  if existsb (String.eqb yesterday_str) date_col then Ok None
  else
    let yesterday_revenue := sum_revenue yesterday_orders in
    let qtd_revenue := sum_revenue qtd_orders in
    let prior_yesterday_revenue := sum_revenue prior_yesterday_orders in
    let* yoy := daily_yoy yesterday_revenue prior_yesterday_revenue in
    Ok (Some [CStr yesterday_str; CFloat yesterday_revenue; CFloat qtd_revenue;
              CFloat prior_yesterday_revenue; yoy]).

(** * Properties *)

(** ** Concrete runs *)

(** C5 (code_bug): [top_products] converts each line item's price with
    [Decimal(...)] outside any [try]; one line item with the malformed price
    ["abc"] makes the whole call raise InvalidOperation, while
    [sum_revenue] and [monthly_revenue] catch the same conversion error. *)
Theorem top_products_raises_on_bad_price :
  top_products
    [mk_order None (Some (JStr "20.00"))
       [mk_item (Some (JStr "Tote Bag")) None (Some (JStr "abc")) (Some (JInt 1))]] 20
  = Raise InvalidOperation.
Proof. vm_compute. reflexivity. Qed.

(** C4 (counterexample): the default decimal context keeps 28 significant
    digits; [10^27 + 0.4 + 0.4] is returned as [10^27], not as the exact
    sum of the three parseable totals. *)
Lemma sum_revenue_rounds :
  sum_revenue [priced "1000000000000000000000000000"; priced "0.4"; priced "0.4"]
  = DFin false 1000000000000000000000000000 0
  /\ cents_total [priced "1000000000000000000000000000"; priced "0.4"; priced "0.4"]
     = 100000000000000000000000000080.
Proof. split; vm_compute; reflexivity. Qed.

(** C9 (counterexample): the same non-negative totals in another order give
    another result. *)
Lemma sum_revenue_order_matters :
  Permutation [priced "1000000000000000000000000000"; priced "0.4"; priced "0.4"]
              [priced "0.4"; priced "0.4"; priced "1000000000000000000000000000"]
  /\ sum_revenue [priced "1000000000000000000000000000"; priced "0.4"; priced "0.4"]
     <> sum_revenue [priced "0.4"; priced "0.4"; priced "1000000000000000000000000000"].
Proof.
  split.
  - apply (Permutation_cons_append [priced "0.4"; priced "0.4"]).
  - vm_compute. discriminate.
Qed.

(** C6 (counterexample): the month [int(created[5:7])] is not checked, so
    the key 13 appears; and an order whose price does not parse still
    leaves its month with a zero bucket. *)
Lemma monthly_revenue_keys_counterexample :
  monthly_revenue [mk_order (Some (JStr "2026-13-01T10:00:00-05:00")) (Some (JStr "5.00")) []]
  = [(13, DFin false 500 (-2))]
  /\ monthly_revenue [mk_order (Some (JStr "2026-03-05T10:00:00-05:00")) (Some (JStr "invalid")) []]
  = [(3, dec_zero_00)].
Proof. split; vm_compute; reflexivity. Qed.

(** C7 (counterexample): a negative quantity is added as it is. *)
Lemma count_units_negative_quantity :
  count_units_by_category
    [mk_order None None [mk_item (Some (JStr "Abbey Road LP")) (Some (JStr "Vinyl")) None (Some (JInt (-1)))]]
  = Ok [("Vinyl", -1); ("Books", 0); ("Posters", 0); ("Tees", 0)].
Proof. vm_compute. reflexivity. Qed.

(** C8 (counterexample): an unclassified line item of quantity 0 leaves
    the inequality an equality. *)
Lemma count_units_not_strict :
  let orders := [mk_order None None [mk_item (Some (JStr "Mug")) (Some (JStr "")) None (Some (JInt 0))]] in
  classify_line_item (mk_item (Some (JStr "Mug")) (Some (JStr "")) None (Some (JInt 0))) = Ok None
  /\ match count_units_by_category orders with
     | Ok m => sum_values m = total_quantity orders
     | Raise _ => False
     end.
Proof. split; vm_compute; reflexivity. Qed.

(** ** Association lists under an equivalence *)

Section Assoc.
Context {K V : Type} (eqb : K -> K -> bool).
Hypothesis eqb_refl : forall k, eqb k k = true.
Hypothesis eqb_sym : forall a b, eqb a b = eqb b a.
Hypothesis eqb_trans : forall a b c, eqb a b = true -> eqb b c = true -> eqb a c = true.

Lemma eqb_compat_r a b c : eqb b c = true -> eqb a b = eqb a c.
Proof.
  intros Hbc. destruct (eqb a b) eqn:E1, (eqb a c) eqn:E2; auto.
  - rewrite (eqb_trans a b c E1 Hbc) in E2. discriminate.
  - rewrite eqb_sym in Hbc.
    rewrite (eqb_trans a c b E2 Hbc) in E1. discriminate.
Qed.

Lemma eqb_compat_l a b c : eqb a b = true -> eqb a c = eqb b c.
Proof.
  intros Hab. rewrite (eqb_sym a c), (eqb_sym b c).
  apply eqb_compat_r. exact Hab.
Qed.

Lemma lookup_compat k1 k2 (d : list (K * V)) :
  eqb k1 k2 = true -> assoc_lookup eqb k1 d = assoc_lookup eqb k2 d.
Proof.
  intros H. induction d as [|[k' v] r IH]; simpl; auto.
  rewrite (eqb_compat_r k' k1 k2 H). destruct (eqb k' k2); auto.
Qed.

Lemma lookup_set k key v (d : list (K * V)) :
  assoc_lookup eqb k (assoc_set eqb key v d)
  = if eqb key k then Some v else assoc_lookup eqb k d.
Proof.
  induction d as [|[k' v'] r IH]; simpl.
  - destruct (eqb key k); reflexivity.
  - destruct (eqb k' key) eqn:E; simpl.
    + rewrite (eqb_compat_l k' key k E). destruct (eqb key k); reflexivity.
    + rewrite IH. destruct (eqb k' k) eqn:F.
      * destruct (eqb key k) eqn:G; auto.
        rewrite eqb_sym in G. rewrite (eqb_trans k' k key F G) in E. discriminate.
      * reflexivity.
Qed.

Lemma lookup_app_new k key v (d : list (K * V)) :
  assoc_lookup eqb k (d ++ [(key, v)])
  = match assoc_lookup eqb k d with
    | Some x => Some x
    | None => if eqb key k then Some v else None
    end.
Proof.
  induction d as [|[k' v'] r IH]; simpl; auto.
  destruct (eqb k' k); auto.
Qed.

Lemma lookup_none_keys k (d : list (K * V)) :
  assoc_lookup eqb k d = None -> forall k', In k' (map fst d) -> eqb k' k = false.
Proof.
  induction d as [|[k0 v0] r IH]; simpl; [tauto|].
  destruct (eqb k0 k) eqn:E; [discriminate|].
  intros H k' [<-|Hin]; auto.
Qed.

Lemma keys_set key v (d : list (K * V)) :
  assoc_lookup eqb key d <> None -> map fst (assoc_set eqb key v d) = map fst d.
Proof.
  induction d as [|[k' v'] r IH]; simpl; [tauto|].
  destruct (eqb k' key); simpl; auto.
  intros H. f_equal. auto.
Qed.

Lemma in_set k w key v (d : list (K * V)) :
  In (k, w) (assoc_set eqb key v d) ->
  In (k, w) d \/
  (w = v /\ eqb k key = true
   /\ ((exists w0, In (k, w0) d /\ assoc_lookup eqb key d = Some w0)
       \/ assoc_lookup eqb key d = None)).
Proof.
  induction d as [|[k' v'] r IH]; simpl.
  - intros [H|[]]. inversion H; subst. right. auto.
  - destruct (eqb k' key) eqn:E; simpl.
    + intros [H|H].
      * inversion H; subst. right. split; [reflexivity|]. split; [exact E|].
        left. exists v'. split; auto.
      * left. right. exact H.
    + intros [H|H].
      * left. left. exact H.
      * destruct (IH H) as [H1|(H1 & H2 & H3)]; [left; right; exact H1|].
        right. split; [exact H1|]. split; [exact H2|].
        destruct H3 as [(w0 & Hw0 & Hl)|Hl]; [left; exists w0; auto|right; auto].
Qed.

(** Pairwise non-equivalent keys. *)
Fixpoint distinct_keys (ks : list K) : Prop :=
  match ks with
  | [] => True
  | k :: r => existsb (eqb k) r = false /\ distinct_keys r
  end.

Lemma distinct_keys_app ks k :
  distinct_keys ks -> (forall k', In k' ks -> eqb k' k = false) ->
  distinct_keys (ks ++ [k]).
Proof.
  induction ks as [|k0 r IH]; simpl; intros Hd Hn.
  - auto.
  - destruct Hd as [H1 H2]. split.
    + rewrite existsb_app, H1. simpl. rewrite (Hn k0 (or_introl eq_refl)). reflexivity.
    + apply IH; auto.
Qed.

Lemma distinct_lookup k v (d : list (K * V)) :
  distinct_keys (map fst d) -> In (k, v) d -> assoc_lookup eqb k d = Some v.
Proof.
  induction d as [|[k' v'] r IH]; simpl; [tauto|].
  intros [H1 H2] [H|H].
  - inversion H; subst. rewrite eqb_refl. reflexivity.
  - destruct (eqb k' k) eqn:E; [|auto].
    exfalso. assert (existsb (eqb k') (map fst r) = true) as C.
    { apply existsb_exists. exists k. split; auto.
      apply (in_map fst) in H. exact H. }
    congruence.
Qed.
End Assoc.

(** [==] on JSON scalars is an equivalence. *)
Ltac key_eqs :=
  repeat match goal with
  | H : (_ =? _) = true |- _ => apply Z.eqb_eq in H
  | H : String.eqb _ _ = true |- _ => apply String.eqb_eq in H
  | H : Bool.eqb _ _ = true |- _ => apply Bool.eqb_prop in H
  end; subst.

Lemma py_key_eqb_refl k : py_key_eqb k k = true.
Proof.
  destruct k as [s|z|[]|]; simpl; auto.
  - apply String.eqb_refl.
  - apply Z.eqb_refl.
Qed.

Lemma py_key_eqb_sym a b : py_key_eqb a b = py_key_eqb b a.
Proof.
  destruct a as [?|?|[]|], b as [?|?|[]|]; simpl; auto;
    try apply String.eqb_sym; try apply Z.eqb_sym.
Qed.

Lemma py_key_eqb_trans a b c :
  py_key_eqb a b = true -> py_key_eqb b c = true -> py_key_eqb a c = true.
Proof.
  destruct a as [?|?|[]|], b as [?|?|[]|], c as [?|?|[]|]; simpl;
    intros H1 H2; try discriminate; key_eqs; auto;
    try apply String.eqb_refl; try apply Z.eqb_refl;
    try (exfalso; lia); apply Z.eqb_eq; lia.
Qed.

(** ** The grouping loop of [top_products] *)

Lemma top_products_step_spec ps it ps' :
  top_products_step ps it = Ok ps' ->
  exists p' ps1,
    agg_step (assoc_lookup py_key_eqb (item_key it) ps) it = Ok p' /\
    ps' = assoc_set py_key_eqb (item_key it) p' ps1 /\
    (forall p0, assoc_lookup py_key_eqb (item_key it) ps = Some p0 ->
       ps1 = ps /\ p_title p' = p_title p0) /\
    (assoc_lookup py_key_eqb (item_key it) ps = None ->
       exists mk, ps1 = ps ++ [(item_key it, mk)] /\ p_title mk = item_key it
                  /\ p_title p' = item_key it).
Proof.
  intros H. unfold top_products_step in H. unfold agg_step, item_price, item_qty, category_label.
  change (py_get (li_title it) (JStr "Unknown")) with (item_key it) in H.
  destruct (Decimal _) as [price|e]; cbn [res_bind p_units p_revenue p_title p_category] in H |- *; [|discriminate].
  destruct (classify_line_item it) as [c|e]; cbn [res_bind p_units p_revenue p_title p_category] in H |- *; [|discriminate].
  destruct (assoc_lookup py_key_eqb (item_key it) ps) as [p0|] eqn:L.
  - rewrite L in H.
    destruct (py_int_add _ _) as [u|e]; cbn [res_bind p_units p_revenue p_title p_category] in H |- *; [|discriminate].
    destruct (dec_mul_jval _ _) as [m|e]; cbn [res_bind p_units p_revenue p_title p_category] in H |- *; [|discriminate].
    destruct (dec_add _ _) as [r|e]; cbn [res_bind p_units p_revenue p_title p_category] in H |- *; [|discriminate].
    inversion H; subst. eexists; exists ps. split; [reflexivity|]. split; [reflexivity|].
    split.
    + intros p1 Hp. inversion Hp; subst. auto.
    + discriminate.
  - rewrite (lookup_app_new py_key_eqb), L, py_key_eqb_refl in H.
    destruct (py_int_add _ _) as [u|e]; cbn [res_bind p_units p_revenue p_title p_category] in H |- *; [|discriminate].
    destruct (dec_mul_jval _ _) as [m|e]; cbn [res_bind p_units p_revenue p_title p_category] in H |- *; [|discriminate].
    destruct (dec_add _ _) as [r|e]; cbn [res_bind p_units p_revenue p_title p_category] in H |- *; [|discriminate].
    inversion H; subst. eexists; eexists. split; [reflexivity|]. split; [reflexivity|].
    split.
    + discriminate.
    + intros _. eexists. split; [reflexivity|]. cbn. auto.
Qed.

Lemma agg_fold_app acc l1 l2 :
  agg_fold acc (l1 ++ l2) = let* a := agg_fold acc l1 in agg_fold a l2.
Proof.
  revert acc. induction l1 as [|it r IH]; intros acc; cbn [app agg_fold res_bind]; auto.
  destruct (agg_step acc it); cbn [res_bind]; auto.
Qed.

Lemma group_step_inv pre ps it ps' :
  distinct_keys py_key_eqb (map fst ps) ->
  (forall k p, In (k, p) ps -> p_title p = k) ->
  (forall k, agg_fold None (filter (same_key k) pre) = Ok (assoc_lookup py_key_eqb k ps)) ->
  top_products_step ps it = Ok ps' ->
  distinct_keys py_key_eqb (map fst ps') /\
  (forall k p, In (k, p) ps' -> p_title p = k) /\
  (forall k, agg_fold None (filter (same_key k) (pre ++ [it]))
             = Ok (assoc_lookup py_key_eqb k ps')).
Proof.
  intros Hd Ht Hl H.
  apply top_products_step_spec in H as (p' & ps1 & Hagg & -> & Hsome & Hnone).
  assert (Hlk : forall k, agg_fold None (filter (same_key k) (pre ++ [it]))
                 = if py_key_eqb (item_key it) k
                   then Ok (Some p') else Ok (assoc_lookup py_key_eqb k ps)).
  { intros k. rewrite filter_app, agg_fold_app, Hl. cbn [filter res_bind].
    unfold same_key at 1. destruct (py_key_eqb (item_key it) k) eqn:E.
    - cbn [agg_fold]. rewrite <- (lookup_compat py_key_eqb py_key_eqb_sym py_key_eqb_trans
                                   (item_key it) k ps E), Hagg. reflexivity.
    - reflexivity. }
  destruct (assoc_lookup py_key_eqb (item_key it) ps) as [p0|] eqn:L.
  - destruct (Hsome p0 eq_refl) as [-> Htl].
    split; [|split].
    + rewrite (keys_set py_key_eqb); [exact Hd|]. rewrite L. discriminate.
    + intros k w Hin.
      destruct (in_set py_key_eqb py_key_eqb_refl k w _ p' ps Hin) as [Hin'|(-> & Hk & [(w0 & Hw0 & Hl0)|Hl0])].
      * exact (Ht k w Hin').
      * rewrite L in Hl0. inversion Hl0; subst. rewrite Htl. exact (Ht k w0 Hw0).
      * rewrite L in Hl0. discriminate.
    + intros k. rewrite Hlk.
      rewrite (lookup_set py_key_eqb py_key_eqb_sym py_key_eqb_trans).
      destruct (py_key_eqb (item_key it) k); reflexivity.
  - destruct (Hnone eq_refl) as (mk & -> & Hmk & Htl).
    assert (Hfresh := lookup_none_keys py_key_eqb _ _ L).
    split; [|split].
    + rewrite (keys_set py_key_eqb).
      * rewrite map_app. apply distinct_keys_app; auto.
      * rewrite (lookup_app_new py_key_eqb), L, py_key_eqb_refl. discriminate.
    + intros k w Hin.
      destruct (in_set py_key_eqb py_key_eqb_refl k w _ p' _ Hin)
        as [Hin'|(-> & Hk & [(w0 & Hw0 & _)|Hl0])].
      * apply in_app_or in Hin' as [Hin'|[Hin'|[]]].
        -- exact (Ht k w Hin').
        -- inversion Hin'; subst. exact Hmk.
      * rewrite Htl. apply in_app_or in Hw0 as [Hw0|[Hw0|[]]].
        -- exfalso. apply (in_map fst) in Hw0. cbn [fst] in Hw0.
           rewrite (Hfresh k Hw0) in Hk. discriminate.
        -- inversion Hw0; reflexivity.
      * rewrite (lookup_app_new py_key_eqb), L, py_key_eqb_refl in Hl0. discriminate.
    + intros k. rewrite Hlk.
      rewrite (lookup_set py_key_eqb py_key_eqb_sym py_key_eqb_trans).
      rewrite (lookup_app_new py_key_eqb).
      destruct (py_key_eqb (item_key it) k) eqn:E; [reflexivity|].
      destruct (assoc_lookup py_key_eqb k ps); reflexivity.
Qed.

Lemma group_fold_inv items : forall pre ps ps',
  distinct_keys py_key_eqb (map fst ps) ->
  (forall k p, In (k, p) ps -> p_title p = k) ->
  (forall k, agg_fold None (filter (same_key k) pre) = Ok (assoc_lookup py_key_eqb k ps)) ->
  fold_res top_products_step items ps = Ok ps' ->
  distinct_keys py_key_eqb (map fst ps') /\
  (forall k p, In (k, p) ps' -> p_title p = k) /\
  (forall k, agg_fold None (filter (same_key k) (pre ++ items))
             = Ok (assoc_lookup py_key_eqb k ps')).
Proof.
  induction items as [|it r IH]; intros pre ps ps' Hd Ht Hl H; cbn [fold_res] in H.
  - inversion H; subst. rewrite app_nil_r. auto.
  - destruct (top_products_step ps it) as [ps1|e] eqn:E; cbn [res_bind] in H; [|discriminate].
    destruct (group_step_inv pre ps it ps1 Hd Ht Hl E) as (Hd1 & Ht1 & Hl1).
    replace (pre ++ it :: r) with ((pre ++ [it]) ++ r) by (rewrite <- app_assoc; reflexivity).
    exact (IH _ _ _ Hd1 Ht1 Hl1 H).
Qed.

(** Every aggregate of [products.values()] is the per-title fold over the
    line items of its title, and no two aggregates share a title. *)
Lemma group_products_aggregates orders g :
  group_products orders = Ok g ->
  forall p, In p g ->
    agg_fold None (filter (same_key (p_title p)) (all_items orders)) = Ok (Some p)
    /\ (forall p', In p' g -> py_key_eqb (p_title p') (p_title p) = true -> p' = p).
Proof.
  unfold group_products. intros H.
  destruct (fold_res top_products_step (all_items orders) []) as [ps|e] eqn:E;
    cbn [res_bind] in H; [|discriminate].
  inversion H; subst g; clear H.
  destruct (group_fold_inv (all_items orders) [] [] ps I
              ltac:(intros k p []) ltac:(intros k; reflexivity) E) as (Hd & Ht & Hl).
  cbn [app] in Hl.
  intros p Hp. apply in_map_iff in Hp as ([k p1] & <- & Hin). cbn [snd].
  rewrite (Ht k p1 Hin).
  assert (Hk : assoc_lookup py_key_eqb k ps = Some p1)
    by exact (distinct_lookup py_key_eqb py_key_eqb_refl k p1 ps Hd Hin).
  split.
  - rewrite Hl, Hk. reflexivity.
  - intros p' Hp' Heq. apply in_map_iff in Hp' as ([k' p2] & <- & Hin'). cbn [snd] in *.
    rewrite (Ht k' p2 Hin') in Heq.
    assert (Hk' := distinct_lookup py_key_eqb py_key_eqb_refl k' p2 ps Hd Hin').
    rewrite (lookup_compat py_key_eqb py_key_eqb_sym py_key_eqb_trans k' k ps Heq), Hk in Hk'.
    inversion Hk'; reflexivity.
Qed.

(** Once an aggregate exists, further occurrences keep its title and
    category and add their units and revenue. *)
Lemma agg_fold_some p0 l p :
  agg_fold (Some p0) l = Ok (Some p) ->
  p_title p = p_title p0 /\ p_category p = p_category p0 /\
  fold_res (fun u it => py_int_add u (item_qty it)) l (p_units p0) = Ok (p_units p) /\
  fold_res (fun r it =>
              let* pr := item_price it in
              let* m := dec_mul_jval pr (item_qty it) in
              dec_add r m) l (p_revenue p0) = Ok (p_revenue p).
Proof.
  revert p0. induction l as [|it r IH]; intros p0 H; cbn [agg_fold fold_res] in *.
  - inversion H; subst. auto.
  - unfold agg_step in H.
    destruct (item_price it) as [pr|e]; cbn [res_bind] in H |- *; [|discriminate].
    destruct (classify_line_item it) as [c|e]; cbn [res_bind] in H; [|discriminate].
    destruct (py_int_add (p_units p0) (item_qty it)) as [u|e]; cbn [res_bind] in H |- *;
      [|discriminate].
    destruct (dec_mul_jval pr (item_qty it)) as [m|e]; cbn [res_bind] in H |- *; [|discriminate].
    destruct (dec_add (p_revenue p0) m) as [rv|e]; cbn [res_bind] in H |- *; [|discriminate].
    destruct (IH _ H) as (H1 & H2 & H3 & H4). cbn [p_title p_category p_units p_revenue] in *.
    auto.
Qed.

Lemma agg_fold_none l p :
  agg_fold None l = Ok (Some p) ->
  exists first rest c,
    l = first :: rest /\ classify_line_item first = Ok c /\
    p_title p = item_key first /\ p_category p = category_label c /\
    group_units l = Ok (p_units p) /\ group_revenue l = Ok (p_revenue p).
Proof.
  destruct l as [|it r]; cbn [agg_fold]; intros H; [discriminate|].
  unfold agg_step in H.
  destruct (item_price it) as [pr|e] eqn:Epr; cbn [res_bind] in H; [|discriminate].
  destruct (classify_line_item it) as [c|e] eqn:Ec; cbn [res_bind] in H; [|discriminate].
  cbn [p_units p_revenue p_title p_category] in H.
  destruct (py_int_add 0 (item_qty it)) as [u|e] eqn:Eu; cbn [res_bind] in H; [|discriminate].
  destruct (dec_mul_jval pr (item_qty it)) as [m|e] eqn:Em; cbn [res_bind] in H; [|discriminate].
  destruct (dec_add dec_zero_00 m) as [rv|e] eqn:Er; cbn [res_bind] in H; [|discriminate].
  destruct (agg_fold_some _ _ _ H) as (H1 & H2 & H3 & H4).
  cbn [p_title p_category p_units p_revenue] in *.
  exists it, r, c. repeat split; auto.
  - unfold group_units. cbn [fold_res]. rewrite Eu. exact H3.
  - unfold group_revenue. cbn [fold_res]. rewrite Epr. cbn [res_bind].
    rewrite Em. cbn [res_bind]. rewrite Er. exact H4.
Qed.

(** ** The stable sort and the slice *)

Lemma sort_by_units_desc_cons x l :
  sort_by_units_desc (x :: l) = insert_desc x (sort_by_units_desc l).
Proof. reflexivity. Qed.

Lemma insert_desc_perm x l : Permutation (insert_desc x l) (x :: l).
Proof.
  induction l as [|q r IH]; cbn [insert_desc]; auto.
  destruct (p_units q <=? p_units x); auto.
  rewrite IH. apply perm_swap.
Qed.

Lemma sort_by_units_desc_perm l : Permutation (sort_by_units_desc l) l.
Proof.
  induction l as [|x r IH]; [reflexivity|].
  rewrite sort_by_units_desc_cons, insert_desc_perm. constructor. exact IH.
Qed.

Lemma insert_desc_hd q x l :
  HdRel units_ge q l -> units_ge q x -> HdRel units_ge q (insert_desc x l).
Proof.
  destruct l as [|q' r]; cbn [insert_desc]; intros H1 H2; [constructor; exact H2|].
  destruct (p_units q' <=? p_units x); constructor; [exact H2|].
  inversion H1; assumption.
Qed.

Lemma insert_desc_sorted x l : Sorted units_ge l -> Sorted units_ge (insert_desc x l).
Proof.
  induction l as [|q r IH]; cbn [insert_desc]; intros H.
  - constructor; constructor.
  - destruct (p_units q <=? p_units x) eqn:E.
    + apply Z.leb_le in E. constructor; [exact H|]. constructor. exact E.
    + apply Z.leb_gt in E. inversion H; subst. constructor.
      * apply IH. assumption.
      * apply insert_desc_hd; [assumption|]. unfold units_ge. lia.
Qed.

Lemma sort_by_units_desc_sorted l : Sorted units_ge (sort_by_units_desc l).
Proof.
  induction l as [|x r IH]; [constructor|].
  rewrite sort_by_units_desc_cons. apply insert_desc_sorted. exact IH.
Qed.

(** Insertion passes only over strictly larger units: equal units keep
    their relative order. *)
Lemma insert_desc_filter u x l :
  filter (fun p => p_units p =? u) (insert_desc x l)
  = if p_units x =? u then x :: filter (fun p => p_units p =? u) l
    else filter (fun p => p_units p =? u) l.
Proof.
  induction l as [|q r IH]; cbn [insert_desc filter]; auto.
  destruct (p_units q <=? p_units x) eqn:E; cbn [filter].
  - destruct (p_units x =? u); reflexivity.
  - rewrite IH. apply Z.leb_gt in E.
    destruct (p_units x =? u) eqn:F, (p_units q =? u) eqn:G; auto.
    apply Z.eqb_eq in F. apply Z.eqb_eq in G. lia.
Qed.

Lemma sort_by_units_desc_stable u l :
  filter (fun p => p_units p =? u) (sort_by_units_desc l)
  = filter (fun p => p_units p =? u) l.
Proof.
  induction l as [|x r IH]; [reflexivity|].
  rewrite sort_by_units_desc_cons, insert_desc_filter, IH. cbn [filter].
  destruct (p_units x =? u); reflexivity.
Qed.

Lemma sorted_firstn {A} (R : A -> A -> Prop) k l : Sorted R l -> Sorted R (firstn k l).
Proof.
  revert l. induction k as [|k IH]; intros l H; cbn [firstn]; [constructor|].
  destruct l as [|a r]; [constructor|].
  inversion H; subst. constructor; [apply IH; assumption|].
  destruct k as [|k]; cbn [firstn]; [constructor|].
  destruct r as [|b r']; [constructor|]. cbn [firstn].
  inversion H3; subst. constructor. assumption.
Qed.

Lemma py_slice_upto_nonneg {A} (l : list A) n :
  0 <= n -> py_slice_upto l n = firstn (Z.to_nat n) l.
Proof.
  intros H. unfold py_slice_upto. destruct (0 <=? n) eqn:E; auto.
  apply Z.leb_gt in E. lia.
Qed.

Lemma py_slice_upto_in {A} (l : list A) n x : In x (py_slice_upto l n) -> In x l.
Proof.
  unfold py_slice_upto.
  destruct (0 <=? n); intros H; [set (k := Z.to_nat n) in H
    | set (k := Z.to_nat (Z.of_nat (length l) + n)) in H];
    rewrite <- (firstn_skipn k l); apply in_or_app; left; exact H.
Qed.

(** C2: for every list of orders, each aggregate returned by [top_products]
    belongs to the group of line items whose title equals its title ([==]
    on the raw title, exact string equality for strings); that group is
    non-empty, its first line item gives the title and the category
    (["Other"] when unclassified), the units are the group's quantities
    added from 0, and the revenue is [price * quantity] of each occurrence,
    with that occurrence's own price, added from [Decimal("0.00")]. *)
Theorem top_products_aggregate orders n out p :
  top_products orders n = Ok out -> In p out ->
  exists first rest c,
    filter (same_key (p_title p)) (all_items orders) = first :: rest /\
    p_title p = item_key first /\
    classify_line_item first = Ok c /\ p_category p = category_label c /\
    group_units (first :: rest) = Ok (p_units p) /\
    group_revenue (first :: rest) = Ok (p_revenue p).
Proof.
  unfold top_products. intros H Hin.
  destruct (group_products orders) as [g|e] eqn:G; cbn [res_bind] in H; [|discriminate].
  inversion H; subst out; clear H.
  apply py_slice_upto_in in Hin.
  apply (Permutation_in _ (sort_by_units_desc_perm g)) in Hin.
  destruct (group_products_aggregates orders g G p Hin) as [Hf _].
  destruct (agg_fold_none _ _ Hf) as (first & rest & c & Hl & Hc & Ht & Hcat & Hu & Hr).
  rewrite Hl in Hu, Hr. exists first, rest, c. repeat split; assumption.
Qed.

(** C3: for a count [n >= 0], [top_products orders n] is a prefix of a
    stable sort of the title groups in first-encounter order: the sort is
    non-increasing in units and keeps the encounter order among equal
    units; the prefix has at most [n] aggregates, and all groups when there
    are at most [n]. *)
Theorem top_products_sorted_prefix orders n out :
  top_products orders n = Ok out -> 0 <= n ->
  exists g s,
    group_products orders = Ok g /\ Permutation s g /\ Sorted units_ge s /\
    (forall u, filter (fun p => p_units p =? u) s = filter (fun p => p_units p =? u) g) /\
    (exists rest, s = out ++ rest) /\ Sorted units_ge out /\
    Z.of_nat (length out) <= n /\
    (Z.of_nat (length g) <= n -> out = s).
Proof.
  unfold top_products. intros H Hn.
  destruct (group_products orders) as [g|e] eqn:G; cbn [res_bind] in H; [|discriminate].
  inversion H; subst out; clear H.
  rewrite py_slice_upto_nonneg by exact Hn.
  exists g, (sort_by_units_desc g).
  split; [reflexivity|]. split; [apply sort_by_units_desc_perm|].
  split; [apply sort_by_units_desc_sorted|].
  split; [intros u; apply sort_by_units_desc_stable|].
  split; [exists (skipn (Z.to_nat n) (sort_by_units_desc g)); symmetry; apply firstn_skipn|].
  split; [apply sorted_firstn, sort_by_units_desc_sorted|].
  split.
  - rewrite length_firstn. lia.
  - intros Hg. apply firstn_all2.
    rewrite (Permutation_length (sort_by_units_desc_perm g)). lia.
Qed.

Lemma assoc_lookup_in {K V} (eqb : K -> K -> bool) k (d : list (K * V)) v :
  assoc_lookup eqb k d = Some v -> exists k', In (k', v) d /\ eqb k' k = true.
Proof.
  induction d as [|[k1 v1] r IH]; cbn [assoc_lookup]; intros H; [discriminate|].
  destruct (eqb k1 k) eqn:E.
  - inversion H; subst. exists k1. split; [left; reflexivity|exact E].
  - destruct (IH H) as (k' & Hin & Hk). exists k'. split; [right; exact Hin|exact Hk].
Qed.

(** Conversely, every non-empty title group has its aggregate among
    [products.values()]. *)
Lemma group_products_lookup orders g k p :
  group_products orders = Ok g ->
  agg_fold None (filter (same_key k) (all_items orders)) = Ok (Some p) ->
  In p g /\ py_key_eqb (p_title p) k = true.
Proof.
  unfold group_products. intros H Hf.
  destruct (fold_res top_products_step (all_items orders) []) as [ps|e] eqn:E;
    cbn [res_bind] in H; [|discriminate].
  inversion H; subst g; clear H.
  destruct (group_fold_inv (all_items orders) [] [] ps I
              ltac:(intros k' p' []) ltac:(intros k'; reflexivity) E) as (Hd & Ht & Hl).
  cbn [app] in Hl. rewrite Hl in Hf. inversion Hf as [Hk].
  destruct (assoc_lookup_in py_key_eqb k ps p Hk) as (k' & Hin & Hk').
  rewrite (Ht k' p Hin). split; [|exact Hk'].
  apply in_map_iff. exists (k', p). auto.
Qed.

Lemma agg_fold_some_some p0 l o : agg_fold (Some p0) l = Ok o -> exists p, o = Some p.
Proof.
  revert p0. induction l as [|it r IH]; intros p0 H; cbn [agg_fold] in H.
  - inversion H; eauto.
  - destruct (agg_step (Some p0) it) as [p1|e]; cbn [res_bind] in H; [|discriminate].
    exact (IH _ H).
Qed.

Lemma same_key_unknown l :
  filter (same_key (JStr "Unknown")) l = filter unknown_title l.
Proof.
  apply filter_ext. intros it. unfold same_key, item_key, unknown_title, py_get.
  destruct (li_title it) as [[s|z|b|]|]; reflexivity.
Qed.

Lemma py_key_eqb_str x s : py_key_eqb x (JStr s) = true -> x = JStr s.
Proof.
  destruct x; cbn [py_key_eqb]; intros H; try discriminate.
  apply String.eqb_eq in H. subst. reflexivity.
Qed.

(** C10: every line item without a title is grouped under the literal title
    ["Unknown"]: when at least one exists, [products.values()] holds exactly
    one aggregate titled ["Unknown"], and it is the fold over all line items
    whose title is absent or the string ["Unknown"], across all orders. *)
Theorem top_products_unknown_title orders g :
  group_products orders = Ok g ->
  (exists it, In it (all_items orders) /\ li_title it = None) ->
  exists p, In p g /\ p_title p = JStr "Unknown" /\
    group_units (filter unknown_title (all_items orders)) = Ok (p_units p) /\
    group_revenue (filter unknown_title (all_items orders)) = Ok (p_revenue p) /\
    (forall p', In p' g -> p_title p' = JStr "Unknown" -> p' = p).
Proof.
  intros G (it & Hit & Hnone).
  assert (Hf : exists o, agg_fold None (filter (same_key (JStr "Unknown")) (all_items orders)) = Ok o).
  { (* the group of the key "Unknown" is a sub-list of a successful fold *)
    unfold group_products in G.
    destruct (fold_res top_products_step (all_items orders) []) as [ps|e] eqn:E;
      cbn [res_bind] in G; [|discriminate].
    destruct (group_fold_inv (all_items orders) [] [] ps I
                ltac:(intros k' p' []) ltac:(intros k'; reflexivity) E) as (_ & _ & Hl).
    eexists. exact (Hl (JStr "Unknown")). }
  destruct Hf as [o Hf].
  assert (Hin : In it (filter (same_key (JStr "Unknown")) (all_items orders))).
  { apply filter_In. split; [exact Hit|].
    unfold same_key, item_key, py_get. rewrite Hnone. reflexivity. }
  destruct (filter (same_key (JStr "Unknown")) (all_items orders)) as [|it0 r] eqn:L;
    [destruct Hin|].
  assert (Hs : exists p, o = Some p).
  { clear L. cbn [agg_fold] in Hf.
    destruct (agg_step None it0) as [p0|e]; cbn [res_bind] in Hf; [|discriminate].
    exact (agg_fold_some_some _ _ _ Hf). }
  destruct Hs as [p ->]. rewrite <- L in Hf. rename Hf into Hf'.
  destruct (group_products_lookup orders g _ p G Hf') as [Hpg Hkey].
  apply py_key_eqb_str in Hkey.
  destruct (agg_fold_none _ _ Hf') as (first & rest & c & Hl & _ & _ & _ & Hu & Hr).
  rewrite same_key_unknown in Hu, Hr.
  exists p. split; [exact Hpg|]. split; [exact Hkey|]. split; [exact Hu|]. split; [exact Hr|].
  intros p' Hp' Ht'.
  destruct (group_products_aggregates orders g G p' Hp') as [_ Huniq].
  symmetry. apply Huniq; [exact Hpg|]. rewrite Hkey, Ht'. apply py_key_eqb_refl.
Qed.

(** ** Classification *)

Lemma py_lower_char_space c : py_isspace c = true -> py_lower_char c = c.
Proof.
  destruct c as [[] [] [] [] [] [] [] []]; vm_compute; intros H;
    first [reflexivity | discriminate H].
Qed.

Lemma py_lower_app a b : py_lower (a ++ b)%string = (py_lower a ++ py_lower b)%string.
Proof. induction a as [|c r IH]; cbn [py_lower append]; [reflexivity|]. rewrite IH. reflexivity. Qed.

Lemma py_lower_spaces w : str_forall py_isspace w = true -> py_lower w = w.
Proof.
  induction w as [|c r IH]; cbn [str_forall py_lower]; intros H; [reflexivity|].
  apply andb_prop in H as [H1 H2]. rewrite py_lower_char_space, IH; auto.
Qed.

Lemma py_rstrip_split r : exists w, r = (py_rstrip r ++ w)%string /\ str_forall py_isspace w = true.
Proof.
  induction r as [|c r (w & Hr & Hw)]; cbn [py_rstrip].
  - exists ""%string. auto.
  - destruct (py_isspace c && String.eqb (py_rstrip r) "") eqn:E.
    + apply andb_prop in E as [E1 E2]. apply String.eqb_eq in E2.
      rewrite E2 in Hr. cbn [append] in Hr |- *.
      exists (String c w). cbn [str_forall]. rewrite E1, Hw, <- Hr. auto.
    + exists w. cbn [append]. rewrite <- Hr. auto.
Qed.

(** A keyword that is non-empty and free of whitespace. *)
Definition plain_keyword (kw : string) : Prop :=
  kw <> ""%string /\ str_forall (fun c => negb (py_isspace c)) kw = true.

Lemma keywords_plain kc : In kc CATEGORY_KEYWORDS -> plain_keyword (fst kc).
Proof.
  intros H. unfold CATEGORY_KEYWORDS in H.
  repeat (destruct H as [<-|H]; [split; [discriminate|reflexivity]|]). destruct H.
Qed.

Lemma prefix_space_head k kw c x :
  py_isspace c = true -> negb (py_isspace k) = true ->
  String.prefix (String k kw) (String c x) = false.
Proof.
  intros Hc Hk. cbn [String.prefix].
  destruct (ascii_dec k c) as [->|]; [rewrite Hc in Hk; discriminate|reflexivity].
Qed.

Lemma prefix_app_spaces kw x w :
  str_forall (fun c => negb (py_isspace c)) kw = true ->
  str_forall py_isspace w = true ->
  String.prefix kw (x ++ w)%string = String.prefix kw x.
Proof.
  revert kw. induction x as [|c x IH]; intros kw Hk Hw; cbn [append].
  - destruct kw as [|k kw]; [destruct w; reflexivity|]. destruct w as [|c w]; [reflexivity|].
    cbn [str_forall] in Hk, Hw. apply andb_prop in Hk as [Hk _]. apply andb_prop in Hw as [Hw _].
    rewrite prefix_space_head by assumption. reflexivity.
  - destruct kw as [|k kw]; [reflexivity|]. cbn [String.prefix].
    destruct (ascii_dec k c); [|reflexivity].
    cbn [str_forall] in Hk. apply andb_prop in Hk as [_ Hk]. apply IH; assumption.
Qed.

Lemma contains_app_spaces kw x w :
  plain_keyword kw -> str_forall py_isspace w = true ->
  py_contains kw (x ++ w)%string = py_contains kw x.
Proof.
  intros [Hne Hk] Hw. induction x as [|c x IH]; cbn [append].
  - destruct kw as [|k kw]; [congruence|].
    induction w as [|c w IHw]; [reflexivity|].
    cbn [py_contains]. cbn [str_forall] in Hw, Hk.
    apply andb_prop in Hw as [Hc Hw]. apply andb_prop in Hk as [Hk0 _].
    rewrite prefix_space_head by assumption. apply IHw. exact Hw.
  - cbn [py_contains]. rewrite IH.
    replace (String c (x ++ w)%string) with (String c x ++ w)%string by reflexivity.
    rewrite prefix_app_spaces by assumption. reflexivity.
Qed.

Lemma contains_lstrip kw s :
  plain_keyword kw -> py_contains kw (py_lower (py_lstrip s)) = py_contains kw (py_lower s).
Proof.
  intros [Hne Hk]. induction s as [|c r IH]; cbn [py_lstrip]; [reflexivity|].
  destruct (py_isspace c) eqn:Hc; [|reflexivity].
  rewrite IH. cbn [py_lower py_contains]. rewrite (py_lower_char_space c Hc).
  destruct kw as [|k kw]; [congruence|].
  cbn [str_forall] in Hk. apply andb_prop in Hk as [Hk0 _].
  rewrite prefix_space_head by assumption. reflexivity.
Qed.

(** A keyword occurs in the stripped, lower-cased text exactly when it
    occurs in the lower-cased text. *)
Lemma contains_strip kw s :
  plain_keyword kw -> py_contains kw (py_lower (py_strip s)) = py_contains kw (py_lower s).
Proof.
  intros Hkw. unfold py_strip. rewrite <- (contains_lstrip kw s Hkw).
  generalize (py_lstrip s) as r. intros r.
  destruct (py_rstrip_split r) as (w & Hr & Hw).
  transitivity (py_contains kw (py_lower (py_rstrip r ++ w)%string)).
  - rewrite py_lower_app, (py_lower_spaces w Hw).
    symmetry. apply contains_app_spaces; assumption.
  - rewrite <- Hr. reflexivity.
Qed.

Lemma first_exact_find pt cats :
  first_exact pt cats = find (fun cat => String.eqb (py_lower pt) (py_lower cat)) cats.
Proof.
  induction cats as [|cat r IH]; cbn [first_exact find]; [reflexivity|].
  rewrite IH. reflexivity.
Qed.

Lemma first_keyword_find s kws :
  first_keyword s kws =
  match find (fun kc => py_contains (fst kc) s) kws with
  | Some (_, cat) => Some cat
  | None => None
  end.
Proof.
  induction kws as [|[kw cat] r IH]; cbn [first_keyword find fst]; [reflexivity|].
  destruct (py_contains kw s); [reflexivity|exact IH].
Qed.

Lemma find_keyword_ext a b (kws : list (string * string)) :
  (forall kc, In kc kws -> py_contains (fst kc) a = py_contains (fst kc) b) ->
  find (fun kc => py_contains (fst kc) a) kws = find (fun kc => py_contains (fst kc) b) kws.
Proof.
  induction kws as [|kc r IH]; intros H; cbn [find]; [reflexivity|].
  rewrite (H kc (or_introl eq_refl)), IH; [reflexivity|].
  intros kc' Hin. apply H. right. exact Hin.
Qed.

(** C1: [classify_line_item] is the function [classify_spec] of the
    product type and the title: exact match of the trimmed, lower-cased
    product type with a category name; else the first keyword, in table
    order, contained in the lower-cased product type; else the first one
    contained in the lower-cased title; else unclassified.  An exact
    product-type match is returned whatever the title is (the title is not
    even read). *)
Theorem classify_line_item_spec item pt :
  text_or_empty (li_product_type item) = Ok pt ->
  (forall t, text_or_empty (li_title item) = Ok t ->
             classify_line_item item = Ok (classify_spec pt t)) /\
  (forall cat, In cat CATEGORIES -> py_lower (py_strip pt) = py_lower cat ->
               classify_line_item item = Ok (Some cat)).
Proof.
  intros Hpt. unfold classify_line_item. rewrite Hpt. cbn [res_bind].
  rewrite first_exact_find. split.
  - intros t Ht. unfold classify_spec.
    destruct (find _ CATEGORIES) as [cat|]; [reflexivity|].
    rewrite first_keyword_find.
    rewrite (find_keyword_ext (py_lower (py_strip pt)) (py_lower pt));
      [|intros kc Hin; apply contains_strip, keywords_plain, Hin].
    destruct (find _ CATEGORY_KEYWORDS) as [[kw cat]|]; [reflexivity|].
    rewrite Ht. cbn [res_bind]. rewrite first_keyword_find. reflexivity.
  - intros cat Hin Heq. rewrite Heq.
    unfold CATEGORIES in Hin.
    repeat (destruct Hin as [<-|Hin]; [reflexivity|]). destruct Hin.
Qed.

(** ** Exact sums of amounts in hundredths *)

Lemma ndigits_aux_le f c k :
  (c < 10 ^ N.of_nat k)%N -> (ndigits_aux f c <= N.of_nat k)%N.
Proof.
  revert c k. induction f as [|f IH]; intros c k H; cbn [ndigits_aux]; [lia|].
  destruct (c =? 0)%N eqn:E; [lia|].
  apply N.eqb_neq in E.
  destruct k as [|k]; [cbn in H; lia|].
  rewrite Nat2N.inj_succ, N.pow_succ_r' in H.
  assert (Hq : (c / 10 < 10 ^ N.of_nat k)%N) by (apply N.Div0.div_lt_upper_bound; lia).
  specialize (IH _ _ Hq). rewrite Nat2N.inj_succ. lia.
Qed.

Lemma dec_fix_cents neg c :
  (0 < c)%N -> (c < 10 ^ 28)%N -> dec_fix neg c (-2) = Ok (DFin neg c (-2)).
Proof.
  intros H0 H1. unfold dec_fix.
  replace (c =? 0)%N with false by (symmetry; apply N.eqb_neq; lia).
  assert (Hn : (ndigits c <= 28)%N)
    by (apply (ndigits_aux_le _ c 28); exact H1).
  unfold etop, etiny, emax, emin, prec.
  destruct (Z.ltb_spec (999999 - 28 + 1) (Z.of_N (ndigits c) + -2 - 28)); [lia|].
  destruct (Z.ltb_spec (-2) (Z.max (Z.of_N (ndigits c) + -2 - 28) (-999999 - 28 + 1)));
    [lia|reflexivity].
Qed.

Lemma dec_fix_zero_cents b : dec_fix b 0 (-2) = Ok (DFin b 0 (-2)).
Proof. reflexivity. Qed.

Lemma zval_sign_abs v : zval (v <? 0) (Z.to_N (Z.abs v)) = v.
Proof. unfold zval. destruct (Z.ltb_spec v 0); lia. Qed.

Lemma zval_abs s n : Z.abs (zval s n) = Z.of_N n.
Proof. unfold zval. destruct s; lia. Qed.

Lemma zval_ltb s n : n <> 0%N -> (zval s n <? 0) = s.
Proof.
  intros H. unfold zval. destruct s.
  - apply Z.ltb_lt. lia.
  - apply Z.ltb_ge. lia.
Qed.

Lemma scale_0 c : scale c 0 = c.
Proof. unfold scale. cbn. lia. Qed.

Lemma scale_zero c k : scale c k = 0%N <-> c = 0%N.
Proof.
  unfold scale. split; intros H; [|subst; reflexivity].
  apply N.eq_mul_0 in H as [H|H]; [exact H|].
  exfalso. apply (N.pow_nonzero 10 (Z.to_N k)); [lia|exact H].
Qed.

Lemma scale_large c k : c <> 0%N -> 28 <= k -> (10 ^ 28 <= scale c k)%N.
Proof.
  intros Hc Hk. unfold scale.
  assert (H : (10 ^ 28 <= 10 ^ Z.to_N k)%N) by (apply N.pow_le_mono_r; lia).
  nia.
Qed.

(** Adding a finite decimal of exponent at least -2 to an amount held in
    hundredths is exact below [10^28] hundredths. *)
Lemma dec_add_cents v s c e :
  -2 <= e -> Z.abs (v + zval s (scale c (e + 2))) < 10 ^ 28 ->
  dec_add (dec_cents v) (DFin s c e) = Ok (dec_cents (v + zval s (scale c (e + 2)))).
Proof.
  intros He Hb. unfold dec_cents at 1, dec_add.
  replace (Z.min (-2) e) with (-2) by lia.
  destruct (Z.eq_dec v 0) as [->|Hv]; destruct (N.eq_dec c 0) as [->|Hc].
  - cbn [Z.ltb Z.compare Z.abs Z.to_N N.eqb andb].
    unfold scale. rewrite N.mul_0_l. unfold zval, dec_cents.
    destruct s; reflexivity.
  - replace (Z.to_N (Z.abs 0) =? 0)%N with true by reflexivity.
    replace (c =? 0)%N with false by (symmetry; apply N.eqb_neq; exact Hc).
    cbn [andb].
    rewrite Z.add_0_l in Hb |- *. rewrite zval_abs in Hb.
    assert (He' : e < 26).
    { destruct (Z.lt_ge_cases e 26) as [H|H]; [exact H|exfalso].
      assert (H' := scale_large c (e + 2) Hc ltac:(lia)). lia. }
    replace (Z.max (-2) (e - prec - 1)) with (-2) by (unfold prec; lia).
    replace (e - -2) with (e + 2) by lia.
    assert (Hs : scale c (e + 2) <> 0%N) by (rewrite scale_zero; exact Hc).
    rewrite dec_fix_cents by lia.
    unfold dec_cents. rewrite (zval_ltb s _ Hs), zval_abs, N2Z.id. reflexivity.
  - replace (Z.to_N (Z.abs v) =? 0)%N with false by (symmetry; apply N.eqb_neq; lia).
    cbn [N.eqb andb].
    replace (Z.max (-2) (-2 - prec - 1)) with (-2) by (unfold prec; lia).
    replace (-2 - -2) with 0 by lia. rewrite scale_0.
    unfold scale, zval in Hb |- *. rewrite N.mul_0_l in Hb |- *.
    replace (if s then - Z.of_N 0 else Z.of_N 0) with 0 in Hb |- * by (destruct s; reflexivity).
    rewrite Z.add_0_r in Hb |- *.
    apply dec_fix_cents; lia.
  - replace (Z.to_N (Z.abs v) =? 0)%N with false by (symmetry; apply N.eqb_neq; lia).
    replace (c =? 0)%N with false by (symmetry; apply N.eqb_neq; exact Hc).
    cbn [andb].
    replace (-2 - -2) with 0 by lia. replace (e - -2) with (e + 2) by lia.
    rewrite scale_0, zval_sign_abs.
    destruct (Z.eqb_spec (v + zval s (scale c (e + 2))) 0) as [Hz|Hz].
    + rewrite Hz. reflexivity.
    + rewrite dec_fix_cents by lia. reflexivity.
Qed.

(** [sum_revenue] from an amount in hundredths adds the parseable totals
    exactly while the running magnitudes stay below [10^28] hundredths. *)
Lemma sum_revenue_fold_cents orders v :
  totals_are_cents orders -> Z.abs v + cents_abs_total orders < 10 ^ 28 ->
  fold_left sum_revenue_step orders (dec_cents v) = dec_cents (v + cents_total orders).
Proof.
  revert v. induction orders as [|o r IH]; intros v Hc Hb; cbn [fold_left].
  - unfold cents_total. cbn [fold_right]. rewrite Z.add_0_r. reflexivity.
  - unfold cents_abs_total in Hb. cbn [fold_right] in Hb. fold (cents_abs_total r) in Hb.
    unfold cents_total. cbn [fold_right]. fold (cents_total r).
    assert (Hr : totals_are_cents r) by (intros o' d Hin; apply Hc; right; exact Hin).
    unfold sum_revenue_step, order_cents in *.
    fold (order_price o) in *.
    destruct (order_price o) as [d|ex] eqn:Ep.
    + destruct (Hc o d (or_introl eq_refl) Ep) as (s & c & e & -> & He).
      unfold cents in *.
      assert (Hab : Z.abs (v + zval s (scale c (e + 2))) < 10 ^ 28).
      { assert (H0 : 0 <= cents_abs_total r).
        { clear. induction r as [|o r IH]; cbn [cents_abs_total fold_right]; [lia|].
          unfold cents_abs_total in IH. lia. }
        lia. }
      rewrite (dec_add_cents v s c e He Hab).
      rewrite IH; [f_equal; lia|exact Hr|lia].
    + rewrite IH; [f_equal; lia|exact Hr|lia].
Qed.

Lemma sum_revenue_exact orders :
  totals_are_cents orders -> cents_abs_total orders < 10 ^ 28 ->
  sum_revenue orders = dec_cents (cents_total orders).
Proof.
  intros Hc Hb. unfold sum_revenue.
  replace dec_zero_00 with (dec_cents 0) by reflexivity.
  rewrite sum_revenue_fold_cents; [reflexivity|exact Hc|cbn [Z.abs]; lia].
Qed.

Lemma dec_fix_sign neg c e d : dec_fix neg c e = Ok d -> exists c' e', d = DFin neg c' e'.
Proof.
  unfold dec_fix.
  repeat (cbv beta iota zeta;
          match goal with |- context [if ?b then _ else _] => destruct b end);
    intros H; try discriminate; injection H as <-; eauto.
Qed.

Lemma dec_fix_zero neg e : dec_fix neg 0 e = Ok (DFin neg 0 (Z.min (Z.max e etiny) emax)).
Proof. reflexivity. Qed.

Lemma dec_add_nonneg x y z :
  dec_nonneg x = true -> dec_nonneg y = true -> dec_add x y = Ok z -> dec_nonneg z = true.
Proof.
  destruct x as [s1 c1 e1|s1|[]], y as [s2 c2 e2|s2|[]]; cbn [dec_nonneg];
    intros H1 H2 H; try discriminate; cbn [dec_add] in H.
  - destruct (c1 =? 0)%N eqn:E1, (c2 =? 0)%N eqn:E2; cbn [andb] in H.
    + rewrite dec_fix_zero in H. injection H as <-. cbn [dec_nonneg]. apply orb_true_r.
    + rewrite orb_false_r in H2. apply negb_true_iff in H2. subst s2.
      apply dec_fix_sign in H as (c' & e' & ->). reflexivity.
    + rewrite orb_false_r in H1. apply negb_true_iff in H1. subst s1.
      apply dec_fix_sign in H as (c' & e' & ->). reflexivity.
    + rewrite orb_false_r in H1, H2. apply negb_true_iff in H1, H2. subst s1 s2.
      unfold zval in H.
      match type of H with
      | context [if ?v =? 0 then _ else _] =>
          destruct (Z.eqb_spec v 0);
          [apply dec_fix_sign in H as (c' & e' & ->); reflexivity|];
          replace (v <? 0) with false in H by (symmetry; apply Z.ltb_ge; lia)
      end.
      apply dec_fix_sign in H as (c' & e' & ->). reflexivity.
  - injection H as <-. exact H2.
  - injection H as <-. exact H1.
  - destruct (Bool.eqb s1 s2); [injection H as <-; exact H1|discriminate].
Qed.

Lemma sum_revenue_fold_nonneg orders t :
  dec_nonneg t = true ->
  (forall o d, In o orders -> order_price o = Ok d -> dec_nonneg d = true) ->
  dec_nonneg (fold_left sum_revenue_step orders t) = true.
Proof.
  revert t. induction orders as [|o r IH]; intros t Ht H; cbn [fold_left]; [exact Ht|].
  apply IH; [|intros o' d Hin; apply H; right; exact Hin].
  unfold sum_revenue_step. fold (order_price o).
  destruct (order_price o) as [d|ex] eqn:Ep; [|exact Ht].
  destruct (dec_add t d) as [t'|ex] eqn:Ea; [|exact Ht].
  exact (dec_add_nonneg t d t' Ht (H o d (or_introl eq_refl) Ep) Ea).
Qed.

Lemma fold_sum_perm (f : order -> Z) l1 l2 :
  Permutation l1 l2 ->
  fold_right (fun o acc => f o + acc) 0 l1 = fold_right (fun o acc => f o + acc) 0 l2.
Proof. induction 1; cbn [fold_right]; lia. Qed.

Lemma totals_are_cents_perm l1 l2 :
  Permutation l1 l2 -> totals_are_cents l1 -> totals_are_cents l2.
Proof.
  intros Hp H o d Hin. apply H. apply (Permutation_in o (Permutation_sym Hp)). exact Hin.
Qed.

(** C4 (amended): [sum_revenue] returns a decimal for every list of orders
    (a failing parse or addition is skipped).  When every parseable total
    is finite with at most two fractional digits, and the totals' magnitudes
    add up to less than [10^28] hundredths, the result is the exact sum, in
    hundredths, of the parseable totals; a missing total counts as
    [Decimal("0")] and an unparsable one is skipped.  Beyond 28 digits the
    context rounds (see [sum_revenue_rounds]). *)
Theorem sum_revenue_sums_cents orders :
  totals_are_cents orders -> cents_abs_total orders < 10 ^ 28 ->
  sum_revenue orders = dec_cents (cents_total orders).
Proof. exact (sum_revenue_exact orders). Qed.

(** C9 (amended): [sum_revenue [] = Decimal("0.00")]; the result is
    non-negative when every parseable total is; and reordering the orders
    does not change the result when every parseable total has at most two
    fractional digits and their magnitudes add up to less than [10^28]
    hundredths (beyond that, see [sum_revenue_order_matters]). *)
Theorem sum_revenue_empty_nonneg_perm :
  sum_revenue [] = dec_zero_00 /\
  (forall orders,
     (forall o d, In o orders -> order_price o = Ok d -> dec_nonneg d = true) ->
     dec_nonneg (sum_revenue orders) = true) /\
  (forall o1 o2, Permutation o1 o2 -> totals_are_cents o1 ->
     cents_abs_total o1 < 10 ^ 28 -> sum_revenue o1 = sum_revenue o2).
Proof.
  split; [reflexivity|]. split.
  - intros orders H. apply sum_revenue_fold_nonneg; [reflexivity|exact H].
  - intros o1 o2 Hp Hc Hb.
    assert (Ht : cents_total o1 = cents_total o2) by (apply fold_sum_perm; exact Hp).
    assert (Ha : cents_abs_total o1 = cents_abs_total o2)
      by (apply (fold_sum_perm (fun o => Z.abs (order_cents o))); exact Hp).
    rewrite (sum_revenue_exact o1 Hc Hb), (sum_revenue_exact o2); [congruence| |congruence].
    exact (totals_are_cents_perm o1 o2 Hp Hc).
Qed.

(** ** Monthly buckets *)

Lemma Z_eqb_trans a b c : (a =? b) = true -> (b =? c) = true -> (a =? c) = true.
Proof. intros H1 H2. apply Z.eqb_eq in H1, H2. apply Z.eqb_eq. congruence. Qed.

Lemma lookup_Z_in {V} k (d : list (Z * V)) :
  assoc_lookup Z.eqb k d <> None <-> In k (map fst d).
Proof.
  induction d as [|[k' v] r IH]; cbn [assoc_lookup map fst In]; [tauto|].
  destruct (Z.eqb_spec k' k) as [->|Hne]; [split; [auto|discriminate]|].
  rewrite IH. split; [auto|]. intros [H|H]; [congruence|exact H].
Qed.

Lemma lookup_Z_nodup {V} k v (d : list (Z * V)) :
  NoDup (map fst d) -> In (k, v) d -> assoc_lookup Z.eqb k d = Some v.
Proof.
  induction d as [|[k' v'] r IH]; cbn [map fst In assoc_lookup]; [tauto|].
  intros Hn [H|H]; inversion Hn as [|? ? Hk Hr]; subst.
  - inversion H; subst. rewrite Z.eqb_refl. reflexivity.
  - destruct (Z.eqb_spec k' k) as [->|]; [|apply IH; assumption].
    exfalso. apply Hk. apply (in_map fst) in H. exact H.
Qed.

Lemma existsb_false_filter {A} (f : A -> bool) l : existsb f l = false -> filter f l = [].
Proof.
  induction l as [|a r IH]; cbn [existsb filter]; [reflexivity|].
  intros H. apply orb_false_iff in H as [-> H]. exact (IH H).
Qed.

Lemma monthly_step_lookup m o k :
  assoc_lookup Z.eqb k (monthly_revenue_step m o)
  = if month_is k o
    then Some (sum_revenue_step
                 (match assoc_lookup Z.eqb k m with Some v => v | None => dec_zero_00 end) o)
    else assoc_lookup Z.eqb k m.
Proof.
  unfold monthly_revenue_step, month_is, order_month, sum_revenue_step.
  destruct (py_get (o_created_at o) (JStr "")) as [created| | |]; try reflexivity.
  destruct (py_int (substring 5 2 created)) as [mo|ex]; [|reflexivity].
  cbv beta iota.
  destruct (assoc_lookup Z.eqb mo m) as [v|] eqn:L;
    destruct (Z.eqb_spec mo k) as [<-|Hne]; rewrite ?L;
    destruct (Decimal _) as [d|ex]; try destruct (dec_add _ d) as [x|ex];
    rewrite ?(lookup_set Z.eqb Z.eqb_sym Z_eqb_trans), ?(lookup_app_new Z.eqb), ?L,
      ?Z.eqb_refl; try rewrite (proj2 (Z.eqb_neq mo k) Hne);
    first [reflexivity | destruct (assoc_lookup Z.eqb k m); reflexivity].
Qed.

Lemma monthly_step_keys m o :
  map fst (monthly_revenue_step m o) = map fst m \/
  exists k, assoc_lookup Z.eqb k m = None /\
            map fst (monthly_revenue_step m o) = map fst m ++ [k].
Proof.
  unfold monthly_revenue_step.
  destruct (py_get (o_created_at o) (JStr "")) as [created| | |]; try (left; reflexivity).
  destruct (py_int (substring 5 2 created)) as [mo|ex]; [|left; reflexivity].
  destruct (assoc_lookup Z.eqb mo m) as [v|] eqn:L.
  - left. destruct (Decimal _) as [d|ex]; [destruct (dec_add v d) as [x|ex]|]; try reflexivity.
    apply (keys_set Z.eqb). rewrite L. discriminate.
  - right. exists mo. split; [exact L|].
    destruct (Decimal _) as [d|ex]; [destruct (dec_add dec_zero_00 d) as [x|ex]|];
      rewrite ?map_app; try reflexivity.
    rewrite (keys_set Z.eqb), map_app; [reflexivity|].
    rewrite (lookup_app_new Z.eqb), L, Z.eqb_refl. discriminate.
Qed.

Lemma monthly_fold pre :
  NoDup (map fst (fold_left monthly_revenue_step pre [])) /\
  forall k, assoc_lookup Z.eqb k (fold_left monthly_revenue_step pre [])
            = if existsb (month_is k) pre
              then Some (fold_left sum_revenue_step (filter (month_is k) pre) dec_zero_00)
              else None.
Proof.
  induction pre as [|o pre [Hn Hl]] using rev_ind; [split; [constructor|reflexivity]|].
  rewrite fold_left_app. cbn [fold_left].
  set (m := fold_left monthly_revenue_step pre []) in *.
  split.
  - destruct (monthly_step_keys m o) as [->|(k & Hk & ->)]; [exact Hn|].
    apply (Permutation_NoDup (Permutation_cons_append _ _)).
    constructor; [|exact Hn].
    rewrite <- (lookup_Z_in k m). tauto.
  - intros k. rewrite monthly_step_lookup, Hl, existsb_app, filter_app.
    cbn [existsb filter]. rewrite orb_false_r.
    destruct (month_is k o).
    + rewrite orb_true_r, fold_left_app. cbn [fold_left].
      destruct (existsb (month_is k) pre) eqn:E; [reflexivity|].
      rewrite (existsb_false_filter _ _ E). reflexivity.
    + rewrite orb_false_r, app_nil_r. reflexivity.
Qed.

Lemma month_is_spec k o : month_is k o = true <-> order_month o = Some k.
Proof.
  unfold month_is. destruct (order_month o) as [mo|]; [|split; discriminate].
  rewrite Z.eqb_eq. split; congruence.
Qed.

(** C6 (amended): the keys of [monthly_revenue orders] are distinct and are
    exactly the values [int(created_at[5:7])] of the orders whose slice
    parses as an integer (not range-checked, so not only 1..12), including
    orders whose total price fails to convert (their bucket keeps
    [Decimal("0.00")]); orders whose slice does not parse are skipped; the
    bucket of month [k] is [sum_revenue] of the orders of month [k], in
    order. *)
Theorem monthly_revenue_buckets orders :
  NoDup (map fst (monthly_revenue orders)) /\
  (forall k, In k (map fst (monthly_revenue orders)) <->
             exists o, In o orders /\ order_month o = Some k) /\
  (forall k v, In (k, v) (monthly_revenue orders) ->
               v = sum_revenue (filter (month_is k) orders)).
Proof.
  destruct (monthly_fold orders) as [Hn Hl]. unfold monthly_revenue.
  split; [exact Hn|]. split.
  - intros k. rewrite <- lookup_Z_in, Hl.
    destruct (existsb (month_is k) orders) eqn:E.
    + apply existsb_exists in E as (o & Hin & Ho).
      split; [intros _; exists o; split; [exact Hin|apply month_is_spec, Ho]|discriminate].
    + split; [intros H; congruence|].
      intros (o & Hin & Ho). apply month_is_spec in Ho.
      assert (H := proj2 (existsb_exists (month_is k) orders) (ex_intro _ o (conj Hin Ho))).
      congruence.
  - intros k v Hin. apply (lookup_Z_nodup k v _ Hn) in Hin.
    rewrite Hl in Hin. destruct (existsb (month_is k) orders); [|discriminate].
    injection Hin as <-. reflexivity.
Qed.

(** ** Units per category *)

Lemma lookup_map_str c (f : string -> Z) l :
  In c l -> assoc_lookup String.eqb c (map (fun cat => (cat, f cat)) l) = Some (f c).
Proof.
  induction l as [|x r IH]; cbn [map assoc_lookup In]; [tauto|].
  destruct (String.eqb_spec x c) as [->|Hne]; [reflexivity|].
  intros [H|H]; [congruence|exact (IH H)].
Qed.

Lemma lookup_map_str_none c (f : string -> Z) l :
  ~ In c l -> assoc_lookup String.eqb c (map (fun cat => (cat, f cat)) l) = None.
Proof.
  induction l as [|x r IH]; cbn [map assoc_lookup In]; [reflexivity|].
  intros H. destruct (String.eqb_spec x c) as [->|Hne]; [tauto|]. apply IH. tauto.
Qed.

Lemma set_map_str c v (f : string -> Z) l :
  NoDup l -> In c l ->
  assoc_set String.eqb c v (map (fun cat => (cat, f cat)) l)
  = map (fun cat => (cat, if String.eqb cat c then v else f cat)) l.
Proof.
  induction l as [|x r IH]; cbn [map assoc_set In]; [tauto|].
  intros Hn Hin. inversion Hn as [|? ? Hx Hr]; subst.
  destruct (String.eqb_spec x c) as [->|Hne].
  - f_equal. apply map_ext_in. intros cat Hcat.
    destruct (String.eqb_spec cat c) as [->|]; [contradiction|reflexivity].
  - destruct Hin as [H|H]; [congruence|]. f_equal. apply IH; assumption.
Qed.

Lemma categories_nodup : NoDup CATEGORIES.
Proof.
  unfold CATEGORIES.
  repeat (apply NoDup_cons;
          [cbn [In]; intros H; repeat (destruct H as [H|H]; [discriminate|]); exact H|]).
  apply NoDup_nil.
Qed.

Lemma count_step_map (f : string -> Z) it m :
  count_units_step (map (fun cat => (cat, f cat)) CATEGORIES) it = Ok m ->
  m = map (fun cat => (cat, f cat + category_contrib cat it)) CATEGORIES.
Proof.
  unfold count_units_step, category_contrib.
  destruct (classify_line_item it) as [[c|]|ex]; cbv beta iota delta [res_bind]; intros H;
    [| |discriminate].
  - destruct (in_dec string_dec c CATEGORIES) as [Hin|Hin];
      [rewrite (lookup_map_str c f _ Hin) in H|rewrite (lookup_map_str_none c f _ Hin) in H; discriminate].
    unfold qty_int, qty_val, item_qty.
    destruct (py_int_add (f c) (py_get (li_quantity it) (JInt 0))) as [v|ex] eqn:Ev;
      cbv beta iota delta [res_bind] in H; [|discriminate].
    match type of H with Ok ?x = Ok _ => assert (Hm : x = m) by congruence end.
    subst m. rewrite (set_map_str c v f _ categories_nodup Hin).
    apply map_ext. intros cat. f_equal.
    rewrite String.eqb_sym.
    destruct (String.eqb_spec c cat) as [->|]; [|lia].
    destruct (py_get (li_quantity it) (JInt 0)); cbn [py_int_add] in Ev; try discriminate;
      injection Ev as <-; reflexivity.
  - match type of H with Ok ?x = Ok _ => assert (Hm : x = m) by congruence end.
    subst m. apply map_ext. intros cat. f_equal. lia.
Qed.

Lemma count_fold_map items : forall (f : string -> Z) m,
  fold_res count_units_step items (map (fun cat => (cat, f cat)) CATEGORIES) = Ok m ->
  m = map (fun cat => (cat, f cat + category_units cat items)) CATEGORIES.
Proof.
  induction items as [|it r IH]; intros f m H; cbn [fold_res] in H.
  - match type of H with Ok ?x = Ok _ => assert (Hm : x = m) by congruence end.
    subst m. apply map_ext. intros cat. cbn [category_units]. f_equal. lia.
  - destruct (count_units_step _ it) as [m1|ex] eqn:E; cbn [res_bind] in H; [|discriminate].
    apply count_step_map in E. subst m1.
    rewrite (IH _ _ H). apply map_ext. intros cat. cbn [category_units]. f_equal. lia.
Qed.

(** Every counter is the sum, over the line items classified into its
    category, of their quantities. *)
Lemma count_units_map orders m :
  count_units_by_category orders = Ok m ->
  m = map (fun cat => (cat, category_units cat (all_items orders))) CATEGORIES.
Proof.
  unfold count_units_by_category. intros H.
  replace (map (fun cat => (cat, 0)) CATEGORIES)
    with (map (fun cat => (cat, (fun _ => 0) cat)) CATEGORIES) in H by reflexivity.
  exact (count_fold_map _ _ _ H).
Qed.

Lemma category_units_nonneg cat items :
  (forall it, In it items -> 0 <= qty_int it) -> 0 <= category_units cat items.
Proof.
  induction items as [|it r IH]; intros H; cbn [category_units]; [lia|].
  assert (Hit := H it (or_introl eq_refl)).
  assert (Hr := IH (fun it' Hin => H it' (or_intror Hin))).
  unfold category_contrib.
  destruct (classify_line_item it) as [[c|]|]; try lia.
  destruct (String.eqb c cat); lia.
Qed.

(** C7 (amended): when [count_units_by_category orders] returns, it maps
    each of the four categories, in order, to the sum of the quantities of
    the line items classified into it (unclassified items contribute
    nothing); the counters are non-negative when the quantities are. *)
Theorem count_units_by_category_spec orders m :
  count_units_by_category orders = Ok m ->
  m = map (fun cat => (cat, category_units cat (all_items orders))) CATEGORIES /\
  map fst m = CATEGORIES /\
  ((forall it, In it (all_items orders) -> 0 <= qty_int it) ->
   forall kv, In kv m -> 0 <= snd kv).
Proof.
  intros H. apply count_units_map in H. subst m.
  split; [reflexivity|]. split.
  - rewrite map_map. cbn [fst]. apply map_id.
  - intros Hq kv Hkv. apply in_map_iff in Hkv as (cat & <- & _).
    apply category_units_nonneg. exact Hq.
Qed.

Lemma fold_sum_add {A} (f g : A -> Z) l :
  fold_right (fun c acc => (f c + g c) + acc) 0 l
  = fold_right (fun c acc => f c + acc) 0 l + fold_right (fun c acc => g c + acc) 0 l.
Proof. induction l as [|c r IH]; cbn [fold_right]; lia. Qed.

Lemma category_sum_swap (cats : list string) items :
  fold_right (fun cat acc => category_units cat items + acc) 0 cats
  = fold_right (fun it acc =>
                  fold_right (fun cat acc' => category_contrib cat it + acc') 0 cats + acc)
               0 items.
Proof.
  induction items as [|it r IH]; cbn [category_units fold_right].
  - induction cats as [|c cs IHc]; cbn [fold_right]; lia.
  - rewrite <- IH.
    exact (fold_sum_add (fun cat => category_contrib cat it)
                        (fun cat => category_units cat r) cats).
Qed.

Lemma category_contrib_sum_le it :
  0 <= qty_int it ->
  fold_right (fun cat acc => category_contrib cat it + acc) 0 CATEGORIES <= qty_int it.
Proof.
  intros Hq. unfold CATEGORIES, category_contrib. cbn [fold_right].
  destruct (classify_line_item it) as [[c|]|]; [|lia|lia].
  destruct (String.eqb_spec c "Vinyl") as [->|]; [cbn; lia|].
  destruct (String.eqb_spec c "Books") as [->|]; [cbn; lia|].
  destruct (String.eqb_spec c "Posters") as [->|]; [cbn; lia|].
  destruct (String.eqb_spec c "Tees") as [->|]; [cbn; lia|].
  lia.
Qed.

Lemma category_contrib_sum_none it :
  classify_line_item it = Ok None ->
  fold_right (fun cat acc => category_contrib cat it + acc) 0 CATEGORIES = 0.
Proof. intros H. unfold CATEGORIES, category_contrib. rewrite H. reflexivity. Qed.

Lemma sum_values_map (u : string -> Z) l :
  sum_values (map (fun cat => (cat, u cat)) l) = fold_right (fun cat acc => u cat + acc) 0 l.
Proof. induction l as [|c r IH]; cbn [map fold_right]; [reflexivity|]. rewrite <- IH. reflexivity. Qed.

Lemma fold_sum_le {A} (f g : A -> Z) l :
  (forall x, In x l -> f x <= g x) ->
  fold_right (fun x acc => f x + acc) 0 l <= fold_right (fun x acc => g x + acc) 0 l /\
  ((exists x, In x l /\ f x < g x) ->
   fold_right (fun x acc => f x + acc) 0 l < fold_right (fun x acc => g x + acc) 0 l).
Proof.
  induction l as [|x r IH]; intros H; cbn [fold_right].
  - split; [lia|]. intros (x & [] & _).
  - destruct (IH (fun y Hy => H y (or_intror Hy))) as [H1 H2].
    assert (Hx := H x (or_introl eq_refl)).
    split; [lia|]. intros (y & [<-|Hy] & Hlt); [lia|].
    assert (H3 := H2 (ex_intro _ y (conj Hy Hlt))). lia.
Qed.

(** C8 (amended): when every quantity is a non-negative integer and
    [count_units_by_category orders] returns, the sum of its values is at
    most the total quantity of all line items, and strictly less when some
    unclassified line item has a positive quantity. *)
Theorem count_units_le_total orders m :
  count_units_by_category orders = Ok m ->
  (forall it, In it (all_items orders) -> exists q, qty_val it = Some q /\ 0 <= q) ->
  sum_values m <= total_quantity orders /\
  ((exists it, In it (all_items orders) /\ classify_line_item it = Ok None /\ 0 < qty_int it) ->
   sum_values m < total_quantity orders).
Proof.
  intros H Hq. apply count_units_map in H. subst m.
  rewrite sum_values_map, category_sum_swap. unfold total_quantity.
  assert (Hq' : forall it, In it (all_items orders) -> 0 <= qty_int it).
  { intros it Hin. destruct (Hq it Hin) as (q & Hv & Hle). unfold qty_int. rewrite Hv. exact Hle. }
  destruct (fold_sum_le
              (fun it => fold_right (fun cat acc => category_contrib cat it + acc) 0 CATEGORIES)
              qty_int (all_items orders)
              (fun it Hin => category_contrib_sum_le it (Hq' it Hin))) as [H1 H2].
  split; [exact H1|].
  intros (it & Hin & Hc & Hpos). apply H2. exists it. split; [exact Hin|].
  rewrite (category_contrib_sum_none it Hc). exact Hpos.
Qed.

Lemma sample_loop_prefix n items : forall acc,
  (length acc < Z.to_nat (Z.max 1 n))%nat ->
  sample_loop n items acc =
  (let* ys := map_res sample_of (firstn (Z.to_nat (Z.max 1 n) - length acc) items) in
   Ok (acc ++ ys)).
Proof.
  induction items as [|it rest IH]; intros acc Hlt.
  - rewrite firstn_nil. cbn. rewrite app_nil_r. reflexivity.
  - destruct (Z.to_nat (Z.max 1 n) - length acc)%nat as [|k] eqn:Hk; [lia|].
    cbn [sample_loop firstn map_res].
    change (sample_of it) with (let* c := classify_line_item it in Ok (mk_sample it c)).
    destruct (classify_line_item it) as [c|e]; cbn beta iota delta [res_bind]; [|reflexivity].
    rewrite length_app. cbn [length].
    destruct (Z.leb_spec n (Z.of_nat (length acc + 1))) as [Hle|Hgt].
    + assert (k = 0%nat) by lia. subst k. reflexivity.
    + rewrite IH by (rewrite length_app; cbn; lia).
      rewrite length_app. cbn [length].
      replace (Z.to_nat (Z.max 1 n) - (length acc + 1))%nat with k by lia.
      destruct (map_res sample_of (firstn k rest)); cbn; [|reflexivity].
      rewrite <- app_assoc. reflexivity.
Qed.

(** X1: [get_sample_line_items orders n] is the classification of the first
    [max(1, n)] line items of the orders, in order: [n <= 0] still yields one
    sample, an item that fails to classify raises only if it is among them,
    and the items after them are never looked at. *)
Theorem get_sample_line_items_prefix orders n :
  get_sample_line_items orders n =
  map_res sample_of (firstn (Z.to_nat (Z.max 1 n)) (all_items orders)).
Proof.
  unfold get_sample_line_items. rewrite sample_loop_prefix by (cbn; lia).
  cbn [length]. rewrite Nat.sub_0_r.
  destruct (map_res _ _); reflexivity.
Qed.

Lemma goals_lookup orders k :
  match assoc_lookup Z.eqb k (monthly_revenue orders) with
  | Some v => v | None => dec_zero_00 end = month_total k orders.
Proof.
  unfold monthly_revenue, month_total. rewrite (proj2 (monthly_fold orders)).
  destruct (existsb (month_is k) orders); reflexivity.
Qed.

(** X2: [update_goals_tab] sends one batch update to the tab [Q1 2026 Goals]:
    cells C2, C3 and C4 get the revenue of the orders dated in month 1, 2 and
    3 (of any year), i.e. [sum_revenue] of those orders, or [Decimal("0.00")]
    for a month without any order. *)
Theorem update_goals_tab_months orders :
  update_goals_tab orders =
  [BatchUpdate "Q1 2026 Goals"
     [("C2", [[CFloat (month_total 1 orders)]]);
      ("C3", [[CFloat (month_total 2 orders)]]);
      ("C4", [[CFloat (month_total 3 orders)]])]].
Proof.
  unfold update_goals_tab. cbn [map]. rewrite !goals_lookup. reflexivity.
Qed.

(** X3: When no order has a parseable month in 1..3, [update_goals_tab] writes
    [Decimal("0.00")] into all three cells C2, C3 and C4. *)
Theorem update_goals_tab_outside_q1 orders :
  (forall o k, In o orders -> order_month o = Some k -> k < 1 \/ 3 < k) ->
  update_goals_tab orders =
  [BatchUpdate "Q1 2026 Goals"
     [("C2", [[CFloat dec_zero_00]]); ("C3", [[CFloat dec_zero_00]]);
      ("C4", [[CFloat dec_zero_00]])]].
Proof.
  intros H. unfold update_goals_tab. cbn [map]. rewrite !goals_lookup.
  unfold month_total.
  assert (E : forall k, 1 <= k <= 3 -> existsb (month_is k) orders = false).
  { intros k Hk. apply not_true_is_false. intros Hx.
    apply existsb_exists in Hx as (o & Hin & Ho). apply month_is_spec in Ho.
    specialize (H o k Hin Ho). lia. }
  rewrite !E by lia. reflexivity.
Qed.

Lemma assoc_set_nonempty {K V} (eqb : K -> K -> bool) k (v : V) d : assoc_set eqb k v d <> [].
Proof. destruct d as [|[k' v'] r]; cbn; [discriminate|destruct (eqb k' k); discriminate]. Qed.

Lemma top_products_step_nonempty ps it ps' : top_products_step ps it = Ok ps' -> ps' <> [].
Proof.
  unfold top_products_step.
  destruct (Decimal _); cbn beta iota delta [res_bind]; [|discriminate].
  destruct (classify_line_item it); cbn beta iota delta [res_bind]; [|discriminate].
  match goal with |- context [match assoc_lookup py_key_eqb ?t ?l with _ => _ end] =>
    destruct (assoc_lookup py_key_eqb t l) as [p|] end; [|discriminate].
  destruct (py_int_add _ _); cbn beta iota delta [res_bind]; [|discriminate].
  destruct (dec_mul_jval _ _); cbn beta iota delta [res_bind]; [|discriminate].
  destruct (dec_add _ _); cbn beta iota delta [res_bind]; [|discriminate].
  intros H. injection H as <-. apply assoc_set_nonempty.
Qed.

Lemma group_fold_nonempty items : forall ps ps',
  fold_res top_products_step items ps = Ok ps' -> (ps <> [] \/ items <> []) -> ps' <> [].
Proof.
  induction items as [|it r IH]; intros ps ps' H Hne; cbn [fold_res] in H.
  - injection H as <-. destruct Hne as [Hne|Hne]; [exact Hne|congruence].
  - destruct (top_products_step ps it) as [ps1|e] eqn:E; cbn beta iota delta [res_bind] in H;
      [|discriminate].
    apply (IH ps1 ps' H). left. exact (top_products_step_nonempty _ _ _ E).
Qed.

Lemma enumerate_ranks {A} (l : list A) s :
  map fst (enumerate (Z.of_nat s) l) = map Z.of_nat (seq s (length l)).
Proof.
  revert s. induction l as [|x r IH]; intros s; [reflexivity|].
  cbn [enumerate map length seq fst]. f_equal.
  replace (Z.of_nat s + 1) with (Z.of_nat (S s)) by lia. apply IH.
Qed.

Lemma length_enumerate {A} (l : list A) s : length (enumerate s l) = length l.
Proof. revert s. induction l as [|x r IH]; intros s; cbn; [reflexivity|now rewrite IH]. Qed.

(** X4: When [update_top_products_tab] succeeds, it first clears [A2:E22] if
    the sheet has more than one row; without any line item it writes nothing
    else; otherwise it writes one block of 1 to 20 rows ranked 1, 2, ... to
    the range [A2:E(k+1)] for k rows. *)
Theorem update_top_products_tab_rows rc tab orders ops :
  update_top_products_tab rc tab orders = Ok ops ->
  let clear := if 1 <? rc then [BatchClear tab ["A2:E22"]] else [] in
  (all_items orders = [] -> ops = clear) /\
  (all_items orders <> [] ->
   exists rows,
     (1 <= length rows <= 20)%nat /\
     map row_rank rows = map Z.of_nat (seq 1 (length rows)) /\
     ops = clear ++ [Update tab ("A2:E" ++ z_to_string (1 + Z.of_nat (length rows)))%string rows]).
Proof.
  intros H clear. split.
  all: unfold update_top_products_tab, top_products, group_products in H.
  all: destruct (fold_res top_products_step (all_items orders) []) as [ps|e] eqn:F;
    cbn beta iota delta [res_bind] in H; [|discriminate].
  all: rewrite py_slice_upto_nonneg in H by lia.
  all: set (sorted := sort_by_units_desc (map snd ps)) in H.
  - intros Hnil. rewrite Hnil in F. cbn in F. injection F as <-.
    cbn in H. injection H as <-. reflexivity.
  - intros Hne.
    assert (Hps : ps <> []) by (apply (group_fold_nonempty _ _ _ F); right; exact Hne).
    assert (Hs : sorted <> []).
    { intros Hs. apply Hps. apply map_eq_nil with (f := snd).
      apply Permutation_nil. rewrite <- Hs. unfold sorted. apply sort_by_units_desc_perm. }
    destruct (firstn (Z.to_nat 20) sorted) as [|p0 rest] eqn:Ef.
    + exfalso. destruct sorted; [congruence|discriminate].
    + injection H as <-. unfold clear.
      exists (map top_product_row (enumerate 1 (p0 :: rest))).
      split; [|split; [|reflexivity]].
      * rewrite length_map, length_enumerate, <- Ef, length_firstn.
        change (Z.to_nat 20) with 20%nat.
        assert (length sorted <> 0%nat) by (destruct sorted; [congruence|discriminate]).
        lia.
      * rewrite map_map, length_map, length_enumerate.
        rewrite <- (enumerate_ranks (p0 :: rest) 1).
        apply map_ext. intros [r p]. reflexivity.
Qed.



Lemma sapp_assoc (a b c : string) : ((a ++ b) ++ c = a ++ (b ++ c))%string.
Proof. induction a as [|x a IH]; cbn; [reflexivity|now rewrite IH]. Qed.

Lemma sapp_nil_r (a : string) : (a ++ "")%string = a.
Proof. induction a as [|x a IH]; cbn; [reflexivity|now rewrite IH]. Qed.

Lemma str_forall_app f a b :
  str_forall f (a ++ b) = str_forall f a && str_forall f b.
Proof. induction a as [|x a IH]; cbn; [reflexivity|now rewrite IH, andb_assoc]. Qed.

Lemma split_no_sep sep a :
  str_forall (fun c => negb (Ascii.eqb c sep)) a = true -> py_split_char sep a = [a].
Proof.
  induction a as [|x a IH]; cbn; [reflexivity|].
  intros H. apply andb_true_iff in H as [Hx Ha].
  rewrite IH by exact Ha. apply negb_true_iff in Hx. rewrite Hx. reflexivity.
Qed.

Lemma split_app_sep sep a b :
  str_forall (fun c => negb (Ascii.eqb c sep)) a = true ->
  py_split_char sep (a ++ String sep b) = a :: py_split_char sep b.
Proof.
  induction a as [|x a IH]; cbn; [now rewrite Ascii.eqb_refl|].
  intros H. apply andb_true_iff in H as [Hx Ha].
  rewrite IH by exact Ha. apply negb_true_iff in Hx. rewrite Hx. reflexivity.
Qed.

Lemma prefix_spec a b : String.prefix a b = true <-> exists q, b = (a ++ q)%string.
Proof.
  revert b. induction a as [|x a IH]; intros b.
  - destruct b; cbn; split; eauto.
  - destruct b as [|y b]; cbn.
    + split; [discriminate|intros [q H]; discriminate].
    + destruct (ascii_dec x y) as [->|Hne].
      * rewrite IH. split; intros [q H]; exists q; [now subst|now injection H].
      * split; [discriminate|intros [q H]; injection H; congruence].
Qed.

Lemma contains_spec n h :
  py_contains n h = true <-> exists p q, h = (p ++ n ++ q)%string.
Proof.
  induction h as [|x h IH]; cbn [py_contains].
  - rewrite orb_false_r, prefix_spec. split.
    + intros [q H]. exists "", q. exact H.
    + intros [p [q H]]. destruct p; [exists q; exact H|discriminate].
  - rewrite orb_true_iff, prefix_spec, IH. split.
    + intros [[q H]|[p [q H]]]; [exists "", q; exact H|exists (String x p), q; cbn; now rewrite H].
    + intros [p [q H]]. destruct p as [|y p]; [left; exists q; exact H|].
      right. exists p, q. injection H as _ H. exact H.
Qed.

Lemma quote_split a b c d :
  str_forall noquote a = true ->
  (a ++ String dquote b = c ++ String dquote d)%string ->
  (a = c /\ b = d) \/ (exists c', c = (a ++ String dquote c')%string /\ b = (c' ++ String dquote d)%string).
Proof.
  revert c. induction a as [|x a IH]; intros c Ha H.
  - destruct c as [|y c]; cbn in H.
    + injection H as ->. left. auto.
    + injection H as <- ->. right. exists c. auto.
  - cbn in Ha. apply andb_true_iff in Ha as [Hx Ha].
    destruct c as [|y c]; cbn in H.
    + injection H as Hxq _. subst x. vm_compute in Hx. discriminate.
    + injection H as <- H. destruct (IH c Ha H) as [[-> ->]|[c' [-> ->]]]; [left; auto|right].
      exists c'. auto.
Qed.

Lemma no_quote_app a b : str_forall noquote (a ++ String dquote b) = false.
Proof.
  rewrite str_forall_app. cbn [str_forall].
  replace (noquote dquote) with false by reflexivity. cbn. apply andb_false_r.
Qed.

Lemma entry_contains pre u r :
  str_forall noquote (pre ++ "<" ++ u ++ ">; rel=") = true ->
  str_forall noquote r = true ->
  py_contains rel_next (pre ++ link_entry (u, r)) = String.eqb r "next".
Proof.
  intros Ha Hr. unfold link_entry. cbn [fst snd].
  destruct (String.eqb_spec r "next") as [->|Hne].
  - apply contains_spec. exists (pre ++ "<" ++ u ++ ">; ")%string, "".
    unfold rel_next. rewrite !sapp_assoc, sapp_nil_r. reflexivity.
  - apply not_true_is_false. intros Hc. apply contains_spec in Hc as (p & q & H).
    unfold rel_next in H.
    assert (H' : ((pre ++ "<" ++ u ++ ">; rel=") ++ String dquote (r ++ String dquote ""))%string
               = ((p ++ "rel=") ++ String dquote ("next" ++ String dquote q))%string)
      by (rewrite !sapp_assoc in *; exact H).
    destruct (quote_split _ _ _ _ Ha H') as [[_ E]|[c' [_ E]]].
    + destruct (quote_split _ _ _ _ Hr E) as [[-> _]|[c' [E2 _]]]; [congruence|].
      assert (Hn : str_forall noquote "next" = true) by reflexivity.
      rewrite E2, no_quote_app in Hn. discriminate.
    + destruct (quote_split _ _ _ _ Hr E) as [[_ E2]|[c'' [_ E2]]].
      * destruct q; discriminate.
      * destruct c''; discriminate.
Qed.

Lemma str_forall_impl (f g : ascii -> bool) s :
  (forall c, f c = true -> g c = true) -> str_forall f s = true -> str_forall g s = true.
Proof.
  intros Hfg. induction s as [|x s IH]; cbn; [reflexivity|].
  intros H. apply andb_true_iff in H as [Hx Hs]. rewrite (Hfg x Hx), (IH Hs). reflexivity.
Qed.

Lemma lstrip_spaces pre x : str_forall py_isspace pre = true -> py_lstrip (pre ++ x) = py_lstrip x.
Proof.
  induction pre as [|c pre IH]; cbn; [reflexivity|].
  intros H. apply andb_true_iff in H as [Hc Hp]. rewrite Hc. exact (IH Hp).
Qed.

Lemma rstrip_last s c : py_isspace c = false -> py_rstrip (s ++ String c "") = (s ++ String c "")%string.
Proof.
  intros Hc. induction s as [|x s IH]; cbn [append py_rstrip].
  - cbn [py_rstrip]. rewrite Hc. reflexivity.
  - rewrite IH. replace (String.eqb (s ++ String c "") "") with false by (destruct s; reflexivity).
    rewrite andb_false_r. reflexivity.
Qed.

Lemma rstrip_chars_none cs s :
  str_forall (fun c => negb (py_in_chars cs c)) s = true -> py_rstrip_chars cs s = s.
Proof.
  induction s as [|x s IH]; cbn; [reflexivity|].
  intros H. apply andb_true_iff in H as [Hx Hs]. apply negb_true_iff in Hx.
  rewrite (IH Hs), Hx. reflexivity.
Qed.

Lemma rstrip_chars_in_last cs s c :
  py_in_chars cs c = true -> py_rstrip_chars cs (s ++ String c "") = py_rstrip_chars cs s.
Proof.
  intros Hc. induction s as [|x s IH]; cbn [append py_rstrip_chars].
  - rewrite Hc. reflexivity.
  - rewrite IH. reflexivity.
Qed.

Lemma strip_brackets u :
  str_forall (fun c => negb (py_in_chars "<>" c)) u = true ->
  py_strip_chars "<>" ("<" ++ u ++ ">") = u.
Proof.
  intros Hu. unfold py_strip_chars. cbn [append py_lstrip_chars].
  replace (py_in_chars "<>" "<") with true by reflexivity.
  destruct u as [|x u'] eqn:Eu; [reflexivity|].
  cbn [str_forall] in Hu. apply andb_true_iff in Hu as [Hx Hu']. apply negb_true_iff in Hx.
  cbn [append py_lstrip_chars]. rewrite Hx.
  change (String x (u' ++ ">")) with ((String x u') ++ String ">" "")%string.
  rewrite rstrip_chars_in_last by reflexivity.
  apply rstrip_chars_none. cbn [str_forall]. rewrite Hx, Hu'. reflexivity.
Qed.

Ltac char_cases c :=
  unfold url_ok, rel_ok, noquote, py_in_chars; cbn [existsb list_ascii_of_string];
  destruct (Ascii.eqb c ","), (Ascii.eqb c ";"), (Ascii.eqb c "<"), (Ascii.eqb c ">"),
    (Ascii.eqb c dquote); cbn; auto.

Lemma url_char_brackets c : url_char c = true -> negb (py_in_chars "<>" c) = true.
Proof. unfold url_char. char_cases c. Qed.

Lemma url_char_quote c : url_char c = true -> noquote c = true.
Proof. unfold url_char. char_cases c. Qed.

Lemma url_char_comma c : url_char c = true -> nocomma c = true.
Proof. unfold url_char, nocomma. char_cases c. Qed.

Lemma url_char_semi c : url_char c = true -> nosemi c = true.
Proof. unfold url_char, nosemi. char_cases c. Qed.

Lemma rel_char_quote c : negb (Ascii.eqb c ",") && negb (Ascii.eqb c dquote) = true -> noquote c = true.
Proof. char_cases c. Qed.

Lemma rel_char_comma c : negb (Ascii.eqb c ",") && negb (Ascii.eqb c dquote) = true -> nocomma c = true.
Proof. unfold nocomma. char_cases c. Qed.

(** The facts about one part [pre ++ link_entry (u, r)] of the header. *)
Lemma link_part pre u r :
  pre = "" \/ pre = " " -> url_ok u = true -> rel_ok r = true ->
  py_contains rel_next (pre ++ link_entry (u, r)) = String.eqb r "next" /\
  py_strip_chars "<>" (py_strip (hd "" (py_split_char ";" (pre ++ link_entry (u, r))))) = u /\
  str_forall nocomma (pre ++ link_entry (u, r)) = true.
Proof.
  intros Hpre Hu Hr. unfold url_ok, rel_ok in *.
  fold url_char in Hu.
  assert (Hpq : str_forall noquote pre = true /\ str_forall nocomma pre = true /\
                str_forall nosemi pre = true /\ str_forall py_isspace pre = true)
    by (destruct Hpre as [->| ->]; repeat split; reflexivity).
  destruct Hpq as (Pq & Pc & Ps & Pw).
  split; [|split].
  - apply entry_contains.
    + rewrite !str_forall_app, Pq, (str_forall_impl _ _ _ url_char_quote Hu). reflexivity.
    + exact (str_forall_impl _ _ _ rel_char_quote Hr).
  - unfold link_entry. cbn [fst snd].
    replace (pre ++ "<" ++ u ++ ">; rel=" ++ String dquote (r ++ String dquote ""))%string
      with ((pre ++ "<" ++ u ++ ">") ++ String ";" (" rel=" ++ String dquote (r ++ String dquote "")))%string
      by (rewrite !sapp_assoc; reflexivity).
    rewrite split_app_sep.
    + cbn [hd]. unfold py_strip. rewrite lstrip_spaces by exact Pw.
      cbn [append py_lstrip]. replace (py_isspace "<") with false by reflexivity.
      change (String "<" (u ++ ">")) with (String "<" u ++ String ">" "")%string.
      rewrite rstrip_last by reflexivity. cbn [append].
      apply strip_brackets. exact (str_forall_impl _ _ _ url_char_brackets Hu).
    + change (str_forall nosemi (pre ++ "<" ++ u ++ ">") = true).
      rewrite !str_forall_app, Ps, (str_forall_impl _ _ _ url_char_semi Hu). reflexivity.
  - unfold link_entry. cbn [fst snd].
    rewrite !str_forall_app, Pc, (str_forall_impl _ _ _ url_char_comma Hu). cbn [str_forall].
    rewrite !str_forall_app, (str_forall_impl _ _ _ rel_char_comma Hr). reflexivity.
Qed.

Lemma split_render pre e r :
  str_forall nocomma pre = true ->
  forallb (fun e => url_ok (fst e) && rel_ok (snd e)) (e :: r) = true ->
  py_split_char "," (pre ++ render_links (e :: r))%string
  = (pre ++ link_entry e)%string :: map (fun e => (" " ++ link_entry e)%string) r.
Proof.
  revert pre e. induction r as [|e' r IH]; intros pre e Hpre Hok.
  - cbn [render_links map]. apply split_no_sep.
    cbn [forallb] in Hok. rewrite andb_true_r in Hok. apply andb_true_iff in Hok as [Hu Hr].
    destruct e as [u rr].
    change (str_forall nocomma (pre ++ link_entry (u, rr)) = true).
    rewrite str_forall_app, Hpre. cbn [andb].
    apply (proj2 (proj2 (link_part "" u rr (or_introl eq_refl) Hu Hr))).
  - change (render_links (e :: e' :: r)) with (link_entry e ++ ", " ++ render_links (e' :: r))%string.
    cbn [forallb] in Hok. apply andb_true_iff in Hok as [He Hok].
    apply andb_true_iff in He as [Hu Hr]. destruct e as [u rr].
    replace (pre ++ link_entry (u, rr) ++ ", " ++ render_links (e' :: r))%string
      with ((pre ++ link_entry (u, rr)) ++ String "," (" " ++ render_links (e' :: r)))%string
      by (rewrite !sapp_assoc; reflexivity).
    rewrite split_app_sep.
    + f_equal. rewrite (IH " " e') by (reflexivity || exact Hok). reflexivity.
    + change (str_forall nocomma (pre ++ link_entry (u, rr)) = true).
      rewrite str_forall_app, Hpre.
      exact (proj2 (proj2 (link_part "" u rr (or_introl eq_refl) Hu Hr))).
Qed.

Lemma find_parts r :
  forallb (fun e => url_ok (fst e) && rel_ok (snd e)) r = true ->
  find (py_contains rel_next) (map (fun e => (" " ++ link_entry e)%string) r)
  = option_map (fun e => (" " ++ link_entry e)%string) (find (fun e => String.eqb (snd e) "next") r).
Proof.
  induction r as [|[u rr] r IH]; cbn [forallb map find]; [reflexivity|].
  intros H. apply andb_true_iff in H as [He H]. apply andb_true_iff in He as [Hu Hr].
  rewrite (proj1 (link_part " " u rr (or_intror eq_refl) Hu Hr)). cbn [snd].
  destruct (String.eqb rr "next"); [reflexivity|exact (IH H)].
Qed.

(** X5: For a Link header made of entries [<url>; rel="r"] joined by [", "],
    whose URLs contain none of [, ; < >] or a double quote and whose rels
    contain no comma or double quote, [parse_link_header] returns the URL of
    the first entry whose rel is [next], and [None] when there is none. *)
Theorem parse_link_header_render es :
  forallb (fun e => url_ok (fst e) && rel_ok (snd e)) es = true ->
  parse_link_header (Some (render_links es))
  = option_map fst (find (fun e => String.eqb (snd e) "next") es).
Proof.
  intros Hok. unfold parse_link_header.
  destruct es as [|[u rr] r]; [reflexivity|].
  change (render_links ((u, rr) :: r)) with ("" ++ render_links ((u, rr) :: r))%string.
  rewrite split_render by (reflexivity || exact Hok).
  cbn [forallb] in Hok. apply andb_true_iff in Hok as [He Hr'].
  apply andb_true_iff in He as [Hu Hr].
  destruct (link_part "" u rr (or_introl eq_refl) Hu Hr) as (Hc & Hs & _).
  cbn [find]. rewrite Hc. cbn [snd find].
  destruct (String.eqb rr "next").
  - rewrite Hs. reflexivity.
  - rewrite (find_parts r Hr'). destruct (find _ r) as [[u' r'']|] eqn:F; [|reflexivity].
    apply find_some in F as [Hin _].
    assert (Hok' := proj1 (forallb_forall _ r) Hr' _ Hin). cbn in Hok'.
    apply andb_true_iff in Hok' as [Hu' Hr2].
    cbn [option_map]. rewrite (proj1 (proj2 (link_part " " u' r'' (or_intror eq_refl) Hu' Hr2))).
    reflexivity.
Qed.






Lemma valid_date_spec y m d :
  valid_date y m d = true <-> 1 <= y <= 9999 /\ 1 <= m <= 12 /\ 1 <= d <= days_in_month y m.
Proof.
  unfold valid_date. rewrite !andb_true_iff, !Z.leb_le. tauto.
Qed.

Lemma leap_prev y : is_leap y = true -> is_leap (y - 1) = false.
Proof.
  unfold is_leap. intros H. apply andb_true_iff in H as [H _]. apply Z.eqb_eq in H.
  assert (Hm : (y - 1) mod 4 = 3).
  { rewrite Zminus_mod, H. reflexivity. }
  rewrite Hm. reflexivity.
Qed.

Lemma dim_not_feb y y' m : m <> 2 -> days_in_month y m = days_in_month y' m.
Proof. unfold days_in_month. intros H. rewrite (proj2 (Z.eqb_neq m 2) H). reflexivity. Qed.

Lemma dim_bounds y m : 28 <= days_in_month y m <= 31.
Proof.
  unfold days_in_month. destruct (m =? 2); [destruct (is_leap y)|destruct (_ || _)]; lia.
Qed.

Lemma dim_feb y : days_in_month y 2 = if is_leap y then 29 else 28.
Proof. reflexivity. Qed.

Lemma prev_cases y m d :
  (1 < d /\ prev_date (y, m, d) = (y, m, d - 1)) \/
  (d <= 1 /\ 1 < m /\ prev_date (y, m, d) = (y, m - 1, days_in_month y (m - 1))) \/
  (d <= 1 /\ m <= 1 /\ prev_date (y, m, d) = (y - 1, 12, 31)).
Proof.
  unfold prev_date. destruct (Z.ltb_spec 1 d); [left; auto|].
  destruct (Z.ltb_spec 1 m); [right; left; auto|right; right; auto].
Qed.

Lemma dt_sub_day x :
  dt_hour x = 0 -> dt_minute x = 0 -> dt_second x = 0 ->
  dt_sub x 1 0 =
  let '(y, m, d) := prev_date (dt_year x, dt_month x, dt_day x) in
  if y <? 1 then DtRaise DtOverflowError
  else DtOk {| dt_year := y; dt_month := m; dt_day := d; dt_hour := 0; dt_minute := 0;
               dt_second := 0; dt_microsecond := dt_microsecond x |}.
Proof. intros H1 H2 H3. unfold dt_sub. rewrite H1, H2, H3. reflexivity. Qed.

Lemma dt_sub_second x :
  dt_hour x = 0 -> dt_minute x = 0 -> dt_second x = 0 ->
  dt_sub x 0 1 =
  let '(y, m, d) := prev_date (dt_year x, dt_month x, dt_day x) in
  if y <? 1 then DtRaise DtOverflowError
  else DtOk {| dt_year := y; dt_month := m; dt_day := d; dt_hour := 23; dt_minute := 59;
               dt_second := 59; dt_microsecond := dt_microsecond x |}.
Proof. intros H1 H2 H3. unfold dt_sub. rewrite H1, H2, H3. reflexivity. Qed.

Lemma q_start_month_range m : 1 <= q_start_month m <= 12.
Proof. unfold q_start_month. repeat destruct (_ <=? _); lia. Qed.

Lemma valid_first_day y q : 1 <= y <= 9999 -> 1 <= q <= 12 -> valid_date y q 1 = true.
Proof. intros. apply valid_date_spec. pose proof (dim_bounds y q). lia. Qed.

(** The day before a valid date, one year earlier, is refused by [replace]
    exactly when it is 29 February. *)
Lemma prior_year_prev y m d :
  valid_date y m d = true -> 3 <= y ->
  let '(y', m', d') := prev_date (y, m, d) in
  2 <= y' /\ y' <= y /\
  (valid_date (y' - 1) m' d' = false <-> m = 3 /\ d = 1 /\ is_leap y = true).
Proof.
  intros Hv Hy. apply valid_date_spec in Hv as (Hy' & Hm & Hd).
  destruct (prev_cases y m d) as [(Hd1 & ->)|[(Hd1 & Hm1 & ->)|(Hd1 & Hm1 & ->)]];
    (split; [lia|split; [lia|]]).
  - split.
    + intros Hf. exfalso. apply not_true_iff_false in Hf. apply Hf, valid_date_spec.
      split; [lia|split; [lia|]].
      destruct (Z.eq_dec m 2) as [->|Hne].
      * rewrite (dim_feb y) in Hd. rewrite (dim_feb (y - 1)).
        destruct (is_leap y), (is_leap (y - 1)); lia.
      * rewrite (dim_not_feb (y - 1) y m Hne). lia.
    + lia.
  - destruct (Z.eq_dec m 3) as [->|Hne].
    + replace (3 - 1) with 2 by lia. rewrite !dim_feb.
      destruct (is_leap y) eqn:L.
      * split.
        -- intros _. split; [reflexivity|split; [lia|reflexivity]].
        -- intros _. apply not_true_iff_false. intros Hc.
           apply valid_date_spec in Hc. rewrite dim_feb, (leap_prev y L) in Hc. lia.
      * split; [|intros (_ & _ & ?); discriminate].
        intros Hf. exfalso. apply not_true_iff_false in Hf. apply Hf, valid_date_spec.
        rewrite dim_feb. destruct (is_leap (y - 1)); lia.
    + split; [|lia].
      intros Hf. exfalso. apply not_true_iff_false in Hf. apply Hf, valid_date_spec.
      split; [lia|split; [lia|]].
      rewrite (dim_not_feb y (y - 1) (m - 1)) by lia.
      pose proof (dim_bounds (y - 1) (m - 1)). lia.
  - split; [|lia].
    intros Hf. exfalso. apply not_true_iff_false in Hf. apply Hf, valid_date_spec.
    unfold days_in_month. cbn. lia.
Qed.

Lemma daily_today ref now :
  (match ref with
   | None => dt_midnight now
   | Some _ => dt_midnight (match ref with Some r => r | None => now end)
   end) = dt_midnight (match ref with Some r => r | None => now end).
Proof. destruct ref; reflexivity. Qed.

(** X6: For a valid reference day (year at least 3), [get_date_ranges] of the
    daily report raises ValueError exactly when that day is 1 March of a leap
    year (the prior-year end of yesterday would be 29 February of a common
    year); otherwise it returns. *)
Theorem get_date_ranges_daily_leap ref now :
  let today := match ref with Some r => r | None => now end in
  valid_date (dt_year today) (dt_month today) (dt_day today) = true ->
  3 <= dt_year today ->
  match get_date_ranges_daily ref now with
  | DtOk _ => ~ (dt_month today = 3 /\ dt_day today = 1 /\ is_leap (dt_year today) = true)
  | DtRaise e => e = DtValueError /\
                 dt_month today = 3 /\ dt_day today = 1 /\ is_leap (dt_year today) = true
  end.
Proof.
  intros today Hv Hy. unfold get_date_ranges_daily. cbv zeta.
  rewrite daily_today. fold today. set (t := dt_midnight today).
  rewrite (dt_sub_day t), (dt_sub_second t) by reflexivity.
  change (dt_year t) with (dt_year today). change (dt_month t) with (dt_month today).
  change (dt_day t) with (dt_day today).
  pose proof (prior_year_prev _ _ _ Hv Hy) as Hp.
  destruct (prev_date (dt_year today, dt_month today, dt_day today)) as [[y' m'] d'].
  destruct Hp as (Hy1 & Hy2 & Hiff).
  rewrite (proj2 (Z.ltb_ge y' 1)) by lia. cbn [dt_bind].
  apply valid_date_spec in Hv as (Hr & _).
  unfold dt_replace_date at 1.
  rewrite valid_first_day by (try apply q_start_month_range; lia). cbn [dt_bind].
  unfold dt_replace_date at 1. cbn [dt_year dt_month dt_day].
  rewrite valid_first_day by (try apply q_start_month_range; lia). cbn [dt_bind].
  unfold dt_replace_date. cbn [dt_year dt_month dt_day].
  destruct (valid_date (y' - 1) m' d') eqn:V.
  - cbn [dt_bind]. intros Hc. apply Hiff in Hc. discriminate.
  - split; [reflexivity|]. apply Hiff. reflexivity.
Qed.

Ltac month_cases E :=
  repeat match type of E with _ \/ _ => destruct E as [E|E] end; subst.

Lemma is_leap_spec y :
  is_leap y = true <-> y mod 4 = 0 /\ (y mod 100 <> 0 \/ y mod 400 = 0).
Proof.
  unfold is_leap. rewrite andb_true_iff, orb_true_iff, negb_true_iff, !Z.eqb_eq, Z.eqb_neq.
  tauto.
Qed.

Lemma dby_succ y :
  days_before_year (y + 1) = days_before_year y + 365 + (if is_leap y then 1 else 0).
Proof.
  unfold days_before_year. replace (y + 1 - 1) with y by lia.
  destruct (is_leap y) eqn:L.
  - apply is_leap_spec in L. Z.div_mod_to_equations; lia.
  - assert (~ (y mod 4 = 0 /\ (y mod 100 <> 0 \/ y mod 400 = 0))) as N
      by (rewrite <- is_leap_spec; congruence).
    Z.div_mod_to_equations; lia.
Qed.

Lemma dby_mono a b : a <= b -> days_before_year a <= days_before_year b.
Proof. unfold days_before_year. intros. Z.div_mod_to_equations; lia. Qed.

Lemma dbm_step y m : 1 <= m <= 11 ->
  days_before_month y (m + 1) = days_before_month y m + days_in_month y m.
Proof.
  intros H. assert (m = 1 \/ m = 2 \/ m = 3 \/ m = 4 \/ m = 5 \/ m = 6 \/ m = 7 \/ m = 8 \/
                    m = 9 \/ m = 10 \/ m = 11) as E by lia.
  unfold days_before_month, days_in_month.
  month_cases E; cbn; destruct (is_leap y); reflexivity.
Qed.

Lemma dbm_first y : days_before_month y 1 = 0.
Proof. reflexivity. Qed.

Lemma dbm_last y : days_before_month y 12 + 31 = 365 + (if is_leap y then 1 else 0).
Proof. unfold days_before_month. cbn. destruct (is_leap y); reflexivity. Qed.

Lemma dbm_bound y m : 1 <= m <= 12 ->
  days_before_month y m + days_in_month y m <= 365 + (if is_leap y then 1 else 0).
Proof.
  intros H. assert (m = 1 \/ m = 2 \/ m = 3 \/ m = 4 \/ m = 5 \/ m = 6 \/ m = 7 \/ m = 8 \/
                    m = 9 \/ m = 10 \/ m = 11 \/ m = 12) as E by lia.
  unfold days_before_month, days_in_month.
  month_cases E; destruct (is_leap y); apply Z.leb_le; reflexivity.
Qed.

Lemma dbm_nonneg y m : 0 <= days_before_month y m.
Proof.
  unfold days_before_month.
  assert (forall n, 0 <= nth n [0; 0; 31; 59; 90; 120; 151; 181; 212; 243; 273; 304; 334] 0)
    as Hn by (intros [|[|[|[|[|[|[|[|[|[|[|[|[|n]]]]]]]]]]]]]; cbn; try lia; destruct n; lia).
  specialize (Hn (Z.to_nat m)). destruct (_ && _); lia.
Qed.

(** A valid date lies inside its year on the ordinal line. *)
Lemma ordinal_in_year y m d : valid_date y m d = true ->
  days_before_year y < ymd_ordinal (y, m, d) <= days_before_year (y + 1).
Proof.
  intros Hv. apply valid_date_spec in Hv as (_ & Hm & Hd). cbn.
  rewrite dby_succ. pose proof (dbm_bound y m Hm). pose proof (dbm_nonneg y m). lia.
Qed.

Lemma prev_ordinal y m d : valid_date y m d = true ->
  ymd_ordinal (prev_date (y, m, d)) = ymd_ordinal (y, m, d) - 1 /\
  (2 <= ymd_ordinal (y, m, d) -> ymd_valid (prev_date (y, m, d)) = true).
Proof.
  intros Hv. pose proof (ordinal_in_year _ _ _ Hv) as Ho.
  apply valid_date_spec in Hv as (Hy & Hm & Hd).
  destruct (prev_cases y m d) as [(Hd1 & ->)|[(Hd1 & Hm1 & ->)|(Hd1 & Hm1 & ->)]]; cbn.
  - split; [lia|]. intros _. apply valid_date_spec. lia.
  - pose proof (dbm_step y (m - 1) ltac:(lia)) as S. replace (m - 1 + 1) with m in S by lia.
    split; [lia|]. intros _. apply valid_date_spec. pose proof (dim_bounds y (m - 1)). lia.
  - assert (m = 1) by lia. assert (d = 1) by lia. subst m d.
    pose proof (dbm_last (y - 1)) as L. pose proof (dby_succ (y - 1)) as S.
    replace (y - 1 + 1) with y in S by lia. rewrite dbm_first.
    split; [lia|]. intros H2.
    assert (2 <= y).
    { destruct (Z.eq_dec y 1) as [->|]; [|lia]. cbn in Ho. cbn in H2. lia. }
    apply valid_date_spec. unfold days_in_month. cbn. lia.
Qed.

Lemma iter_prev_ordinal k p : ymd_valid p = true -> Z.of_nat k < ymd_ordinal p ->
  ymd_valid (Nat.iter k prev_date p) = true /\
  ymd_ordinal (Nat.iter k prev_date p) = ymd_ordinal p - Z.of_nat k.
Proof.
  induction k as [|k IH]; intros Hv Hk.
  - cbn. split; [assumption|lia].
  - destruct (IH Hv ltac:(lia)) as [Hv' Ho'].
    rewrite Nat.iter_succ.
    destruct (Nat.iter k prev_date p) as [[y m] d] eqn:E.
    destruct (prev_ordinal y m d Hv') as [Ho Hp].
    split; [apply Hp; lia|lia].
Qed.

Lemma dt_sub_days x k :
  dt_hour x = 0 -> dt_minute x = 0 -> dt_second x = 0 -> 0 <= k ->
  dt_sub x k 0 =
  let '(y, m, d) := Nat.iter (Z.to_nat k) prev_date (dt_year x, dt_month x, dt_day x) in
  if y <? 1 then DtRaise DtOverflowError
  else DtOk {| dt_year := y; dt_month := m; dt_day := d; dt_hour := 0; dt_minute := 0;
               dt_second := 0; dt_microsecond := dt_microsecond x |}.
Proof.
  intros H1 H2 H3 Hk. unfold dt_sub. rewrite H1, H2, H3.
  replace (k - (0 * 3600 + 0 * 60 + 0 - 0) / 86400) with k by (cbn; lia). reflexivity.
Qed.

Lemma dt_sub_days_ok x k :
  dt_hour x = 0 -> dt_minute x = 0 -> dt_second x = 0 ->
  valid_date (dt_year x) (dt_month x) (dt_day x) = true -> 0 <= k < toordinal x ->
  exists y m d,
    dt_sub x k 0 = DtOk {| dt_year := y; dt_month := m; dt_day := d; dt_hour := 0;
                           dt_minute := 0; dt_second := 0;
                           dt_microsecond := dt_microsecond x |} /\
    valid_date y m d = true /\ ymd_ordinal (y, m, d) = toordinal x - k.
Proof.
  intros H1 H2 H3 Hv Hk. rewrite (dt_sub_days x k H1 H2 H3) by lia.
  destruct (iter_prev_ordinal (Z.to_nat k) (dt_year x, dt_month x, dt_day x) Hv)
    as [Hv' Ho]; [change (ymd_ordinal _) with (toordinal x); lia|].
  destruct (Nat.iter (Z.to_nat k) prev_date _) as [[y m] d].
  exists y, m, d. cbn in Hv'. pose proof Hv' as Hv''. apply valid_date_spec in Hv''.
  rewrite (proj2 (Z.ltb_ge y 1)) by lia. split; [reflexivity|split; [assumption|]].
  change (ymd_ordinal (dt_year x, dt_month x, dt_day x)) with (toordinal x) in Ho. lia.
Qed.

Lemma ordinal_from_year3 x :
  valid_date (dt_year x) (dt_month x) (dt_day x) = true -> 3 <= dt_year x -> 730 < toordinal x.
Proof.
  intros Hv Hy. pose proof (ordinal_in_year _ _ _ Hv) as [Ho _].
  pose proof (dby_mono 3 (dt_year x) Hy). change (days_before_year 3) with 730 in *.
  change (toordinal x) with (ymd_ordinal (dt_year x, dt_month x, dt_day x)). lia.
Qed.

(** The end of yesterday is before the start of the quarter exactly on the
    first day of a quarter. *)
Lemma qtd_lex y m d mu1 mu2 : valid_date y m d = true ->
  let '(y', m', d') := prev_date (y, m, d) in
  lex_ltb [y'; m'; d'; 23; 59; 59; mu1] [y; q_start_month m; 1; 0; 0; 0; mu2] = true <->
  d = 1 /\ In m [1; 4; 7; 10].
Proof.
  intros Hv. apply valid_date_spec in Hv as (Hy & Hm & Hd).
  assert (m = 1 \/ m = 2 \/ m = 3 \/ m = 4 \/ m = 5 \/ m = 6 \/ m = 7 \/ m = 8 \/
          m = 9 \/ m = 10 \/ m = 11 \/ m = 12) as E by lia.
  destruct (prev_cases y m d) as [(Hd1 & ->)|[(Hd1 & Hm1 & ->)|(Hd1 & Hm1 & ->)]];
    cbn [lex_ltb]; rewrite ?Z.ltb_irrefl, ?Z.eqb_refl; cbn [orb andb];
    month_cases E; cbn;
    repeat match goal with
           | |- context [?a <? ?b] => destruct (Z.ltb_spec a b)
           | |- context [?a =? ?b] => destruct (Z.eqb_spec a b)
           end; cbn [orb andb];
    (split; intros; first [reflexivity | discriminate | exfalso; lia | lia]).
Qed.

(** X7: For a valid current day (year at least 3), [get_date_ranges] of the
    dashboard raises ValueError exactly when the day is 1 March of a leap
    year; otherwise it returns. *)
Theorem get_date_ranges_dash_leap now :
  valid_date (dt_year now) (dt_month now) (dt_day now) = true ->
  3 <= dt_year now ->
  match get_date_ranges_dash now with
  | DtOk _ => ~ (dt_month now = 3 /\ dt_day now = 1 /\ is_leap (dt_year now) = true)
  | DtRaise e => e = DtValueError /\
                 dt_month now = 3 /\ dt_day now = 1 /\ is_leap (dt_year now) = true
  end.
Proof.
  intros Hv Hy. pose proof (ordinal_from_year3 now Hv Hy) as Ho.
  unfold get_date_ranges_dash. cbv zeta.
  set (t := dt_midnight now).
  rewrite (dt_sub_day t), (dt_sub_second t) by reflexivity.
  change (dt_year t) with (dt_year now). change (dt_month t) with (dt_month now).
  change (dt_day t) with (dt_day now).
  pose proof (prior_year_prev _ _ _ Hv Hy) as Hp.
  destruct (prev_date (dt_year now, dt_month now, dt_day now)) as [[y' m'] d'].
  destruct Hp as (Hy1 & Hy2 & Hiff).
  rewrite (proj2 (Z.ltb_ge y' 1)) by lia. cbn [dt_bind].
  destruct (dt_sub_days_ok t 7) as (y7 & m7 & d7 & E7 & _); try reflexivity;
    [exact Hv|change (toordinal t) with (toordinal now); lia|].
  destruct (dt_sub_days_ok t 30) as (y30 & m30 & d30 & E30 & _); try reflexivity;
    [exact Hv|change (toordinal t) with (toordinal now); lia|].
  rewrite E7, E30. cbn [dt_bind].
  apply valid_date_spec in Hv as (Hr & _).
  unfold dt_replace_date at 1. change (dt_year t) with (dt_year now).
  rewrite valid_first_day by (try apply q_start_month_range; lia). cbn [dt_bind].
  unfold dt_replace_date. cbn [dt_year dt_month dt_day].
  destruct (valid_date (y' - 1) m' d') eqn:V.
  - cbn [dt_bind]. intros Hc. apply Hiff in Hc. discriminate.
  - split; [reflexivity|]. apply Hiff. reflexivity.
Qed.

(** X8: When [get_date_ranges] of the daily report returns, its QTD window is
    empty ([qtd_end < qtd_start]) exactly when the reference day is the first
    day of a quarter (1 January, April, July or October). *)
Theorem get_date_ranges_daily_qtd_empty ref now r :
  let today := match ref with Some r => r | None => now end in
  valid_date (dt_year today) (dt_month today) (dt_day today) = true ->
  get_date_ranges_daily ref now = DtOk r ->
  (dt_ltb (dr_qtd_end r) (dr_qtd_start r) = true <->
   dt_day today = 1 /\ In (dt_month today) [1; 4; 7; 10]).
Proof.
  intros today Hv H. unfold get_date_ranges_daily in H. cbv zeta in H.
  rewrite daily_today in H. fold today in H. set (t := dt_midnight today) in H.
  rewrite (dt_sub_day t), (dt_sub_second t) in H by reflexivity.
  change (dt_year t) with (dt_year today) in H. change (dt_month t) with (dt_month today) in H.
  change (dt_day t) with (dt_day today) in H.
  pose proof (qtd_lex _ _ _ 0 0 Hv) as Hq.
  destruct (prev_date (dt_year today, dt_month today, dt_day today)) as [[y' m'] d'].
  destruct (y' <? 1); [discriminate H|]. cbn [dt_bind] in H.
  unfold dt_replace_date in H.
  repeat (match type of H with
          | context [if valid_date ?a ?b ?c then _ else _] => destruct (valid_date a b c)
          end; [cbn [dt_bind dt_year dt_month dt_day] in H|discriminate H]).
  injection H as <-. exact Hq.
Qed.

(** X9: When [get_date_ranges] of the dashboard returns, its QTD window is
    empty ([qtd_end < qtd_start]) exactly when the current day is the first
    day of a quarter. *)
Theorem get_date_ranges_dash_qtd_empty now r :
  valid_date (dt_year now) (dt_month now) (dt_day now) = true ->
  get_date_ranges_dash now = DtOk r ->
  (dt_ltb (ds_qtd_end r) (ds_qtd_start r) = true <->
   dt_day now = 1 /\ In (dt_month now) [1; 4; 7; 10]).
Proof.
  intros Hv H. unfold get_date_ranges_dash in H. cbv zeta in H.
  set (t := dt_midnight now) in H.
  rewrite (dt_sub_day t), (dt_sub_second t) in H by reflexivity.
  change (dt_year t) with (dt_year now) in H. change (dt_month t) with (dt_month now) in H.
  change (dt_day t) with (dt_day now) in H.
  pose proof (qtd_lex _ _ _ 0 0 Hv) as Hq.
  destruct (prev_date (dt_year now, dt_month now, dt_day now)) as [[y' m'] d'].
  destruct (y' <? 1); [discriminate H|]. cbn [dt_bind] in H.
  destruct (dt_sub t 7 0); [cbn [dt_bind] in H|discriminate H].
  destruct (dt_sub t 30 0); [cbn [dt_bind] in H|discriminate H].
  unfold dt_replace_date in H.
  repeat (match type of H with
          | context [if valid_date ?a ?b ?c then _ else _] => destruct (valid_date a b c)
          end; [cbn [dt_bind dt_year dt_month dt_day] in H|discriminate H]).
  injection H as <-. exact Hq.
Qed.

Lemma ordinal_from_year2 x :
  valid_date (dt_year x) (dt_month x) (dt_day x) = true -> 2 <= dt_year x -> 365 < toordinal x.
Proof.
  intros Hv Hy. pose proof (ordinal_in_year _ _ _ Hv) as [Ho _].
  pose proof (dby_mono 2 (dt_year x) Hy). change (days_before_year 2) with 365 in *.
  change (toordinal x) with (ymd_ordinal (dt_year x, dt_month x, dt_day x)). lia.
Qed.

(** X10: When [get_date_ranges] of the dashboard returns (valid day, year at
    least 2), the 7-day and 30-day windows start at midnight 7 and 30 days
    before the current day, and [window_end] is 23:59:59 of the day before. *)
Theorem get_date_ranges_dash_windows now r :
  valid_date (dt_year now) (dt_month now) (dt_day now) = true -> 2 <= dt_year now ->
  get_date_ranges_dash now = DtOk r ->
  let clock x := (dt_hour x, dt_minute x, dt_second x) in
  clock (ds_seven_days_start r) = (0, 0, 0) /\ clock (ds_thirty_days_start r) = (0, 0, 0) /\
  clock (ds_window_end r) = (23, 59, 59) /\
  toordinal (ds_seven_days_start r) = toordinal now - 7 /\
  toordinal (ds_thirty_days_start r) = toordinal now - 30 /\
  toordinal (ds_window_end r) = toordinal now - 1.
Proof.
  intros Hv Hy H clock. pose proof (ordinal_from_year2 now Hv Hy) as Ho.
  unfold get_date_ranges_dash in H. cbv zeta in H.
  set (t := dt_midnight now) in H.
  destruct (dt_sub_days_ok t 7) as (y7 & m7 & d7 & E7 & _ & O7); try reflexivity;
    [exact Hv|change (toordinal t) with (toordinal now); lia|].
  destruct (dt_sub_days_ok t 30) as (y30 & m30 & d30 & E30 & _ & O30); try reflexivity;
    [exact Hv|change (toordinal t) with (toordinal now); lia|].
  rewrite E7, E30 in H.
  rewrite (dt_sub_day t), (dt_sub_second t) in H by reflexivity.
  change (dt_year t) with (dt_year now) in H. change (dt_month t) with (dt_month now) in H.
  change (dt_day t) with (dt_day now) in H.
  pose proof (prev_ordinal _ _ _ Hv) as [Op _].
  destruct (prev_date (dt_year now, dt_month now, dt_day now)) as [[y' m'] d'].
  destruct (y' <? 1); [discriminate H|]. cbn [dt_bind] in H.
  unfold dt_replace_date in H.
  repeat (match type of H with
          | context [if valid_date ?a ?b ?c then _ else _] => destruct (valid_date a b c)
          end; [cbn [dt_bind dt_year dt_month dt_day] in H|discriminate H]).
  injection H as <-. cbn.
  change (toordinal t) with (toordinal now) in O7, O30.
  change (toordinal now) with (ymd_ordinal (dt_year now, dt_month now, dt_day now)) in *.
  cbn [ymd_ordinal] in O7, O30, Op |- *. subst clock. unfold toordinal. cbn [dt_year dt_month dt_day dt_hour dt_minute dt_second].
  repeat split; first [reflexivity | lia].
Qed.





Lemma ndigits_aux_spec f c : (c < 10 ^ N.of_nat f)%N ->
  (c < 10 ^ ndigits_aux f c)%N /\ (c <> 0 -> 10 ^ (ndigits_aux f c - 1) <= c)%N /\
  (c = 0 -> ndigits_aux f c = 0)%N.
Proof.
  revert c. induction f as [|f IH]; intros c H; cbn [ndigits_aux].
  - cbn in H. split; [cbn; lia|split; lia].
  - destruct (N.eqb_spec c 0) as [->|Hc]; [cbn; lia|].
    rewrite Nat2N.inj_succ, N.pow_succ_r' in H.
    assert (Hq : (c / 10 < 10 ^ N.of_nat f)%N) by (apply N.Div0.div_lt_upper_bound; lia).
    destruct (IH _ Hq) as (H1 & H2 & H3).
    pose proof (N.div_mod c 10 ltac:(lia)) as Hd. pose proof (N.mod_lt c 10 ltac:(lia)).
    split; [|split; [|lia]].
    + rewrite N.add_1_l, N.pow_succ_r'. lia.
    + intros _. replace (1 + ndigits_aux f (c / 10) - 1)%N with (ndigits_aux f (c / 10)) by lia.
      destruct (N.eqb_spec (c / 10) 0) as [E|E].
      * rewrite (H3 E). cbn. lia.
      * specialize (H2 E).
        destruct (ndigits_aux f (c / 10)) as [|d] eqn:Nd; [cbn in *; lia|].
        replace (N.pos d) with (N.succ (N.pos d - 1)) by lia.
        rewrite N.pow_succ_r'.
        set (X := (10 ^ (N.pos d - 1))%N) in *. set (Y := (c / 10)%N) in *. set (m := (c mod 10)%N) in *. clearbody X Y m. lia.
Qed.

Lemma ndigits_spec c :
  (c < 10 ^ ndigits c)%N /\ (c <> 0 -> 10 ^ (ndigits c - 1) <= c)%N /\
  (c = 0 -> ndigits c = 0)%N.
Proof.
  apply ndigits_aux_spec. rewrite N2Nat.id.
  pose proof (N.size_gt c). assert (2 ^ N.size c <= 10 ^ N.size c)%N
    by (apply N.pow_le_mono_l; lia). lia.
Qed.

Lemma ndigits_lt c k : (c < 10 ^ k)%N -> (ndigits c <= k)%N.
Proof.
  intros H. destruct (N.eqb_spec c 0) as [->|Hc]; [cbn; lia|].
  destruct (ndigits_spec c) as (_ & Hl & _). specialize (Hl Hc).
  destruct (N.le_gt_cases (ndigits c) k) as [|G]; [assumption|].
  assert (10 ^ k <= 10 ^ (ndigits c - 1))%N by (apply N.pow_le_mono_r; lia). lia.
Qed.

Lemma ndigits_ge c k : (10 ^ k <= c)%N -> (k < ndigits c)%N.
Proof.
  intros H. destruct (ndigits_spec c) as (Hu & _ & _).
  destruct (N.lt_ge_cases k (ndigits c)) as [|G]; [assumption|].
  assert (10 ^ ndigits c <= 10 ^ k)%N by (apply N.pow_le_mono_r; lia). lia.
Qed.

Lemma coef_len_le q k : (q < 10 ^ k)%N -> (1 <= k)%N -> coef_len q <= Z.of_N k.
Proof.
  intros H Hk. unfold coef_len. destruct (q =? 0)%N; [lia|].
  pose proof (ndigits_lt q k H). lia.
Qed.

Lemma coef_len_ge q k : (10 ^ k <= q)%N -> Z.of_N k < coef_len q.
Proof.
  intros H. unfold coef_len.
  destruct (N.eqb_spec q 0) as [->|]; [pose proof (N.pow_nonzero 10 k); lia|].
  pose proof (ndigits_ge q k H). lia.
Qed.

(** The digits of [c * 10^e] above the hundredths reach [10^28] as soon as
    the adjusted exponent of [c * 10^e] is 26 or more. *)
Lemma rescale_half_up_large c e :
  c <> 0%N -> 28 < Z.of_N (ndigits c) + e + 2 -> (10 ^ 28 <= rescale_half_up c e (-2))%N.
Proof.
  intros Hc H. destruct (ndigits_spec c) as (_ & Hl & _). specialize (Hl Hc).
  unfold rescale_half_up.
  destruct (Z.leb_spec (-2) e).
  - unfold scale.
    assert (10 ^ 28 <= 10 ^ (ndigits c - 1) * 10 ^ Z.to_N (e - -2))%N.
    { rewrite <- N.pow_add_r. apply N.pow_le_mono_r; lia. }
    pose proof (N.pow_nonzero 10 (Z.to_N (e - -2))). nia.
  - set (p := (10 ^ Z.to_N (-2 - e))%N).
    assert (Hp : p <> 0%N) by (apply N.pow_nonzero; lia).
    assert (Hq : (10 ^ (ndigits c - 1 - Z.to_N (-2 - e)) <= c / p)%N).
    { apply N.div_le_lower_bound; [exact Hp|]. unfold p. rewrite <- N.pow_add_r.
      replace (Z.to_N (-2 - e) + (ndigits c - 1 - Z.to_N (-2 - e)))%N with (ndigits c - 1)%N
        by lia. exact Hl. }
    assert (10 ^ 28 <= 10 ^ (ndigits c - 1 - Z.to_N (-2 - e)))%N
      by (apply N.pow_le_mono_r; lia).
    destruct (p <=? 2 * (c mod p))%N; lia.
Qed.

Lemma rescale_half_up_small c e :
  c <> 0%N -> Z.of_N (ndigits c) + e + 2 <= 28 -> (rescale_half_up c e (-2) <= 10 ^ 28)%N.
Proof.
  intros Hc H. destruct (ndigits_spec c) as (Hu & _ & _).
  unfold rescale_half_up.
  destruct (Z.leb_spec (-2) e).
  - unfold scale.
    assert (10 ^ ndigits c * 10 ^ Z.to_N (e - -2) <= 10 ^ 28)%N.
    { rewrite <- N.pow_add_r. apply N.pow_le_mono_r; lia. }
    pose proof (N.pow_nonzero 10 (Z.to_N (e - -2))). nia.
  - set (p := (10 ^ Z.to_N (-2 - e))%N).
    assert (Hp : p <> 0%N) by (apply N.pow_nonzero; lia).
    assert (Hq : (c / p < 10 ^ 28)%N).
    { apply N.Div0.div_lt_upper_bound. unfold p. rewrite <- N.pow_add_r.
      assert (10 ^ ndigits c <= 10 ^ (Z.to_N (-2 - e) + 28))%N
        by (apply N.pow_le_mono_r; lia). lia. }
    destruct (p <=? 2 * (c mod p))%N; lia.
Qed.

Lemma Decimal_cent : Decimal "0.01" = Ok cent.
Proof. reflexivity. Qed.

(** [quantize(Decimal("0.01"), ROUND_HALF_UP)] of a finite non-zero value. *)
Lemma quantize_cent_fin s c e :
  c <> 0%N ->
  dec_quantize_half_up (DFin s c e) cent =
  if (rescale_half_up c e (-2) <? 10 ^ 28)%N
  then Ok (DFin s (rescale_half_up c e (-2)) (-2)) else Raise InvalidOperation.
Proof.
  intros Hc. unfold dec_quantize_half_up, cent.
  change (negb ((etiny <=? -2) && (-2 <=? emax))) with false. cbv iota.
  rewrite (proj2 (N.eqb_neq c 0) Hc).
  unfold emax, prec.
  destruct (Z.ltb_spec 28 (Z.of_N (ndigits c) + e - 1 - -2 + 1)) as [L|L].
  - pose proof (rescale_half_up_large c e Hc ltac:(lia)).
    replace (rescale_half_up c e (-2) <? 10 ^ 28)%N with false by (symmetry; apply N.ltb_ge; lia).
    destruct (999999 <? _); reflexivity.
  - replace (999999 <? Z.of_N (ndigits c) + e - 1) with false by (symmetry; apply Z.ltb_ge; lia).
    set (q := rescale_half_up c e (-2)).
    destruct (N.ltb_spec q (10 ^ 28)) as [Q|Q].
    + pose proof (coef_len_le q 28 Q ltac:(lia)).
      replace (999999 <? coef_len q + -2 - 1) with false by (symmetry; apply Z.ltb_ge; lia).
      replace (28 <? coef_len q) with false by (symmetry; apply Z.ltb_ge; lia).
      destruct (N.eqb_spec q 0) as [->|Hq]; [reflexivity|].
      apply dec_fix_cents; lia.
    + pose proof (coef_len_ge q 28 Q).
      destruct (999999 <? coef_len q + -2 - 1); [reflexivity|].
      replace (28 <? coef_len q) with true by (symmetry; apply Z.ltb_lt; lia). reflexivity.
Qed.

(** *** Digit strings *)

Lemma digits_value_acc_app a b x :
  digits_value_acc (a ++ b) x = digits_value_acc b (digits_value_acc a x).
Proof. revert x. induction a as [|c a IH]; intros x; cbn; auto. Qed.

Lemma all_digits_app a b : all_digits (a ++ b) = all_digits a && all_digits b.
Proof. induction a as [|c a IH]; cbn; [reflexivity|]. rewrite IH. apply andb_assoc. Qed.

Lemma digit_char m : (m < 10)%N ->
  is_digit (ascii_of_N (48 + m)) = true /\ digit_val (ascii_of_N (48 + m)) = m.
Proof.
  intros H. unfold is_digit, digit_val. rewrite N_ascii_embedding by lia.
  split; [apply andb_true_iff; split; apply N.leb_le; lia|lia].
Qed.

Lemma n_to_digits_spec f n acc : (n < 10 ^ N.of_nat f)%N -> (1 <= f)%nat ->
  exists ds, n_to_digits f n acc = (ds ++ acc)%string /\ ds <> "" /\
             all_digits ds = true /\ digits_value ds = n.
Proof.
  revert n acc. induction f as [|f IH]; intros n acc H Hf; [lia|].
  cbn [n_to_digits].
  pose proof (N.mod_lt n 10 ltac:(lia)) as Hm.
  destruct (digit_char (n mod 10) Hm) as [D V].
  destruct (N.ltb_spec n 10) as [L|L].
  - exists (String (ascii_of_N (48 + n mod 10)%N) ""). split; [reflexivity|].
    split; [discriminate|]. unfold digits_value. cbn [all_digits digits_value_acc]. rewrite D, V. split; [reflexivity|].
    rewrite N.mod_small by lia. lia.
  - rewrite Nat2N.inj_succ, N.pow_succ_r' in H.
    assert (Hq : (n / 10 < 10 ^ N.of_nat f)%N) by (apply N.Div0.div_lt_upper_bound; lia).
    assert (Hf' : (1 <= f)%nat).
    { destruct f; [cbn in Hq; pose proof (N.div_le_lower_bound n 10 1); lia|lia]. }
    destruct (IH (n / 10)%N (String (ascii_of_N (48 + n mod 10)%N) acc) Hq Hf')
      as (ds & E & Hne & Hd & Hv).
    exists (ds ++ String (ascii_of_N (48 + n mod 10)%N) "")%string. split.
    + rewrite E, sapp_assoc. reflexivity.
    + split; [destruct ds; [contradiction|discriminate]|].
      rewrite all_digits_app, Hd. cbn [all_digits]. rewrite D. split; [reflexivity|].
      unfold digits_value. rewrite digits_value_acc_app. fold (digits_value ds). rewrite Hv.
      cbn [digits_value_acc]. rewrite V. pose proof (N.div_mod n 10 ltac:(lia)). lia.
Qed.

Lemma n_to_string_spec n :
  exists ds, n_to_string n = ds /\ ds <> "" /\ all_digits ds = true /\ digits_value ds = n.
Proof.
  unfold n_to_string.
  destruct (n_to_digits_spec (S (N.to_nat (N.size n))) n "") as (ds & E & H); [|lia|].
  - rewrite Nat2N.inj_succ, N2Nat.id, N.pow_succ_r'. pose proof (N.size_gt n).
    assert (2 ^ N.size n <= 10 ^ N.size n)%N by (apply N.pow_le_mono_l; lia). lia.
  - exists ds. rewrite E, sapp_nil_r. auto.
Qed.

(** *** Substrings and the thousands separator *)

Lemma substring_full s : substring 0 (String.length s) s = s.
Proof. induction s as [|c s IH]; cbn; [reflexivity|now rewrite IH]. Qed.

Lemma substring_split s k : (k <= String.length s)%nat ->
  (substring 0 k s ++ substring k (String.length s - k) s)%string = s.
Proof.
  revert k. induction s as [|c s IH]; intros k Hk.
  - destruct k; [reflexivity|cbn in Hk; lia].
  - destruct k as [|k].
    + rewrite Nat.sub_0_r. change (substring 0 0 (String c s)) with "". apply substring_full.
    + cbn [substring append String.length]. cbn in Hk.
      replace (S (String.length s) - S k)%nat with (String.length s - k)%nat by lia.
      rewrite IH by lia. reflexivity.
Qed.

Lemma substring_length s i j : (i + j <= String.length s)%nat ->
  String.length (substring i j s) = j.
Proof.
  revert i j. induction s as [|c s IH]; intros i j H.
  - cbn in H. destruct i, j; cbn in *; lia.
  - destruct i as [|i].
    + destruct j as [|j]; [reflexivity|]. cbn. cbn in H. rewrite IH by lia. reflexivity.
    + cbn. cbn in H. apply IH. lia.
Qed.

Lemma all_digits_forall s : all_digits s = str_forall is_digit s.
Proof. induction s as [|c s IH]; cbn; [reflexivity|now rewrite IH]. Qed.

Lemma str_forall_substring f s i j : str_forall f s = true -> str_forall f (substring i j s) = true.
Proof.
  revert i j. induction s as [|c s IH]; intros i j H; [destruct i, j; reflexivity|].
  cbn in H. apply andb_true_iff in H as [Hc Hs].
  destruct i as [|i]; [destruct j as [|j]; [reflexivity|]|]; cbn.
  - rewrite Hc. apply IH, Hs.
  - apply IH, Hs.
Qed.

Lemma remove_char_app c a b :
  py_remove_char c (a ++ b) = (py_remove_char c a ++ py_remove_char c b)%string.
Proof.
  induction a as [|d a IH]; cbn; [reflexivity|].
  destruct (Ascii.eqb d c); rewrite IH; reflexivity.
Qed.

Lemma remove_char_none c s :
  str_forall (fun d => negb (Ascii.eqb d c)) s = true -> py_remove_char c s = s.
Proof.
  induction s as [|d s IH]; cbn; [reflexivity|].
  intros H. apply andb_true_iff in H as [Hd Hs]. apply negb_true_iff in Hd.
  rewrite Hd, (IH Hs). reflexivity.
Qed.

Lemma digit_no_comma c : is_digit c = true -> negb (Ascii.eqb c ",") = true.
Proof. destruct c as [[] [] [] [] [] [] [] []]; vm_compute; congruence. Qed.

Lemma concat_snoc sep l g : l <> [] ->
  String.concat sep (l ++ [g]) = (String.concat sep l ++ sep ++ g)%string.
Proof.
  induction l as [|x l IH]; intros H; [contradiction|].
  destruct l as [|y l].
  - reflexivity.
  - cbn [app].
    change (String.concat sep (x :: y :: l ++ [g]))
      with (x ++ sep ++ String.concat sep (y :: l ++ [g]))%string.
    change (y :: l ++ [g]) with ((y :: l) ++ [g]).
    rewrite IH by discriminate.
    change (String.concat sep (x :: y :: l))
      with (x ++ sep ++ String.concat sep (y :: l))%string.
    rewrite !sapp_assoc. reflexivity.
Qed.

Lemma thousands_groups_nonempty f d : thousands_groups (S f) d <> [].
Proof. cbn. destruct (String.eqb _ _); discriminate. Qed.

Lemma thousands_groups_digits f d :
  d <> "" -> all_digits d = true -> (String.length d <= f)%nat ->
  py_remove_char "," (String.concat "," (rev (thousands_groups f d))) = d.
Proof.
  revert d. induction f as [|f IH]; intros d Hne Hd Hl.
  - destruct d; [contradiction|cbn in Hl; lia].
  - cbn [thousands_groups].
    set (n := String.length d).
    assert (Hn : (1 <= n)%nat) by (destruct d; [contradiction|cbn; lia]).
    replace (Nat.min (Nat.max n 1) 3) with (Nat.min n 3) by lia.
    replace (Nat.min (Nat.min n 3) n) with (Nat.min n 3) by lia.
    replace (Nat.min n 3 - n)%nat with 0%nat by lia. cbn [zeros append].
    set (g := substring (n - Nat.min n 3) (Nat.min n 3) d).
    set (rest := substring 0 (n - Nat.min n 3) d).
    assert (Hsplit : (rest ++ g)%string = d).
    { pose proof (substring_split d (n - Nat.min n 3) ltac:(lia)) as S. fold n in S.
      replace (n - (n - Nat.min n 3))%nat with (Nat.min n 3) in S by lia. exact S. }
    rewrite all_digits_forall in Hd.
    assert (Hg : py_remove_char "," g = g).
    { apply remove_char_none. apply (str_forall_impl is_digit); [exact digit_no_comma|].
      apply str_forall_substring, Hd. }
    destruct (String.eqb_spec rest "") as [E|E].
    + cbn. rewrite Hg, <- Hsplit, E. reflexivity.
    + cbn [rev]. destruct f as [|f].
      { exfalso. apply E. unfold rest. cbn in Hl.
        replace (n - Nat.min n 3)%nat with 0%nat by lia. destruct d; reflexivity. }
      rewrite concat_snoc
        by (intros C; apply (f_equal (@rev string)) in C; rewrite rev_involutive in C;
            apply (thousands_groups_nonempty f rest); exact C).
      rewrite !remove_char_app, Hg. cbn [py_remove_char Ascii.eqb Bool.eqb].
      rewrite IH; [exact Hsplit|exact E| |].
      * rewrite all_digits_forall. apply str_forall_substring, Hd.
      * unfold rest. rewrite substring_length by lia. lia.
Qed.

Lemma insert_thousands_sep_digits d :
  d <> "" -> all_digits d = true ->
  py_remove_char "," (insert_thousands_sep d) = d.
Proof. intros. apply thousands_groups_digits; auto. Qed.

(** *** The [',.2f'] layout of an amount in hundredths *)

Lemma rescale_half_even_cents q : rescale_half_even q (-2) (-2) = q.
Proof.
  unfold rescale_half_even. destruct (N.eqb_spec q 0) as [->|]; [reflexivity|].
  rewrite Z.leb_refl, Z.sub_diag. apply scale_0.
Qed.

Lemma format_cents_shape s q : exists ip fp,
  dec_format_comma_2f (DFin s q (-2)) =
    ((if s then "-" else "") ++ insert_thousands_sep ip ++ "." ++ fp)%string /\
  ip <> "" /\ all_digits ip = true /\ all_digits fp = true /\ String.length fp = 2%nat /\
  digits_value (ip ++ fp) = q.
Proof.
  unfold dec_format_comma_2f. rewrite rescale_half_even_cents.
  destruct (n_to_string_spec q) as (ds & -> & Hne & Hd & Hv).
  assert (Hl : (1 <= String.length ds)%nat) by (destruct ds; [contradiction|cbn; lia]).
  destruct (Nat.eq_dec (String.length ds) 1) as [L1|L1].
  - rewrite L1. cbn -[insert_thousands_sep zeros].
    exists "0", ("0" ++ ds)%string. cbn [zeros append].
    replace (String.eqb (String "0" ds) "") with false by reflexivity.
    split; [reflexivity|]. split; [discriminate|]. split; [reflexivity|].
    cbn [all_digits]. rewrite Hd. split; [reflexivity|].
    split; [cbn; rewrite L1; reflexivity|]. exact Hv.
  - replace (-2 + Z.of_nat (String.length ds) <? 0) with false
      by (symmetry; apply Z.ltb_ge; lia).
    replace (Z.of_nat (String.length ds) <? -2 + Z.of_nat (String.length ds)) with false
      by (symmetry; apply Z.ltb_ge; lia).
    replace (Z.to_nat (-2 + Z.of_nat (String.length ds))) with (String.length ds - 2)%nat
      by lia.
    replace (Z.to_nat (Z.of_nat (String.length ds) - (-2 + Z.of_nat (String.length ds))))
      with 2%nat by lia.
    pose proof (substring_split ds (String.length ds - 2) ltac:(lia)) as Sp.
    replace (String.length ds - (String.length ds - 2))%nat with 2%nat in Sp by lia.
    set (fp := substring (String.length ds - 2) 2 ds) in *.
    assert (Hfl : String.length fp = 2%nat) by (apply substring_length; lia).
    assert (Hfd : all_digits fp = true)
      by (rewrite all_digits_forall in *; apply str_forall_substring; assumption).
    replace (String.eqb fp "") with false by (destruct fp; [discriminate|reflexivity]).
    destruct (String.eqb_spec (substring 0 (String.length ds - 2) ds) "") as [E|E].
    + exists "0", fp. split; [reflexivity|]. split; [discriminate|]. split; [reflexivity|].
      split; [exact Hfd|]. split; [exact Hfl|].
      rewrite E in Sp. cbn [append] in Sp. rewrite Sp. exact Hv.
    + exists (substring 0 (String.length ds - 2) ds), fp.
      split; [reflexivity|]. split; [exact E|]. split.
      { rewrite all_digits_forall in *. apply str_forall_substring. assumption. }
      split; [exact Hfd|]. split; [exact Hfl|]. rewrite Sp. exact Hv.
Qed.

Lemma numeral_char_ok c : numeral_char c = true ->
  negb (py_isspace c) = true /\ negb (Ascii.eqb c "_") = true /\ Ascii.eqb (py_lower_char c) c = true.
Proof. destruct c as [[] [] [] [] [] [] [] []]; vm_compute; try discriminate; auto. Qed.

Lemma digit_first_char c : is_digit c = true ->
  Ascii.eqb c "+" = false /\ Ascii.eqb c "-" = false /\ Ascii.eqb c "i" = false /\
  c <> "n"%char /\ c <> "s"%char.
Proof.
  destruct c as [[] [] [] [] [] [] [] []]; vm_compute; try discriminate;
    intros _; repeat split; discriminate.
Qed.

Lemma py_rstrip_id s : str_forall (fun c => negb (py_isspace c)) s = true -> py_rstrip s = s.
Proof.
  induction s as [|c s IH]; cbn; [reflexivity|].
  intros H. apply andb_true_iff in H as [Hc Hs]. apply negb_true_iff in Hc.
  rewrite (IH Hs), Hc. reflexivity.
Qed.

Lemma py_strip_id s : str_forall (fun c => negb (py_isspace c)) s = true -> py_strip s = s.
Proof.
  intros H. unfold py_strip. destruct s as [|c r]; [reflexivity|].
  pose proof H as H'. cbn in H'. apply andb_true_iff in H' as [Hc _].
  apply negb_true_iff in Hc. cbn [py_lstrip]. rewrite Hc. apply py_rstrip_id. exact H.
Qed.

Lemma drop_underscores_id s :
  str_forall (fun c => negb (Ascii.eqb c "_")) s = true -> drop_underscores s = s.
Proof.
  induction s as [|c s IH]; cbn; [reflexivity|].
  intros H. apply andb_true_iff in H as [Hc Hs]. apply negb_true_iff in Hc.
  rewrite Hc, (IH Hs). reflexivity.
Qed.

Lemma py_lower_id s :
  str_forall (fun c => Ascii.eqb (py_lower_char c) c) s = true -> py_lower s = s.
Proof.
  induction s as [|c s IH]; cbn; [reflexivity|].
  intros H. apply andb_true_iff in H as [Hc Hs]. apply Ascii.eqb_eq in Hc.
  rewrite Hc, (IH Hs). reflexivity.
Qed.

Lemma take_digits_all a : all_digits a = true -> take_digits a = (a, ""%string).
Proof.
  induction a as [|c a IH]; cbn; [reflexivity|].
  intros H. apply andb_true_iff in H as [Hc Ha]. rewrite Hc, (IH Ha). reflexivity.
Qed.

Lemma take_digits_app a c b : all_digits a = true -> is_digit c = false ->
  take_digits (a ++ String c b) = (a, String c b).
Proof.
  induction a as [|x a IH]; cbn; intros H Hc; [rewrite Hc; reflexivity|].
  apply andb_true_iff in H as [Hx Ha]. rewrite Hx, (IH Ha Hc). reflexivity.
Qed.

Lemma finite_in_range_cents q : (q < 10 ^ 28)%N -> finite_in_range q (-2) = true.
Proof.
  intros H. pose proof (ndigits_lt q 28 H). unfold finite_in_range, max_etiny, max_emax.
  destruct (q =? 0)%N; apply andb_true_iff; split; apply Z.leb_le; lia.
Qed.

Lemma parse_unsigned_cents neg ip fp :
  ip <> "" -> all_digits ip = true -> all_digits fp = true -> String.length fp = 2%nat ->
  finite_in_range (digits_value (ip ++ fp)) (-2) = true ->
  str_forall numeral_char (ip ++ "." ++ fp) = true ->
  parse_unsigned neg (ip ++ "." ++ fp) = Some (DFin neg (digits_value (ip ++ fp)) (-2)).
Proof.
  intros Hne Hip Hfp Hl Hfin Hn.
  destruct ip as [|d r]; [contradiction|].
  assert (Hd : is_digit d = true) by (cbn in Hip; destruct (is_digit d); [reflexivity|discriminate]).
  destruct (digit_first_char d Hd) as (_ & _ & Hi & Hnn & Hs).
  unfold parse_unsigned.
  rewrite py_lower_id
    by (eapply str_forall_impl; [|exact Hn]; intros c Hc; apply (numeral_char_ok c Hc)).
  destruct (String.eqb_spec (String d r ++ "." ++ fp) "inf") as [E|_].
  { cbn in E. injection E as E. subst d. discriminate. }
  destruct (String.eqb_spec (String d r ++ "." ++ fp) "infinity") as [E|_].
  { cbn in E. injection E as E. subst d. discriminate. }
  destruct (String.prefix "nan" (String d r ++ "." ++ fp)) eqn:P1.
  { apply prefix_spec in P1 as [x E]. cbn in E. injection E as E. congruence. }
  destruct (String.prefix "snan" (String d r ++ "." ++ fp)) eqn:P2.
  { apply prefix_spec in P2 as [x E]. cbn in E. injection E as E. congruence. }
  cbn [andb].
  change ("." ++ fp)%string with (String "." fp).
  rewrite take_digits_app by (exact Hip || reflexivity).
  cbn [Ascii.eqb Bool.eqb]. rewrite take_digits_all by exact Hfp.
  cbn [String.eqb andb]. cbn [parse_exponent].
  replace (0 - Z.of_nat (String.length fp)) with (-2) by (rewrite Hl; reflexivity).
  rewrite Hfin. reflexivity.
Qed.

(** [Decimal] reads back an optional minus sign, digits, a point and two
    digits. *)
Lemma Decimal_cents (s : bool) ip fp :
  ip <> "" -> all_digits ip = true -> all_digits fp = true -> String.length fp = 2%nat ->
  finite_in_range (digits_value (ip ++ fp)) (-2) = true ->
  Decimal ((if s then "-" else "") ++ ip ++ "." ++ fp)%string =
    Ok (DFin s (digits_value (ip ++ fp)) (-2)).
Proof.
  intros Hne Hip Hfp Hl Hfin.
  assert (Hn : str_forall numeral_char (ip ++ "." ++ fp) = true).
  { rewrite !str_forall_app. cbn [str_forall].
    rewrite all_digits_forall in Hip, Hfp.
    rewrite (str_forall_impl is_digit numeral_char ip), (str_forall_impl is_digit numeral_char fp);
      try assumption; try (intros c Hc; unfold numeral_char; rewrite Hc; reflexivity).
    reflexivity. }
  assert (Hall : str_forall numeral_char ((if s then "-" else "") ++ ip ++ "." ++ fp) = true)
    by (rewrite str_forall_app, Hn; destruct s; reflexivity).
  unfold Decimal, parse_decimal.
  rewrite py_strip_id
    by (eapply str_forall_impl; [|exact Hall]; intros c Hc; apply (numeral_char_ok c Hc)).
  rewrite drop_underscores_id
    by (eapply str_forall_impl; [|exact Hall]; intros c Hc; apply (numeral_char_ok c Hc)).
  destruct s.
  - change (("-" ++ (ip ++ "." ++ fp))%string) with (String "-" (ip ++ "." ++ fp)).
    cbn [Ascii.eqb Bool.eqb].
    rewrite parse_unsigned_cents by assumption. reflexivity.
  - change (("" ++ (ip ++ "." ++ fp))%string) with (ip ++ "." ++ fp)%string.
    destruct ip as [|d r]; [contradiction|].
    assert (Hd : is_digit d = true) by (cbn in Hip; destruct (is_digit d); [reflexivity|discriminate]).
    destruct (digit_first_char d Hd) as (Hp & Hm & _).
    change (String d r ++ "." ++ fp)%string with (String d (r ++ "." ++ fp)).
    cbv beta iota. rewrite Hp, Hm. change (String d (r ++ "." ++ fp)) with (String d r ++ "." ++ fp)%string.
    rewrite parse_unsigned_cents by (assumption || discriminate). reflexivity.
Qed.

(** *** [format_currency] *)

Lemma remove_comma_sign (s : bool) :
  py_remove_char "," (if s then "-" else "") = (if s then "-" else "").
Proof. destruct s; reflexivity. Qed.

Lemma format_currency_cents (s : bool) q : (q < 10 ^ 28)%N ->
  exists t, ("$" ++ dec_format_comma_2f (DFin s q (-2)))%string = ("$" ++ t)%string /\
    Decimal (py_remove_char "," t) = Ok (DFin s q (-2)).
Proof.
  intros Hq. destruct (format_cents_shape s q) as (ip & fp & E & Hne & Hip & Hfp & Hl & Hv).
  exists (dec_format_comma_2f (DFin s q (-2))). split; [reflexivity|]. rewrite E.
  rewrite !remove_char_app, remove_comma_sign, insert_thousands_sep_digits by assumption.
  cbn [py_remove_char Ascii.eqb Bool.eqb].
  rewrite (remove_char_none "," fp)
    by (rewrite all_digits_forall in Hfp; eapply str_forall_impl; [|exact Hfp]; apply digit_no_comma).
  change (String "." fp) with ("." ++ fp)%string.
  rewrite Decimal_cents by (try rewrite Hv; first [assumption | apply finite_in_range_cents; assumption]).
  rewrite Hv. reflexivity.
Qed.

(** X11: [format_currency] raises (InvalidOperation) exactly on a signaling
    NaN, an infinity, or a non-zero finite amount whose value rounded half-up
    to hundredths needs more than 28 digits; on every other amount it returns. *)
Theorem format_currency_raises x :
  match format_currency x with
  | Ok _ => currency_invalid x = false
  | Raise e => e = InvalidOperation /\ currency_invalid x = true
  end.
Proof.
  unfold format_currency. rewrite Decimal_cent. cbn [res_bind].
  destruct x as [s c e|s|[]]; try (split; reflexivity); try reflexivity.
  cbn [currency_invalid].
  destruct (N.eqb_spec c 0) as [->|Hc].
  - reflexivity.
  - rewrite quantize_cent_fin by exact Hc. cbn [negb andb].
    destruct (N.ltb_spec (rescale_half_up c e (-2)) (10 ^ 28)) as [L|L].
    + cbn [res_bind]. apply N.leb_gt. exact L.
    + cbn [res_bind]. split; [reflexivity|]. apply N.leb_le. exact L.
Qed.

(** X12: The string [format_currency] returns is [$] followed by a numeral
    which, with its thousands separators removed, is read back by [Decimal] as
    exactly the amount quantized half-up to [0.01]. *)
Theorem format_currency_roundtrip x out :
  format_currency x = Ok out ->
  exists t q r, out = ("$" ++ t)%string /\ Decimal "0.01" = Ok q /\
    dec_quantize_half_up x q = Ok r /\ Decimal (py_remove_char "," t) = Ok r.
Proof.
  unfold format_currency. rewrite Decimal_cent. cbn [res_bind].
  destruct x as [s c e|s|[]]; try (cbn; discriminate).
  - destruct (N.eqb_spec c 0) as [->|Hc].
    + change (dec_quantize_half_up (DFin s 0 e) cent) with (Ok (DFin s 0 (-2))).
      cbn [res_bind]. intros H. injection H as <-.
      destruct (format_currency_cents s 0 ltac:(reflexivity)) as (t & E & D).
      exists t, cent, (DFin s 0 (-2)). rewrite <- E. repeat split; first [exact D | reflexivity].
    + rewrite quantize_cent_fin by exact Hc.
      destruct (N.ltb_spec (rescale_half_up c e (-2)) (10 ^ 28)) as [L|L]; [|discriminate].
      cbn [res_bind]. intros H. injection H as <-.
      destruct (format_currency_cents s _ L) as (t & E & D).
      exists t, cent, (DFin s (rescale_half_up c e (-2)) (-2)). rewrite <- E.
      rewrite quantize_cent_fin by exact Hc.
      replace (rescale_half_up c e (-2) <? 10 ^ 28)%N with true by (symmetry; apply N.ltb_lt; exact L).
      repeat split; exact D.
  - cbn [dec_quantize_half_up cent res_bind].
    intros H. injection H as <-. exists "NaN", cent, (DNaN false).
    repeat split; reflexivity.
Qed.

(** X13: A negative amount that rounds half-up to zero cents (a negative zero,
    or -c * 10^e with e < -2 below half a cent) is formatted as [$-0.00]. *)
Theorem format_currency_negative_zero c e :
  c = 0%N \/ (e < -2 /\ (2 * c < 10 ^ Z.to_N (-2 - e))%N) ->
  format_currency (DFin true c e) = Ok "$-0.00".
Proof.
  intros H. unfold format_currency. rewrite Decimal_cent. cbn [res_bind].
  destruct (N.eqb_spec c 0) as [->|Hc].
  - reflexivity.
  - destruct H as [|[He H]]; [contradiction|].
    assert (R : rescale_half_up c e (-2) = 0%N).
    { unfold rescale_half_up.
      replace (-2 <=? e) with false by (symmetry; apply Z.leb_gt; exact He).
      set (p := (10 ^ Z.to_N (-2 - e))%N) in *.
      assert (Hp : (c < p)%N) by lia.
      rewrite N.div_small, N.mod_small by exact Hp.
      replace (p <=? 2 * c)%N with false by (symmetry; apply N.leb_gt; exact H).
      reflexivity. }
    rewrite quantize_cent_fin by exact Hc. rewrite R. reflexivity.
Qed.





Lemma bind_ok {A B} (m : result A) (k : A -> result B) v :
  res_bind m k = Ok v -> exists x, m = Ok x /\ k x = Ok v.
Proof. destruct m; cbn; [eauto|discriminate]. Qed.

Lemma ok_inj {A} (a b : A) : Ok a = Ok b -> a = b.
Proof. intros H. injection H as E. exact E. Qed.

Lemma get_last_char p c : String.get (String.length p) (p ++ String c "") = Some c.
Proof. induction p as [|x p IH]; cbn; [reflexivity|exact IH]. Qed.

Lemma slen_app a b : String.length (a ++ b) = (String.length a + String.length b)%nat.
Proof. induction a as [|x a IH]; cbn; [reflexivity|now rewrite IH]. Qed.

Lemma pct_not_na p : (p ++ "%")%string <> NA_TEXT.
Proof.
  intros E. assert (L := f_equal String.length E). rewrite slen_app in L.
  cbn in L. assert (Hp : String.length p = 23%nat) by lia.
  assert (G := f_equal (String.get 23) E). rewrite <- Hp in G.
  rewrite get_last_char in G. rewrite Hp in G. vm_compute in G. discriminate.
Qed.

Lemma format_yoy_unfold current prior :
  format_yoy current prior = yoy_branch current prior (dec_eq_zero prior) eq_refl.
Proof. reflexivity. Qed.

Lemma branch_false current prior z (E : dec_eq_zero prior = z) (Hz : dec_eq_zero prior = Ok false) :
  z = Ok false -> yoy_branch current prior z E = yoy_body current prior Hz.
Proof. intros Hf. destruct z as [[]|e]; try discriminate. reflexivity. Qed.

Lemma branch_true current prior z (E : dec_eq_zero prior = z) :
  z = Ok true -> yoy_branch current prior z E = Ok NA_TEXT.
Proof. intros Hf. destruct z as [[]|e]; try discriminate. reflexivity. Qed.

Lemma branch_raise current prior z (E : dec_eq_zero prior = z) e :
  z = Raise e -> yoy_branch current prior z E = Raise e.
Proof. intros Hf. destruct z as [[]|e']; try discriminate. injection Hf as ->. reflexivity. Qed.

Lemma yoy_body_irrel current prior H1 H2 : yoy_body current prior H1 = yoy_body current prior H2.
Proof. reflexivity. Qed.

Lemma format_yoy_body current prior (Hz : dec_eq_zero prior = Ok false) :
  format_yoy current prior = yoy_body current prior Hz.
Proof. rewrite format_yoy_unfold. apply branch_false, Hz. Qed.

Lemma format_yoy_na current prior :
  dec_eq_zero prior = Ok true -> format_yoy current prior = Ok NA_TEXT.
Proof. intros Hz. rewrite format_yoy_unfold. apply branch_true, Hz. Qed.

Lemma format_yoy_raise current prior e :
  dec_eq_zero prior = Raise e -> format_yoy current prior = Raise e.
Proof. intros Hz. rewrite format_yoy_unfold. apply branch_raise, Hz. Qed.

Lemma yoy_body_pct current prior Hz out :
  yoy_body current prior Hz = Ok out -> exists p, out = (p ++ "%")%string.
Proof.
  unfold yoy_body. intros H.
  repeat (apply bind_ok in H as [? [_ H]]). injection H as <-.
  eexists. rewrite sapp_assoc. reflexivity.
Qed.

(** *** Signs through [format_yoy] *)

Lemma scale_zero_c k : scale 0 k = 0%N.
Proof. reflexivity. Qed.

Lemma zval_neg s c : zval (negb s) c = - zval s c.
Proof. destruct s; cbn; lia. Qed.

Lemma scale_pos c k : c <> 0%N -> scale c k <> 0%N.
Proof.
  unfold scale. intros Hc E. apply N.mul_eq_0 in E as [E|E]; [contradiction|].
  apply (N.pow_nonzero 10 (Z.to_N k)); [discriminate|exact E].
Qed.

Lemma dec_sub_fin_sign s1 c1 e1 s2 c2 e2 d :
  c2 <> 0%N -> dec_sub (DFin s1 c1 e1) (DFin s2 c2 e2) = Ok d ->
  exists cd ed, d = DFin (let m := Z.min e1 e2 in
                          zval s1 (scale c1 (e1 - m)) <? zval s2 (scale c2 (e2 - m))) cd ed.
Proof.
  intros Hc2. unfold dec_sub, dec_negate, dec_add.
  rewrite (proj2 (N.eqb_neq c2 0) Hc2), andb_false_r.
  set (m := Z.min e1 e2).
  destruct (N.eqb_spec c1 0) as [->|Hc1].
  - intros H. apply dec_fix_sign in H. rewrite scale_zero_c.
    replace (zval s1 0 <? zval s2 (scale c2 (e2 - m))) with (negb s2); [exact H|].
    pose proof (scale_pos c2 (e2 - m) Hc2).
    destruct s1, s2; cbn [zval negb]; symmetry;
      first [apply Z.ltb_lt | apply Z.ltb_ge]; lia.
  - rewrite zval_neg.
    destruct (Z.eqb_spec (zval s1 (scale c1 (e1 - m)) + - zval s2 (scale c2 (e2 - m))) 0) as [E|E];
      intros H; apply dec_fix_sign in H.
    + replace (zval s1 (scale c1 (e1 - m)) <? zval s2 (scale c2 (e2 - m))) with false
        by (symmetry; apply Z.ltb_ge; lia). exact H.
    + replace (zval s1 (scale c1 (e1 - m)) <? zval s2 (scale c2 (e2 - m)))
        with (zval s1 (scale c1 (e1 - m)) + - zval s2 (scale c2 (e2 - m)) <? 0); [exact H|].
      destruct (Z.ltb_spec (zval s1 (scale c1 (e1 - m)) + - zval s2 (scale c2 (e2 - m))) 0);
        symmetry; [apply Z.ltb_lt|apply Z.ltb_ge]; lia.
Qed.

Lemma dec_div_fin_sign s1 c1 e1 s2 c2 e2 H d :
  dec_div (DFin s1 c1 e1) (DFin s2 c2 e2) H = Ok d -> exists c e, d = DFin (xorb s1 s2) c e.
Proof.
  unfold dec_div.
  repeat (cbv beta iota zeta;
          match goal with
          | |- context [if ?b then _ else _] => destruct b
          | |- context [let '(_, _) := ?p in _] => destruct p
          end);
    apply dec_fix_sign.
Qed.

Lemma dec_mul_100_sign s c e d :
  dec_mul (DFin s c e) (dec_of_int 100) = Ok d -> exists c' e', d = DFin s c' e'.
Proof. cbn [dec_mul dec_of_int]. intros H. apply dec_fix_sign in H. now rewrite xorb_false_r in H. Qed.

Lemma Decimal_tenth : Decimal "0.1" = Ok tenth.
Proof. reflexivity. Qed.

Lemma coef_len_lt x : coef_len x <= 28 -> (x < 10 ^ 28)%N.
Proof.
  unfold coef_len. intros H. destruct (N.eqb_spec x 0) as [Hx|Hx]; [subst x; reflexivity|].
  destruct (ndigits_spec x) as (Hu & _ & _).
  eapply N.lt_le_trans; [exact Hu|]. apply N.pow_le_mono_r; [discriminate|lia].
Qed.

Lemma dec_fix_tenths neg c : (c < 10 ^ 28)%N -> dec_fix neg c (-1) = Ok (DFin neg c (-1)).
Proof.
  intros H1. destruct (N.eqb_spec c 0) as [->|H0]; [reflexivity|]. unfold dec_fix.
  replace (c =? 0)%N with false by (symmetry; apply N.eqb_neq; lia).
  assert (Hn : (ndigits c <= 28)%N) by (apply (ndigits_aux_le _ c 28); exact H1).
  unfold etop, etiny, emax, emin, prec.
  destruct (Z.ltb_spec (999999 - 28 + 1) (Z.of_N (ndigits c) + -1 - 28)); [lia|].
  destruct (Z.ltb_spec (-1) (Z.max (Z.of_N (ndigits c) + -1 - 28) (-999999 - 28 + 1)));
    [lia|reflexivity].
Qed.

Lemma quantize_tenth_sign s c e r :
  dec_quantize_half_up (DFin s c e) tenth = Ok r -> exists q, r = DFin s q (-1).
Proof.
  unfold dec_quantize_half_up, tenth.
  change (negb ((etiny <=? -1) && (-1 <=? emax))) with false. cbv iota.
  destruct (N.eqb_spec c 0) as [->|Hc].
  - intros H. injection H as <-. eauto.
  - destruct (emax <? _); [discriminate|]. destruct (prec <? _); [discriminate|].
    destruct (emax <? _); [discriminate|].
    destruct (Z.ltb_spec prec (coef_len (rescale_half_up c e (-1)))) as [|L]; [discriminate|].
    rewrite dec_fix_tenths by (apply coef_len_lt; exact L).
    intros H. injection H as <-. eauto.
Qed.

Lemma n_to_string_len1 ds : String.length ds = 1%nat -> exists d, ds = String d "".
Proof. destruct ds as [|d [|]]; cbn; try discriminate; eauto. Qed.

Lemma dec_str_tenths (s : bool) q : exists ip d,
  dec_str (DFin s q (-1)) = ((if s then "-" else "") ++ ip ++ "." ++ String d "")%string /\
  ip <> "" /\ all_digits ip = true /\ is_digit d = true /\ digits_value (ip ++ String d "") = q.
Proof.
  unfold dec_str. destruct (n_to_string_spec q) as (ds & -> & Hne & Hd & Hv).
  assert (Hl : (1 <= String.length ds)%nat) by (destruct ds; [contradiction|cbn; lia]).
  replace ((-1 <=? 0) && (-6 <? -1 + Z.of_nat (String.length ds))) with true
    by (symmetry; apply andb_true_iff; split; [reflexivity|apply Z.ltb_lt; lia]).
  rewrite Z.eqb_refl.
  destruct (Nat.eq_dec (String.length ds) 1) as [L1|L1].
  - destruct (n_to_string_len1 ds L1) as [d ->]. cbn in Hd. rewrite andb_true_r in Hd.
    exists "0", d. cbn -[append]. rewrite sapp_nil_r. repeat split; try assumption; discriminate.
  - replace (-1 + Z.of_nat (String.length ds) <=? 0) with false
      by (symmetry; apply Z.leb_gt; lia).
    replace (Z.of_nat (String.length ds) <=? -1 + Z.of_nat (String.length ds)) with false
      by (symmetry; apply Z.leb_gt; lia).
    replace (Z.to_nat (-1 + Z.of_nat (String.length ds))) with (String.length ds - 1)%nat by lia.
    replace (Z.to_nat (Z.of_nat (String.length ds) - (-1 + Z.of_nat (String.length ds))))
      with 1%nat by lia.
    pose proof (substring_split ds (String.length ds - 1) ltac:(lia)) as Sp.
    replace (String.length ds - (String.length ds - 1))%nat with 1%nat in Sp by lia.
    set (fp := substring (String.length ds - 1) 1 ds) in *.
    assert (Hfl : String.length fp = 1%nat) by (apply substring_length; lia).
    destruct (n_to_string_len1 fp Hfl) as [d Ed].
    assert (Hfd : all_digits fp = true)
      by (rewrite all_digits_forall in *; apply str_forall_substring; assumption).
    rewrite Ed in Hfd. cbn in Hfd. rewrite andb_true_r in Hfd.
    exists (substring 0 (String.length ds - 1) ds), d. rewrite <- Ed, sapp_nil_r.
    split; [reflexivity|]. split.
    { intros E. apply (f_equal String.length) in E. rewrite substring_length in E by lia.
      cbn in E. lia. }
    split; [rewrite all_digits_forall in *; apply str_forall_substring; assumption|].
    split; [exact Hfd|]. rewrite Sp. exact Hv.
Qed.

Lemma zval_scale s c k : 0 <= k -> zval s (scale c k) = zval s c * 10 ^ k.
Proof.
  intros Hk. unfold zval, scale.
  rewrite N2Z.inj_mul, N2Z.inj_pow, Z2N.id by exact Hk. destruct s; cbn; lia.
Qed.

Lemma fin_value_scaled s c e m : m <= e ->
  (fin_value s c e == inject_Z (zval s (scale c (e - m))) * inject_Z 10 ^ m)%Q.
Proof.
  intros Hm. unfold fin_value. rewrite zval_scale by lia.
  rewrite inject_Z_mult, Zpower_Qpower by lia.
  rewrite <- Qmult_assoc, <- Qpower_plus by discriminate.
  replace (e - m + m) with e by lia. reflexivity.
Qed.

Lemma fin_lt_scaled s1 c1 e1 s2 c2 e2 :
  (let m := Z.min e1 e2 in zval s1 (scale c1 (e1 - m)) <? zval s2 (scale c2 (e2 - m))) =
  if Qlt_le_dec (fin_value s1 c1 e1) (fin_value s2 c2 e2) then true else false.
Proof.
  cbv zeta. set (m := Z.min e1 e2).
  assert (P : (0 < inject_Z 10 ^ m)%Q) by (apply Qpower_0_lt; reflexivity).
  destruct (Qlt_le_dec _ _) as [L|L];
    rewrite (fin_value_scaled s1 c1 e1 m), (fin_value_scaled s2 c2 e2 m) in L by lia.
  - apply Qmult_lt_r in L; [|exact P]. rewrite <- Zlt_Qlt in L. apply Z.ltb_lt, L.
  - apply Qmult_le_r in L; [|exact P]. rewrite <- Zle_Qle in L. apply Z.ltb_ge, L.
Qed.

(** X14: [format_yoy current prior] returns [N/A (no prior year data)] exactly
    when [prior] is a (positive or negative) zero, whatever [current] is. *)
Theorem format_yoy_na_iff current prior :
  format_yoy current prior = Ok NA_TEXT <-> exists s e, prior = DFin s 0 e.
Proof.
  assert (Body : forall Hz : dec_eq_zero prior = Ok false,
             format_yoy current prior <> Ok NA_TEXT).
  { intros Hz H. rewrite (format_yoy_body _ _ Hz) in H.
    destruct (yoy_body_pct _ _ _ _ H) as [p Ep]. exact (pct_not_na p (eq_sym Ep)). }
  destruct prior as [s c e|s|[]].
  - destruct (N.eqb_spec c 0) as [->|Hc].
    + split; [eauto|]. intros _. apply format_yoy_na. reflexivity.
    + split.
      * intros H. exfalso. refine (Body _ H). cbn. rewrite (proj2 (N.eqb_neq _ _) Hc). reflexivity.
      * intros (s' & e' & E). injection E as _ E _. contradiction.
  - split; [intros H; exfalso; exact (Body eq_refl H)|intros (? & ? & E); discriminate].
  - split; [intros H; rewrite (format_yoy_raise current (DNaN true) InvalidOperation eq_refl) in H; discriminate|].
    intros (? & ? & E); discriminate.
  - split; [intros H; exfalso; exact (Body eq_refl H)|intros (? & ? & E); discriminate].
Qed.

(** X15: When [prior] is not zero and one of the two amounts is a NaN or an
    infinity, [format_yoy] raises InvalidOperation. *)
Theorem format_yoy_special current prior :
  (forall s e, prior <> DFin s 0 e) ->
  (forall s c e, current <> DFin s c e) \/ (forall s c e, prior <> DFin s c e) ->
  format_yoy current prior = Raise InvalidOperation.
Proof.
  intros Hnz Hsp. destruct prior as [s2 c2 e2|s2|[]].
  - destruct (N.eqb_spec c2 0) as [->|Hc2]; [exfalso; exact (Hnz s2 e2 eq_refl)|].
    assert (Hz : dec_eq_zero (DFin s2 c2 e2) = Ok false)
      by (cbn; rewrite (proj2 (N.eqb_neq _ _) Hc2); reflexivity).
    rewrite (format_yoy_body _ _ Hz). unfold yoy_body.
    destruct Hsp as [Hsp|Hsp]; [|exfalso; exact (Hsp s2 c2 e2 eq_refl)].
    destruct current as [s1 c1 e1|s1|[]]; [exfalso; exact (Hsp s1 c1 e1 eq_refl)| |reflexivity|].
    + cbn [dec_sub dec_negate dec_add res_bind dec_div dec_mul dec_of_int].
      rewrite Decimal_tenth. reflexivity.
    + cbn [dec_sub dec_negate dec_add res_bind dec_div dec_mul dec_of_int].
      rewrite Decimal_tenth. reflexivity.
  - rewrite (format_yoy_body current (DInf s2) eq_refl). unfold yoy_body.
    destruct current as [s1 c1 e1|s1|[]]; try reflexivity.
    destruct s1, s2; reflexivity.
  - apply format_yoy_raise. reflexivity.
  - rewrite (format_yoy_body current (DNaN false) eq_refl). unfold yoy_body.
    destruct current as [s1 c1 e1|s1|[]]; reflexivity.
Qed.

(** X16: On finite amounts with a non-zero prior, a successful [format_yoy]
    returns an optional [+], the sign [-] when the change is negative, digits,
    a point, one digit and [%]; the [+] appears when the change is
    non-negative and also when it rounds to zero, so a tiny negative change is
    shown as [+-0.0%]. *)
Theorem format_yoy_finite s1 c1 e1 s2 c2 e2 out :
  c2 <> 0%N -> format_yoy (DFin s1 c1 e1) (DFin s2 c2 e2) = Ok out ->
  let neg := if Qlt_le_dec (fin_value s1 c1 e1) (fin_value s2 c2 e2) then negb s2 else s2 in
  exists q ip d,
    out = ((if negb neg || (q =? 0)%N then "+" else "") ++ (if neg then "-" else "") ++
           ip ++ "." ++ String d "%")%string /\
    ip <> "" /\ all_digits ip = true /\ is_digit d = true /\ digits_value (ip ++ String d "") = q.
Proof.
  intros Hc2 H neg.
  assert (Hz : dec_eq_zero (DFin s2 c2 e2) = Ok false)
    by (cbn; rewrite (proj2 (N.eqb_neq _ _) Hc2); reflexivity).
  rewrite (format_yoy_body _ _ Hz) in H. unfold yoy_body in H.
  apply bind_ok in H as [d0 [Hd H]]. apply dec_sub_fin_sign in Hd as (cd & ed & ->); [|exact Hc2].
  apply bind_ok in H as [q0 [Hq H]]. apply dec_div_fin_sign in Hq as (cq & eq & ->).
  apply bind_ok in H as [m0 [Hm H]]. apply dec_mul_100_sign in Hm as (cm & em & ->).
  apply bind_ok in H as [t [Ht H]]. rewrite Decimal_tenth in Ht. apply ok_inj in Ht. subst t.
  apply bind_ok in H as [r [Hr H]]. apply quantize_tenth_sign in Hr as (q & ->).
  apply bind_ok in H as [nn [Hnn H]]. apply ok_inj in Hnn, H. subst nn out.
  cbn [dec_nonneg].
  rewrite fin_lt_scaled.
  replace (xorb (if Qlt_le_dec (fin_value s1 c1 e1) (fin_value s2 c2 e2) then true else false) s2)
    with neg by (unfold neg; destruct (Qlt_le_dec _ _); reflexivity).
  destruct (dec_str_tenths neg q) as (ip & d & E & Hne & Hip & Hd & Hv).
  exists q, ip, d. rewrite E, !sapp_assoc. repeat split; assumption.
Qed.

(** ** Requests, the report text and the daily revenue row *)

Lemma get_attempts_spec w t a l s :
  (a + l <= MAX_RETRIES)%nat ->
  match get_attempts w t a l s with
  | None => (length (pending s) < l)%nat
  | Some (Ok None, s') =>
      exists pre, length pre = l /\ forallb failed pre = true /\
        pending s = pre ++ pending s' /\ requests s' = requests s ++ repeat t l
  | Some (Ok (Some r), s') =>
      exists pre, (length pre < l)%nat /\ forallb failed pre = true /\ accepted r = true /\
        pending s = pre ++ Resp r :: pending s' /\
        requests s' = requests s ++ repeat t (S (length pre))
  | Some (Raise e, s') =>
      exists pre r h, (length pre < l)%nat /\ forallb failed pre = true /\
        pending s = pre ++ Resp r :: pending s' /\
        r_status r = 429 /\ r_retry_after r = Some h /\ w h = Raise e
  end.
Proof.
  revert a s. induction l as [|l IH]; intros a s Hal.
  - cbn. exists []. repeat split; [rewrite app_nil_r; reflexivity].
  - destruct s as [p rq sl]. cbn [get_attempts]. unfold io_bind at 1, http_get at 1.
    cbn [pending requests slept].
    destruct p as [|o rest]; [cbn; lia|].
    (* the step that retries after one failed outcome [o] *)
    assert (Retry : forall q, failed o = true ->
      match get_attempts w t (S a) l {| pending := rest; requests := rq ++ [t]; slept := sl ++ [q] |} with
      | None => (length (pending {| pending := o :: rest; requests := rq; slept := sl |}) < S l)%nat
      | Some (Ok None, s') =>
          exists pre, length pre = S l /\ forallb failed pre = true /\
            pending {| pending := o :: rest; requests := rq; slept := sl |} = pre ++ pending s' /\
            requests s' = requests {| pending := o :: rest; requests := rq; slept := sl |} ++ repeat t (S l)
      | Some (Ok (Some r), s') =>
          exists pre, (length pre < S l)%nat /\ forallb failed pre = true /\ accepted r = true /\
            pending {| pending := o :: rest; requests := rq; slept := sl |} = pre ++ Resp r :: pending s' /\
            requests s' = requests {| pending := o :: rest; requests := rq; slept := sl |} ++ repeat t (S (length pre))
      | Some (Raise e, s') =>
          exists pre r h, (length pre < S l)%nat /\ forallb failed pre = true /\
            pending {| pending := o :: rest; requests := rq; slept := sl |} = pre ++ Resp r :: pending s' /\
            r_status r = 429 /\ r_retry_after r = Some h /\ w h = Raise e
      end).
    { intros q Hf. specialize (IH (S a) {| pending := rest; requests := rq ++ [t]; slept := sl ++ [q] |} ltac:(lia)).
      cbn [pending requests slept] in *.
      destruct (get_attempts w t (S a) l _) as [[[[r|]|e] s']|]; cbn [length].
      - destruct IH as (pre & L & F & A & P & R). exists (o :: pre).
        cbn [length forallb]. rewrite Hf, F, P, R. repeat split; auto; try lia.
        rewrite <- app_assoc. reflexivity.
      - destruct IH as (pre & L & F & P & R). exists (o :: pre).
        cbn [length forallb]. rewrite Hf, F, P, R. repeat split; try lia.
        rewrite <- app_assoc. reflexivity.
      - destruct IH as (pre & r & h & L & F & P & H1 & H2 & H3). exists (o :: pre), r, h.
        cbn [length forallb]. rewrite Hf, F, P. repeat split; auto; lia.
      - lia. }
    (* the last attempt gives up after a request error *)
    assert (GiveUp : failed o = true -> (a <? MAX_RETRIES - 1)%nat = false ->
      exists pre, length pre = S l /\ forallb failed pre = true /\
        o :: rest = pre ++ rest /\ rq ++ [t] = rq ++ repeat t (S l)).
    { intros Hf Ha. apply Nat.ltb_ge in Ha. unfold MAX_RETRIES in *.
      assert (l = 0%nat) by lia. subst l. exists [o]. cbn. rewrite Hf. repeat split. }
    destruct o as [|r].
    + cbn beta iota zeta. destruct (a <? MAX_RETRIES - 1)%nat eqn:Ha.
      * exact (Retry _ eq_refl).
      * cbn. exact (GiveUp eq_refl eq_refl).
    + cbn beta iota zeta.
      destruct (r_status r =? 429) eqn:H429.
      * assert (Hf : failed (Resp r) = true) by (cbn; unfold accepted; rewrite H429; reflexivity).
        destruct (r_retry_after r) as [h|] eqn:Hh.
        -- unfold io_bind at 1, io_lift. destruct (w h) as [q|e] eqn:Hw.
           ++ exact (Retry _ Hf).
           ++ exists [], r, h. cbn. repeat split; auto; lia.
        -- exact (Retry _ Hf).
      * destruct (http_error (r_status r)) eqn:Herr.
        -- assert (Hf : failed (Resp r) = true) by (cbn; unfold accepted; rewrite H429, Herr; reflexivity).
           destruct (a <? MAX_RETRIES - 1)%nat eqn:Ha.
           ++ exact (Retry _ Hf).
           ++ cbn. exact (GiveUp Hf eq_refl).
        -- cbn. exists []. unfold accepted. rewrite H429, Herr. repeat split; cbn; auto; lia.
Qed.

Lemma get_ok w t a l r rest rq sl :
  (0 < l)%nat -> accepted r = true ->
  get_attempts w t a l {| pending := Resp r :: rest; requests := rq; slept := sl |}
  = Some (Ok (Some r), {| pending := rest; requests := rq ++ [t]; slept := sl ++ [RATE_LIMIT_DELAY] |}).
Proof.
  intros Hl Ha. destruct l as [|l]; [lia|].
  unfold accepted in Ha. apply negb_true_iff, orb_false_iff in Ha. destruct Ha as [H1 H2].
  cbn. rewrite H1, H2. reflexivity.
Qed.

Lemma gives_up_run w t fails : forall a rest rq sl,
  (a + length fails = MAX_RETRIES)%nat -> forallb gives_up fails = true ->
  exists sl', get_attempts w t a (length fails) {| pending := fails ++ rest; requests := rq; slept := sl |}
  = Some (Ok None, {| pending := rest; requests := rq ++ repeat t (length fails); slept := sl' |}).
Proof.
  induction fails as [|o fs IH]; intros a rest rq sl Ha Hf.
  - exists sl. cbn. rewrite app_nil_r. reflexivity.
  - cbn [forallb] in Hf. apply andb_true_iff in Hf. destruct Hf as [Ho Hf].
    cbn [length] in Ha |- *. cbn [get_attempts]. unfold io_bind at 1, http_get at 1. cbn -[get_attempts MAX_RETRIES Nat.ltb].
    assert (Step : forall q, exists sl',
      get_attempts w t (S a) (length fs) {| pending := fs ++ rest; requests := rq ++ [t]; slept := sl ++ [q] |}
      = Some (Ok None, {| pending := rest; requests := rq ++ t :: repeat t (length fs); slept := sl' |})).
    { intros q. destruct (IH (S a) rest (rq ++ [t]) (sl ++ [q]) ltac:(lia) Hf) as [sl' E].
      exists sl'. rewrite E, <- app_assoc. reflexivity. }
    assert (Last : (a <? MAX_RETRIES - 1)%nat = false -> fs = []).
    { intros H. apply Nat.ltb_ge in H. unfold MAX_RETRIES in *. destruct fs; [reflexivity|cbn in Ha; lia]. }
    destruct o as [|r].
    + destruct (a <? MAX_RETRIES - 1)%nat eqn:Hlt.
      * exact (Step _).
      * rewrite (Last eq_refl). exists sl. reflexivity.
    + cbn in Ho. destruct (r_status r =? 429).
      * destruct (r_retry_after r); [discriminate|]. exact (Step _).
      * rewrite Ho. destruct (a <? MAX_RETRIES - 1)%nat eqn:Hlt.
        -- exact (Step _).
        -- rewrite (Last eq_refl). exists sl. reflexivity.
Qed.

Lemma request_error_run w t fails : forall a rest rq sl,
  (a + length fails = MAX_RETRIES)%nat -> fails <> [] -> forallb request_error fails = true ->
  get_attempts w t a (length fails) {| pending := fails ++ rest; requests := rq; slept := sl |}
  = Some (Ok None, {| pending := rest; requests := rq ++ repeat t (length fails);
                      slept := sl ++ map (fun i => inject_Z (2 ^ Z.of_nat i)) (seq a (length fails - 1)) |}).
Proof.
  induction fails as [|o fs IH]; intros a rest rq sl Ha Hne Hf; [congruence|].
  cbn [forallb] in Hf. apply andb_true_iff in Hf. destruct Hf as [Ho Hf].
  cbn [length] in Ha |- *. cbn [get_attempts]. unfold io_bind at 1, http_get at 1. cbn -[get_attempts MAX_RETRIES Nat.ltb].
  destruct (a <? MAX_RETRIES - 1)%nat eqn:Hlt.
  - apply Nat.ltb_lt in Hlt. destruct fs as [|o' fs'] eqn:Efs; [cbn in Ha; unfold MAX_RETRIES in *; lia|].
    rewrite <- Efs in *.
    assert (E : forall X : io (option response),
      match o with
      | ReqExc => X
      | Resp r =>
          if r_status r =? 429 then
            io_bind match r_retry_after r with
                    | Some h => io_lift (w h)
                    | None => io_ret (inject_Z (2 ^ Z.of_nat a))
                    end (fun w0 => io_bind (sleep w0) (fun _ => get_attempts w t (S a) (length fs)))
          else if http_error (r_status r) then X
          else io_bind (sleep RATE_LIMIT_DELAY) (fun _ => io_ret (Some r))
      end = X).
    { intros X. destruct o as [|r]; [reflexivity|]. cbn in Ho.
      destruct (r_status r =? 429); cbn in Ho; [discriminate|]. rewrite Ho. reflexivity. }
    rewrite E. cbn -[get_attempts MAX_RETRIES Nat.ltb].
    rewrite (IH (S a) rest (rq ++ [t]) (sl ++ [inject_Z (2 ^ Z.of_nat a)]) ltac:(lia) ltac:(subst fs; discriminate) Hf).
    rewrite <- !app_assoc. cbn [app].
    replace (length fs - 0)%nat with (length fs) by lia.
    destruct (length fs) as [|k] eqn:Hk; [subst fs; discriminate|].
    replace (S k - 1)%nat with k by lia. reflexivity.
  - apply Nat.ltb_ge in Hlt. destruct fs; [|cbn in Ha; unfold MAX_RETRIES in *; lia].
    destruct o as [|r].
    + cbn. rewrite !app_nil_r. reflexivity.
    + cbn in Ho. destruct (r_status r =? 429); cbn in Ho; [discriminate|]. rewrite Ho.
      cbn. rewrite !app_nil_r. reflexivity.
Qed.

Lemma parse_next_link u : url_ok u = true -> parse_link_header (Some (next_link u)) = Some u.
Proof.
  intros Hu. unfold parse_link_header, next_link.
  destruct (link_part "" u "next" (or_introl eq_refl) Hu eq_refl) as (C & S & _).
  assert (Hall : forallb (fun e => url_ok (fst e) && rel_ok (snd e)) [(u, "next")] = true)
    by (cbn [forallb fst snd]; rewrite Hu; reflexivity).
  pose proof (split_render "" (u, "next") [] eq_refl Hall) as Sp.
  change ("" ++ render_links [(u, "next")])%string with (render_links [(u, "next")]) in Sp.
  rewrite Sp. cbn [map find]. rewrite C. cbn [String.eqb Ascii.eqb Bool.eqb].
  rewrite S. reflexivity.
Qed.

Lemma parse_page_link o last :
  match last with Some v => url_ok v | None => true end = true ->
  parse_link_header (r_link (ok_page o last)) = last.
Proof.
  destruct last as [v|]; intros H; [exact (parse_next_link v H)|reflexivity].
Qed.

Lemma accepted_ok_page o next : accepted (ok_page o next) = true.
Proof. reflexivity. Qed.

Lemma page_orders_ok o next : page_orders (ok_page o next) = Ok o.
Proof. reflexivity. Qed.

Lemma length_page_trace o pages last : length (page_trace o pages last) = S (length pages).
Proof.
  revert o. induction pages as [|[u o'] rest IH]; intros o; cbn; [reflexivity|now rewrite IH].
Qed.

Lemma next_pages_chain w n pages : forall u o last acc tail rq sl,
  String.eqb u "" = false -> pages_ok pages = true -> last_ok last = true ->
  next_pages w (n + S (length pages)) (Some u) acc
    {| pending := page_trace o pages last ++ tail; requests := rq; slept := sl |}
  = next_pages w n last (acc ++ o ++ concat (map snd pages))
      {| pending := tail; requests := rq ++ AbsUrl u :: map (fun p => AbsUrl (fst p)) pages;
         slept := sl ++ repeat RATE_LIMIT_DELAY (S (length pages)) |}.
Proof.
  induction pages as [|[u' o'] rest IH]; intros u o last acc tail rq sl Hu Hp Hl.
  - cbn [length]. rewrite Nat.add_1_r. cbn [next_pages]. rewrite Hu.
    cbn [page_trace app]. unfold io_bind at 1, shopify_get_url.
    rewrite (get_ok w (AbsUrl u) 0 MAX_RETRIES (ok_page o last) tail rq sl ltac:(unfold MAX_RETRIES; lia) eq_refl).
    cbv beta iota. rewrite page_orders_ok. unfold io_bind at 1, io_lift at 1. cbv beta iota.
    rewrite (parse_page_link o last Hl).
    cbn [map concat]. rewrite app_nil_r. reflexivity.
  - cbn [pages_ok forallb fst] in Hp. unfold pages_ok in IH.
    apply andb_true_iff in Hp. destruct Hp as [Hu' Hp]. apply andb_true_iff in Hu'. destruct Hu' as [Hu'1 Hu'2].
    apply negb_true_iff in Hu'2.
    replace (n + S (length ((u', o') :: rest)))%nat with (S (n + S (length rest))) by (cbn; lia).
    cbn [next_pages]. rewrite Hu.
    cbn [page_trace app]. unfold io_bind at 1, shopify_get_url.
    rewrite (get_ok w (AbsUrl u) 0 MAX_RETRIES (ok_page o (Some u')) (page_trace o' rest last ++ tail) rq sl
               ltac:(unfold MAX_RETRIES; lia) eq_refl).
    cbv beta iota. rewrite page_orders_ok. unfold io_bind at 1, io_lift at 1. cbv beta iota.
    rewrite (parse_page_link o (Some u') Hu'1).
    rewrite (IH u' o' last (acc ++ o) tail (rq ++ [AbsUrl u]) (sl ++ [RATE_LIMIT_DELAY]) Hu'2 Hp Hl).
    cbn [map concat snd fst length repeat]. rewrite <- !app_assoc. reflexivity.
Qed.

Lemma fetch_chain w o1 pages last tail rq sl :
  pages_ok pages = true -> last_ok last = true ->
  exists n, (0 < n)%nat /\
  fetch_all_orders w {| pending := page_trace o1 pages last ++ tail; requests := rq; slept := sl |}
  = next_pages w n last (o1 ++ concat (map snd pages))
      {| pending := tail; requests := rq ++ Endpoint "orders" :: map (fun p => AbsUrl (fst p)) pages;
         slept := sl ++ repeat RATE_LIMIT_DELAY (S (length pages)) |}.
Proof.
  intros Hp Hl. unfold fetch_all_orders. cbn [pending].
  destruct pages as [|[u o] rest].
  - exists (S (length ([Resp (ok_page o1 last)] ++ tail))). split; [lia|].
    cbn [page_trace app]. unfold io_bind at 1, shopify_get.
    rewrite (get_ok w (Endpoint "orders") 0 MAX_RETRIES (ok_page o1 last) tail rq sl ltac:(unfold MAX_RETRIES; lia) eq_refl).
    cbv beta iota. rewrite page_orders_ok. unfold io_bind at 1, io_lift at 1. cbv beta iota.
    rewrite (parse_page_link o1 last Hl).
    cbn [map concat]. rewrite app_nil_r. reflexivity.
  - exists (S (S (length tail))). split; [lia|].
    pose proof Hp as Hp'. cbn [pages_ok forallb fst] in Hp'.
    apply andb_true_iff in Hp'. destruct Hp' as [Hu Hp']. apply andb_true_iff in Hu. destruct Hu as [Hu1 Hu2].
    apply negb_true_iff in Hu2.
    cbn [page_trace app]. unfold io_bind at 1, shopify_get.
    rewrite (get_ok w (Endpoint "orders") 0 MAX_RETRIES (ok_page o1 (Some u)) (page_trace o rest last ++ tail) rq sl
               ltac:(unfold MAX_RETRIES; lia) eq_refl).
    cbv beta iota. rewrite page_orders_ok. unfold io_bind at 1, io_lift at 1. cbv beta iota.
    rewrite (parse_page_link o1 (Some u) Hu1).
    cbn [length]. rewrite length_app, length_page_trace.
    replace (S (S (S (length rest) + length tail))) with (S (S (length tail)) + S (length rest))%nat by lia.
    rewrite (next_pages_chain w (S (S (length tail))) rest u o last o1 tail (rq ++ [Endpoint "orders"])
               (sl ++ [RATE_LIMIT_DELAY]) Hu2 Hp' Hl).
    cbn [map concat snd fst length repeat]. rewrite <- !app_assoc. reflexivity.
Qed.

(** X17: [shopify_get] and [shopify_get_url] call the same target at most
    [MAX_RETRIES] times. They return [None] only after [MAX_RETRIES] failed
    calls (request exception, 429 or HTTP error), return the first accepted
    response after fewer failed calls, and raise only the exception of
    reading the [Retry-After] header of a 429. *)
Theorem shopify_get_retries w ep url s :
  let spec t run :=
    match run with
    | None => (length (pending s) < MAX_RETRIES)%nat
    | Some (Ok None, s') =>
        exists pre, length pre = MAX_RETRIES /\ forallb failed pre = true /\
          pending s = pre ++ pending s' /\ requests s' = requests s ++ repeat t MAX_RETRIES
    | Some (Ok (Some r), s') =>
        exists pre, (length pre < MAX_RETRIES)%nat /\ forallb failed pre = true /\ accepted r = true /\
          pending s = pre ++ Resp r :: pending s' /\
          requests s' = requests s ++ repeat t (S (length pre))
    | Some (Raise e, s') =>
        exists pre r h, (length pre < MAX_RETRIES)%nat /\ forallb failed pre = true /\
          pending s = pre ++ Resp r :: pending s' /\
          r_status r = 429 /\ r_retry_after r = Some h /\ w h = Raise e
    end in
  spec (Endpoint ep) (shopify_get w ep s) /\ spec (AbsUrl url) (shopify_get_url w url s).
Proof.
  intros spec. split; apply get_attempts_spec; reflexivity.
Qed.

(** X18: When [MAX_RETRIES] calls in a row end in a request exception or an
    HTTP error other than 429, [shopify_get] and [shopify_get_url] return
    [None] after sleeping 1, 2, 4 and 8 seconds, and consume exactly those
    [MAX_RETRIES] calls. *)
Theorem shopify_get_backoff w ep url fails rest rq sl :
  length fails = MAX_RETRIES -> forallb request_error fails = true ->
  shopify_get w ep {| pending := fails ++ rest; requests := rq; slept := sl |}
  = Some (Ok None, {| pending := rest; requests := rq ++ repeat (Endpoint ep) MAX_RETRIES;
                      slept := sl ++ [1; 2; 4; 8]%Q |}) /\
  shopify_get_url w url {| pending := fails ++ rest; requests := rq; slept := sl |}
  = Some (Ok None, {| pending := rest; requests := rq ++ repeat (AbsUrl url) MAX_RETRIES;
                      slept := sl ++ [1; 2; 4; 8]%Q |}).
Proof.
  intros Hl Hf. unfold shopify_get, shopify_get_url. rewrite <- Hl.
  assert (Hne : fails <> []) by (intros ->; discriminate).
  rewrite !(request_error_run w _ fails 0 rest rq sl ltac:(lia) Hne Hf).
  rewrite Hl. split; reflexivity.
Qed.

(** X19: When every page answers at once and each page's [Link] header names
    the next page, the last page naming none, [fetch_all_orders] returns the
    orders of all pages in page order. It requests the ["orders"] endpoint
    and then each next URL once, and sleeps [RATE_LIMIT_DELAY] after each
    page. *)
Theorem fetch_all_orders_pages w o1 pages tail rq sl :
  pages_ok pages = true ->
  fetch_all_orders w {| pending := page_trace o1 pages None ++ tail; requests := rq; slept := sl |}
  = Some (Ok (o1 ++ concat (map snd pages)),
          {| pending := tail; requests := rq ++ Endpoint "orders" :: map (fun p => AbsUrl (fst p)) pages;
             slept := sl ++ repeat RATE_LIMIT_DELAY (S (length pages)) |}).
Proof.
  intros Hp. destruct (fetch_chain w o1 pages None tail rq sl Hp eq_refl) as (n & Hn & ->).
  destruct n as [|n]; [lia|]. reflexivity.
Qed.

(** X20: If a request fails [MAX_RETRIES] times without a [Retry-After]
    header, [fetch_all_orders] does not raise: on the first page it returns
    an empty list, and on a later page it returns the orders gathered from
    the pages before. *)
Theorem fetch_all_orders_gives_up w fails rest rq sl :
  length fails = MAX_RETRIES -> forallb gives_up fails = true ->
  (exists s', fetch_all_orders w {| pending := fails ++ rest; requests := rq; slept := sl |}
              = Some (Ok [], s') /\ pending s' = rest) /\
  (forall o1 pages u, pages_ok pages = true -> url_ok u = true -> String.eqb u "" = false ->
     exists s', fetch_all_orders w {| pending := page_trace o1 pages (Some u) ++ fails ++ rest;
                                       requests := rq; slept := sl |}
                = Some (Ok (o1 ++ concat (map snd pages)), s') /\ pending s' = rest).
Proof.
  intros Hl Hf. split.
  - unfold fetch_all_orders, shopify_get. rewrite <- Hl. unfold io_bind at 1.
    destruct (gives_up_run w (Endpoint "orders") fails 0 rest rq sl ltac:(lia) Hf) as [sl' E].
    cbn [pending]. rewrite E. eexists. split; reflexivity.
  - intros o1 pages u Hp Hu Hu'.
    assert (Hlast : last_ok (Some u) = true) by exact Hu.
    destruct (fetch_chain w o1 pages (Some u) (fails ++ rest) rq sl Hp Hlast) as (n & Hn & ->).
    destruct n as [|n]; [lia|]. cbn [next_pages]. rewrite Hu'.
    unfold io_bind at 1, shopify_get_url. rewrite <- Hl.
    match goal with
    | |- context [get_attempts w ?t 0 (length fails) {| pending := _; requests := ?q; slept := ?l |}] =>
        destruct (gives_up_run w t fails 0 rest q l ltac:(lia) Hf) as [sl' E]; rewrite E
    end.
    eexists. split; reflexivity.
Qed.

Lemma no_newline_app a b : no_newline (a ++ b) = no_newline a && no_newline b.
Proof. apply str_forall_app. Qed.

Lemma digits_no_newline s : all_digits s = true -> no_newline s = true.
Proof.
  rewrite all_digits_forall. apply str_forall_impl.
  intros c H. destruct c as [[] [] [] [] [] [] [] []]; try discriminate; reflexivity.
Qed.

Lemma z_to_string_no_newline z : no_newline (z_to_string z) = true.
Proof.
  unfold z_to_string. destruct (z <? 0);
    [destruct (n_to_string_spec (Z.to_N (- z))) as (ds & -> & _ & Hd & _)
    |destruct (n_to_string_spec (Z.to_N z)) as (ds & -> & _ & Hd & _)];
    [cbn [no_newline str_forall]; fold (no_newline ds)|]; apply digits_no_newline, Hd.
Qed.

Lemma remove_char_forall f c s :
  f c = true -> str_forall f (py_remove_char c s) = true -> str_forall f s = true.
Proof.
  intros Hc. induction s as [|d s IH]; cbn; [reflexivity|].
  destruct (Ascii.eqb d c) eqn:E.
  - apply Ascii.eqb_eq in E. subst d. rewrite Hc. exact IH.
  - cbn. intros H. apply andb_true_iff in H. destruct H as [H1 H2]. rewrite H1. exact (IH H2).
Qed.

Lemma format_comma_no_newline x : no_newline (dec_format_comma_2f x) = true.
Proof.
  destruct x as [s c e|s|[]]; [|destruct s; reflexivity|reflexivity|reflexivity].
  assert (E : dec_format_comma_2f (DFin s c e)
              = dec_format_comma_2f (DFin s (rescale_half_even c e (-2)) (-2)))
    by (unfold dec_format_comma_2f; rewrite rescale_half_even_cents; reflexivity).
  rewrite E. destruct (format_cents_shape s (rescale_half_even c e (-2))) as (ip & fp & -> & Hne & Hip & Hfp & _ & _).
  rewrite !no_newline_app. apply andb_true_iff; split; [destruct s; reflexivity|].
  apply andb_true_iff; split.
  - unfold no_newline. apply (remove_char_forall _ ","); [reflexivity|].
    rewrite (insert_thousands_sep_digits ip Hne Hip). apply digits_no_newline, Hip.
  - cbn [no_newline str_forall append]. fold (no_newline fp). apply digits_no_newline, Hfp.
Qed.

Lemma format_currency_no_newline x out : format_currency x = Ok out -> no_newline out = true.
Proof.
  unfold format_currency. intros H.
  apply bind_ok in H as [c [_ H]]. apply bind_ok in H as [r [_ H]]. apply ok_inj in H. subst out.
  cbn [no_newline str_forall append]. fold (no_newline (dec_format_comma_2f r)).
  apply format_comma_no_newline.
Qed.

(** A change that [dec_ge_zero] accepts after [quantize(Decimal("0.1"))] is
    finite with one fractional digit. *)
Lemma quantize_tenth_fin x r b :
  dec_quantize_half_up x tenth = Ok r -> dec_ge_zero r = Ok b -> exists s q, r = DFin s q (-1).
Proof.
  intros Hq Hg. destruct x as [s c e|s|[]].
  - apply quantize_tenth_sign in Hq as (q & ->). eauto.
  - discriminate.
  - discriminate.
  - cbn in Hq. apply ok_inj in Hq. subst r. discriminate.
Qed.

Lemma format_yoy_no_newline current prior out :
  format_yoy current prior = Ok out -> no_newline out = true.
Proof.
  destruct (dec_eq_zero prior) as [[|]|e] eqn:Hz.
  - rewrite (format_yoy_na _ _ Hz). intros H. apply ok_inj in H. subst out. reflexivity.
  - rewrite (format_yoy_body _ _ Hz). unfold yoy_body. intros H.
    apply bind_ok in H as [d0 [_ H]]. apply bind_ok in H as [q0 [_ H]].
    apply bind_ok in H as [m0 [_ H]].
    apply bind_ok in H as [t [Ht H]]. rewrite Decimal_tenth in Ht. apply ok_inj in Ht. subst t.
    apply bind_ok in H as [r [Hr H]]. apply bind_ok in H as [nn [Hnn H]]. apply ok_inj in H. subst out.
    destruct (quantize_tenth_fin _ _ _ Hr Hnn) as (s & q & ->).
    destruct (dec_str_tenths s q) as (ip & d & -> & _ & Hip & Hd & _).
    rewrite !no_newline_app. destruct nn, s; cbn [no_newline str_forall append andb negb];
      rewrite ?no_newline_app, (digits_no_newline ip Hip);
      cbn; destruct d as [[] [] [] [] [] [] [] []]; try discriminate; reflexivity.
  - rewrite (format_yoy_raise _ _ _ Hz). discriminate.
Qed.

Lemma split_concat_lines ls :
  ls <> [] -> forallb no_newline ls = true ->
  py_split_char NEWLINE (String.concat (String NEWLINE "") ls) = ls.
Proof.
  induction ls as [|a [|b r] IH]; intros Hne Hl; [congruence| |].
  - cbn [String.concat]. cbn [forallb] in Hl. rewrite andb_true_r in Hl.
    apply split_no_sep, Hl.
  - cbn [forallb] in Hl. apply andb_true_iff in Hl. destruct Hl as [Ha Hl].
    change (String.concat (String NEWLINE "") (a :: b :: r))
      with (a ++ String NEWLINE "" ++ String.concat (String NEWLINE "") (b :: r))%string.
    cbn [append]. rewrite split_app_sep by exact Ha.
    rewrite IH; [reflexivity|discriminate|exact Hl].
Qed.

Lemma forallb_filter {A} (f g : A -> bool) l : forallb f l = true -> forallb f (filter g l) = true.
Proof.
  induction l as [|x l IH]; cbn; [reflexivity|]. intros H. apply andb_true_iff in H as [H1 H2].
  destruct (g x); cbn; [rewrite H1|]; auto.
Qed.

(** X21: When no category name contains a newline, the text of a successful
    [build_report] splits at newlines into its four fixed lines. When some
    category has at least 10 units, they are followed by a blank line, the
    heading and one bullet line per such category, in the order of the
    counts. *)
Theorem build_report_lines y q p counts label out :
  forallb (fun kv => no_newline (fst kv)) counts = true ->
  build_report y q p counts label = Ok out ->
  exists ys qs ps yoy,
    format_currency y = Ok ys /\ format_currency q = Ok qs /\ format_currency p = Ok ps /\
    format_yoy q p = Ok yoy /\
    let vinyl := match assoc_lookup String.eqb "Vinyl" counts with Some v => v | None => 0 end in
    let big := filter (fun kv => 10 <=? snd kv) counts in
    py_split_char NEWLINE out =
      [("Yesterday: " ++ ys)%string;
       ("QTD: " ++ qs ++ " (vs " ++ ps ++ " last year " ++ ARROW ++ " " ++ yoy ++ ")")%string;
       "";
       (MUSICAL_NOTE ++ " Vinyl units yesterday: " ++ z_to_string vinyl)%string] ++
      match big with
      | [] => []
      | _ :: _ =>
          "" :: "Categories with 10+ units sold:" ::
          map (fun kv => (BULLET ++ " " ++ fst kv ++ ": " ++ z_to_string (snd kv) ++ " units")%string) big
      end.
Proof.
  intros Hk H. unfold build_report in H.
  apply bind_ok in H as [yoy [Hyoy H]]. apply bind_ok in H as [ys [Hys H]].
  apply bind_ok in H as [qs [Hqs H]]. apply bind_ok in H as [ps [Hps H]].
  apply ok_inj in H. subst out.
  exists ys, qs, ps, yoy. repeat split; try assumption.
  intros vinyl big. fold vinyl big.
  pose proof (format_currency_no_newline _ _ Hys) as Ny.
  pose proof (format_currency_no_newline _ _ Hqs) as Nq.
  pose proof (format_currency_no_newline _ _ Hps) as Np.
  pose proof (format_yoy_no_newline _ _ _ Hyoy) as Nyoy.
  assert (Hb : forallb (fun kv => no_newline (fst kv)) big = true) by (apply forallb_filter, Hk).
  assert (Hl : forallb no_newline
    [("Yesterday: " ++ ys)%string;
     ("QTD: " ++ qs ++ " (vs " ++ ps ++ " last year " ++ ARROW ++ " " ++ yoy ++ ")")%string;
     "";
     (MUSICAL_NOTE ++ " Vinyl units yesterday: " ++ z_to_string vinyl)%string] = true)
    by (cbn [forallb]; rewrite !no_newline_app, Ny, Nq, Np, Nyoy, z_to_string_no_newline; reflexivity).
  clearbody big vinyl. destruct big as [|kv r]; cbv beta iota.
  - rewrite app_nil_r. apply split_concat_lines; [discriminate|exact Hl].
  - apply split_concat_lines; [discriminate|].
    rewrite forallb_app, Hl. cbn [andb forallb].
    apply andb_true_iff. split; [reflexivity|].
    apply andb_true_iff. split; [reflexivity|].
    apply forallb_forall. intros l Hin. apply in_map_iff in Hin as (kv' & <- & Hin).
    rewrite forallb_forall in Hb. specialize (Hb kv' Hin).
    rewrite !no_newline_app, Hb, z_to_string_no_newline. reflexivity.
Qed.

Lemma dec_add_not_snan x y r : dec_add x y = Ok r -> r <> DNaN true.
Proof.
  destruct x as [s1 c1 e1|s1|[]], y as [s2 c2 e2|s2|[]]; cbn [dec_add]; intros H;
    try discriminate; try (injection H as <-; discriminate).
  - repeat (cbv beta iota zeta in H;
            match type of H with context [if ?b then _ else _] => destruct b end);
      apply dec_fix_sign in H as (? & ? & ->); discriminate.
  - destruct (Bool.eqb s1 s2); [injection H as <-|]; discriminate.
Qed.

Lemma sum_step_not_snan t o : t <> DNaN true -> sum_revenue_step t o <> DNaN true.
Proof.
  intros Ht. unfold sum_revenue_step.
  destruct (Decimal _) as [d|]; [|exact Ht].
  destruct (dec_add t d) as [r|] eqn:E; [exact (dec_add_not_snan _ _ _ E)|exact Ht].
Qed.

Lemma fold_not_snan l t : t <> DNaN true -> fold_left sum_revenue_step l t <> DNaN true.
Proof.
  revert t. induction l as [|o l IH]; intros t Ht; cbn; [exact Ht|].
  apply IH, sum_step_not_snan, Ht.
Qed.

Lemma sum_step_nan o : sum_revenue_step (DNaN false) o = DNaN false.
Proof.
  unfold sum_revenue_step. destruct (Decimal _) as [[s c e|s|[]]|]; reflexivity.
Qed.

Lemma fold_nan l : fold_left sum_revenue_step l (DNaN false) = DNaN false.
Proof. induction l as [|o l IH]; cbn; [reflexivity|now rewrite sum_step_nan]. Qed.

Lemma sum_step_to_nan t o : t <> DNaN true -> total_of o = Ok (DNaN false) ->
  sum_revenue_step t o = DNaN false.
Proof.
  intros Ht Ho. unfold sum_revenue_step. fold (total_of o). rewrite Ho.
  destruct t as [s c e|s|[]]; try reflexivity. congruence.
Qed.

Lemma sum_revenue_nan orders o :
  In o orders -> total_of o = Ok (DNaN false) -> sum_revenue orders = DNaN false.
Proof.
  intros Hin Ho. apply in_split in Hin as (pre & post & ->).
  unfold sum_revenue. rewrite fold_left_app. cbn [fold_left].
  rewrite sum_step_to_nan; [apply fold_nan| |exact Ho].
  apply fold_not_snan. discriminate.
Qed.

Lemma yoy_cell_raise y p b (E : dec_gt_zero p = b) e : b = Raise e -> yoy_cell y p b E = Raise e.
Proof. intros ->. reflexivity. Qed.


Lemma daily_yoy_raise y p e : dec_gt_zero p = Raise e -> daily_yoy y p = Raise e.
Proof. intros H. apply yoy_cell_raise, H. Qed.




(** X23: For a new date, an order of the prior-year day whose total price is a
    quiet NaN makes the prior-year sum NaN, and [update_daily_revenue] raises
    InvalidOperation at the comparison [> 0]. *)
Theorem update_daily_revenue_nan_total date_col ys y_orders q_orders p_orders o :
  ~ In ys date_col -> In o p_orders -> total_of o = Ok (DNaN false) ->
  update_daily_revenue date_col ys y_orders q_orders p_orders = Raise InvalidOperation.
Proof.
  intros Hn Hin Ho. unfold update_daily_revenue.
  replace (existsb (String.eqb ys) date_col) with false.
  - rewrite (sum_revenue_nan p_orders o Hin Ho).
    rewrite (daily_yoy_raise _ (DNaN false) InvalidOperation eq_refl). reflexivity.
  - symmetry. apply not_true_iff_false. intros H. apply existsb_exists in H as (x & Hx & E).
    apply String.eqb_eq in E. subst x. exact (Hn Hx).
Qed.

(** ** Instances of the theorems *)

(** C1 at a line item whose product type [" vinyl "] matches a category
    exactly while its title contains the keyword ["poster"], and at a line
    item classified through the keyword ["lp"] of its title. *)
Lemma classify_line_item_spec_witness :
  classify_line_item (mk_item (Some (JStr "Concert Poster")) (Some (JStr " vinyl ")) None None)
  = Ok (Some "Vinyl")
  /\ classify_line_item (mk_item (Some (JStr "Abbey Road LP")) None None None)
     = Ok (classify_spec "" "Abbey Road LP").
Proof.
  split.
  - destruct (classify_line_item_spec
                (mk_item (Some (JStr "Concert Poster")) (Some (JStr " vinyl ")) None None)
                " vinyl ") as [_ H]; [vm_compute; reflexivity|].
    apply H; [left; reflexivity|vm_compute; reflexivity].
  - destruct (classify_line_item_spec
                (mk_item (Some (JStr "Abbey Road LP")) None None None) "") as [H _];
      [vm_compute; reflexivity|].
    apply H. vm_compute. reflexivity.
Defined.

(** C2 at the specification's scenario: two ["Tote Bag"] line items of
    quantities 3 and 5 at ["20.00"] give one aggregate of 8 units and
    revenue [160.00]. *)
Lemma top_products_aggregate_witness :
  let orders := [mk_order None None [tote 3]; mk_order None None [tote 5]] in
  let p := {| p_title := JStr "Tote Bag"; p_units := 8;
              p_revenue := DFin false 16000 (-2); p_category := "Other" |} in
  top_products orders 20 = Ok [p] /\
  exists first rest c,
    filter (same_key (p_title p)) (all_items orders) = first :: rest /\
    p_title p = item_key first /\
    classify_line_item first = Ok c /\ p_category p = category_label c /\
    group_units (first :: rest) = Ok (p_units p) /\
    group_revenue (first :: rest) = Ok (p_revenue p).
Proof.
  intros orders p. split; [vm_compute; reflexivity|].
  apply (top_products_aggregate orders 20 [p] p); [vm_compute; reflexivity|left; reflexivity].
Defined.

(** C3 at the specification's scenario: five title groups with 1, 5, 3, 4
    and 2 units and [n = 3] give the three groups with 5, 4 and 3 units. *)
Lemma top_products_sorted_prefix_witness :
  let item t q := mk_item (Some (JStr t)) None (Some (JStr "1.00")) (Some (JInt q)) in
  let orders := [mk_order None None [item "A" 1; item "B" 5; item "C" 3];
                 mk_order None None [item "D" 4; item "E" 2]] in
  let out := match top_products orders 3 with Ok out => out | Raise _ => [] end in
  top_products orders 3 = Ok out /\ map p_units out = [5; 4; 3] /\
  exists g s,
    group_products orders = Ok g /\ Permutation s g /\ Sorted units_ge s /\
    (forall u, filter (fun p => p_units p =? u) s = filter (fun p => p_units p =? u) g) /\
    (exists rest, s = out ++ rest) /\ Sorted units_ge out /\
    Z.of_nat (length out) <= 3 /\
    (Z.of_nat (length g) <= 3 -> out = s).
Proof.
  intros item orders out.
  split; [vm_compute; reflexivity|]. split; [vm_compute; reflexivity|].
  apply (top_products_sorted_prefix orders 3 out); [vm_compute; reflexivity|lia].
Defined.

(** C4 at the specification's scenario: totals ["10.00"], ["invalid"] and
    ["5.50"] give [15.50]. *)
Lemma sum_revenue_sums_cents_witness :
  sum_revenue [priced "10.00"; priced "invalid"; priced "5.50"]
  = dec_cents (cents_total [priced "10.00"; priced "invalid"; priced "5.50"])
  /\ dec_cents (cents_total [priced "10.00"; priced "invalid"; priced "5.50"])
     = DFin false 1550 (-2).
Proof.
  split; [|vm_compute; reflexivity].
  apply sum_revenue_sums_cents; [|vm_compute; reflexivity].
  intros o d Hin Hd. destruct Hin as [<-|[<-|[<-|[]]]]; vm_compute in Hd;
    first [discriminate Hd | injection Hd as <-; do 3 eexists; split; [reflexivity|lia]].
Defined.

(** C7 at one vinyl record of quantity 2. *)
Lemma count_units_by_category_spec_witness :
  let orders := [mk_order None None
                   [mk_item (Some (JStr "Abbey Road LP")) (Some (JStr "Vinyl")) None (Some (JInt 2))]] in
  let m := [("Vinyl", 2); ("Books", 0); ("Posters", 0); ("Tees", 0)] in
  count_units_by_category orders = Ok m /\
  m = map (fun cat => (cat, category_units cat (all_items orders))) CATEGORIES /\
  map fst m = CATEGORIES /\
  ((forall it, In it (all_items orders) -> 0 <= qty_int it) ->
   forall kv, In kv m -> 0 <= snd kv).
Proof.
  intros orders m. split; [vm_compute; reflexivity|].
  apply (count_units_by_category_spec orders m). vm_compute. reflexivity.
Defined.

(** C8 at a vinyl record of quantity 2 and an unclassified mug of
    quantity 1: the counters add up to 2, less than the 3 units sold. *)
Lemma count_units_le_total_witness :
  let lp := mk_item (Some (JStr "Abbey Road LP")) (Some (JStr "Vinyl")) None (Some (JInt 2)) in
  let mug := mk_item (Some (JStr "Mug")) None None (Some (JInt 1)) in
  let orders := [mk_order None None [lp; mug]] in
  let m := [("Vinyl", 2); ("Books", 0); ("Posters", 0); ("Tees", 0)] in
  count_units_by_category orders = Ok m /\ sum_values m < total_quantity orders.
Proof.
  intros lp mug orders m. split; [vm_compute; reflexivity|].
  apply (count_units_le_total orders m); [vm_compute; reflexivity| |].
  - intros it Hin. simpl in Hin. destruct Hin as [<-|[<-|[]]]; eexists; split; reflexivity || lia.
  - exists mug. split; [simpl; right; left; reflexivity|].
    split; vm_compute; reflexivity.
Defined.

(** C9 at two totals swapped. *)
Lemma sum_revenue_empty_nonneg_perm_witness :
  sum_revenue [priced "10.00"; priced "5.50"] = sum_revenue [priced "5.50"; priced "10.00"].
Proof.
  destruct sum_revenue_empty_nonneg_perm as (_ & _ & H).
  apply H; [apply perm_swap| |vm_compute; reflexivity].
  intros o d Hin Hd. destruct Hin as [<-|[<-|[]]]; vm_compute in Hd;
    (injection Hd as <-; do 3 eexists; split; [reflexivity|lia]).
Defined.

(** C10 at two line items without a title, in two orders, and one titled
    ["Unknown"]: one aggregate of 7 units. *)
Lemma top_products_unknown_title_witness :
  let orders := [mk_order None None
                   [mk_item None None (Some (JStr "3.00")) (Some (JInt 2));
                    mk_item (Some (JStr "Unknown")) None (Some (JStr "1.00")) (Some (JInt 1))];
                 mk_order None None [mk_item None None None (Some (JInt 4))]] in
  let g := match group_products orders with Ok g => g | Raise _ => [] end in
  group_products orders = Ok g /\ map p_units g = [7] /\
  exists p, In p g /\ p_title p = JStr "Unknown" /\
    group_units (filter unknown_title (all_items orders)) = Ok (p_units p) /\
    group_revenue (filter unknown_title (all_items orders)) = Ok (p_revenue p) /\
    (forall p', In p' g -> p_title p' = JStr "Unknown" -> p' = p).
Proof.
  intros orders g. split; [vm_compute; reflexivity|]. split; [vm_compute; reflexivity|].
  apply (top_products_unknown_title orders g); [vm_compute; reflexivity|].
  exists (mk_item None None (Some (JStr "3.00")) (Some (JInt 2))).
  split; [simpl; left; reflexivity|reflexivity].
Defined.

(** X3 at one April order. *)
Lemma update_goals_tab_outside_q1_witness :
  let orders := [mk_order (Some (JStr "2026-04-15T10:00:00-04:00")) (Some (JStr "25.00")) []] in
  update_goals_tab orders =
  [BatchUpdate "Q1 2026 Goals"
     [("C2", [[CFloat dec_zero_00]]); ("C3", [[CFloat dec_zero_00]]);
      ("C4", [[CFloat dec_zero_00]])]].
Proof.
  intros orders. apply (update_goals_tab_outside_q1 orders).
  intros o k [<-|[]] H. vm_compute in H. injection H as <-. lia.
Defined.

(** X4 at one order of two line items, on a sheet of five rows. *)
Lemma update_top_products_tab_rows_witness :
  let orders := [mk_order None None
                   [mk_item (Some (JStr "Blue Note LP")) (Some (JStr "Vinyl")) (Some (JStr "20.00")) (Some (JInt 2));
                    mk_item (Some (JStr "Tote")) (Some (JStr "Bags")) (Some (JStr "5.00")) (Some (JInt 1))]] in
  let ops := match update_top_products_tab 5 "Top Products" orders with Ok o => o | Raise _ => [] end in
  update_top_products_tab 5 "Top Products" orders = Ok ops /\
  let clear := if 1 <? 5 then [BatchClear "Top Products" ["A2:E22"]] else [] in
  (all_items orders = [] -> ops = clear) /\
  (all_items orders <> [] ->
   exists rows,
     (1 <= length rows <= 20)%nat /\
     map row_rank rows = map Z.of_nat (seq 1 (length rows)) /\
     ops = clear ++ [Update "Top Products" ("A2:E" ++ z_to_string (1 + Z.of_nat (length rows)))%string rows]).
Proof.
  intros orders ops. split; [vm_compute; reflexivity|].
  apply (update_top_products_tab_rows 5 "Top Products" orders ops). vm_compute; reflexivity.
Defined.

(** X5 at a header with a previous and a next link. *)
Lemma parse_link_header_render_witness :
  let es := [("https://shop.example/orders.json?page_info=a1", "previous");
             ("https://shop.example/orders.json?page_info=b2", "next")] in
  forallb (fun e => url_ok (fst e) && rel_ok (snd e)) es = true /\
  parse_link_header (Some (render_links es))
  = option_map fst (find (fun e => String.eqb (snd e) "next") es).
Proof.
  intros es. split; [vm_compute; reflexivity|].
  apply (parse_link_header_render es). vm_compute; reflexivity.
Defined.

(** X6 on 1 March 2028, which raises. *)
Lemma get_date_ranges_daily_leap_witness :
  let now := {| dt_year := 2028; dt_month := 3; dt_day := 1; dt_hour := 9;
                dt_minute := 30; dt_second := 0; dt_microsecond := 0 |} in
  get_date_ranges_daily None now = DtRaise DtValueError /\
  match get_date_ranges_daily None now with
  | DtOk _ => ~ (dt_month now = 3 /\ dt_day now = 1 /\ is_leap (dt_year now) = true)
  | DtRaise e => e = DtValueError /\
                 dt_month now = 3 /\ dt_day now = 1 /\ is_leap (dt_year now) = true
  end.
Proof.
  intros now. split; [vm_compute; reflexivity|].
  apply (get_date_ranges_daily_leap None now); [vm_compute; reflexivity|cbn; lia].
Defined.

(** X7 on 1 March 2026, which returns. *)
Lemma get_date_ranges_dash_leap_witness :
  let now := {| dt_year := 2026; dt_month := 3; dt_day := 1; dt_hour := 9;
                dt_minute := 30; dt_second := 0; dt_microsecond := 0 |} in
  (exists r, get_date_ranges_dash now = DtOk r) /\
  match get_date_ranges_dash now with
  | DtOk _ => ~ (dt_month now = 3 /\ dt_day now = 1 /\ is_leap (dt_year now) = true)
  | DtRaise e => e = DtValueError /\
                 dt_month now = 3 /\ dt_day now = 1 /\ is_leap (dt_year now) = true
  end.
Proof.
  intros now. split; [eexists; vm_compute; reflexivity|].
  apply (get_date_ranges_dash_leap now); [vm_compute; reflexivity|cbn; lia].
Defined.

(** X8 on 1 April 2026: the QTD window is empty. *)
Lemma get_date_ranges_daily_qtd_empty_witness :
  let now := {| dt_year := 2026; dt_month := 4; dt_day := 1; dt_hour := 6;
                dt_minute := 0; dt_second := 0; dt_microsecond := 0 |} in
  match get_date_ranges_daily None now with
  | DtOk r => dt_ltb (dr_qtd_end r) (dr_qtd_start r) = true /\
              (dt_ltb (dr_qtd_end r) (dr_qtd_start r) = true <->
               dt_day now = 1 /\ In (dt_month now) [1; 4; 7; 10])
  | DtRaise _ => False
  end.
Proof.
  intros now. destruct (get_date_ranges_daily None now) as [r|e] eqn:E;
    [|vm_compute in E; discriminate].
  split; [vm_compute in E; injection E as <-; vm_compute; reflexivity|].
  apply (get_date_ranges_daily_qtd_empty None now r); [vm_compute; reflexivity|exact E].
Defined.

(** X9 on 17 May 2026: the QTD window is not empty. *)
Lemma get_date_ranges_dash_qtd_empty_witness :
  let now := {| dt_year := 2026; dt_month := 5; dt_day := 17; dt_hour := 6;
                dt_minute := 0; dt_second := 0; dt_microsecond := 0 |} in
  match get_date_ranges_dash now with
  | DtOk r => dt_ltb (ds_qtd_end r) (ds_qtd_start r) = false /\
              (dt_ltb (ds_qtd_end r) (ds_qtd_start r) = true <->
               dt_day now = 1 /\ In (dt_month now) [1; 4; 7; 10])
  | DtRaise _ => False
  end.
Proof.
  intros now. destruct (get_date_ranges_dash now) as [r|e] eqn:E;
    [|vm_compute in E; discriminate].
  split; [vm_compute in E; injection E as <-; vm_compute; reflexivity|].
  apply (get_date_ranges_dash_qtd_empty now r); [vm_compute; reflexivity|exact E].
Defined.

(** X10 on 5 March 2026. *)
Lemma get_date_ranges_dash_windows_witness :
  let now := {| dt_year := 2026; dt_month := 3; dt_day := 5; dt_hour := 14;
                dt_minute := 12; dt_second := 7; dt_microsecond := 5 |} in
  match get_date_ranges_dash now with
  | DtOk r =>
      let clock x := (dt_hour x, dt_minute x, dt_second x) in
      clock (ds_seven_days_start r) = (0, 0, 0) /\ clock (ds_thirty_days_start r) = (0, 0, 0) /\
      clock (ds_window_end r) = (23, 59, 59) /\
      toordinal (ds_seven_days_start r) = toordinal now - 7 /\
      toordinal (ds_thirty_days_start r) = toordinal now - 30 /\
      toordinal (ds_window_end r) = toordinal now - 1
  | DtRaise _ => False
  end.
Proof.
  intros now. destruct (get_date_ranges_dash now) as [r|e] eqn:E;
    [|vm_compute in E; discriminate].
  apply (get_date_ranges_dash_windows now r); [vm_compute; reflexivity|cbn; lia|exact E].
Defined.

(** X12 at 123456.789, formatted as $123,456.79. *)
Lemma format_currency_roundtrip_witness :
  let x := DFin false 123456789 (-3) in
  format_currency x = Ok "$123,456.79" /\
  exists t q r, "$123,456.79" = ("$" ++ t)%string /\ Decimal "0.01" = Ok q /\
    dec_quantize_half_up x q = Ok r /\ Decimal (py_remove_char "," t) = Ok r.
Proof.
  intros x. split; [vm_compute; reflexivity|].
  apply (format_currency_roundtrip x "$123,456.79"). vm_compute; reflexivity.
Defined.

(** X13 at -0.001. *)
Lemma format_currency_negative_zero_witness :
  ((1 = 0)%N \/ (-3 < -2 /\ (2 * 1 < 10 ^ Z.to_N (-2 - -3))%N)) /\
  format_currency (DFin true 1 (-3)) = Ok "$-0.00".
Proof.
  split; [right; split; [lia|vm_compute; reflexivity]|].
  apply (format_currency_negative_zero 1 (-3)). right; split; [lia|vm_compute; reflexivity].
Defined.

(** X15 at a quiet NaN against 100. *)
Lemma format_yoy_special_witness :
  format_yoy (DNaN false) (DFin false 100 0) = Raise InvalidOperation.
Proof.
  apply (format_yoy_special (DNaN false) (DFin false 100 0)).
  - intros s e H. congruence.
  - left. intros s c e H. discriminate.
Defined.

(** X16 at 9999.99 against 10000.00: +-0.0%. *)
Lemma format_yoy_finite_witness :
  format_yoy (DFin false 999999 (-2)) (DFin false 1000000 (-2)) = Ok "+-0.0%" /\
  let neg := if Qlt_le_dec (fin_value false 999999 (-2)) (fin_value false 1000000 (-2))
             then negb false else false in
  exists q ip d,
    "+-0.0%" = ((if negb neg || (q =? 0)%N then "+" else "") ++ (if neg then "-" else "") ++
           ip ++ "." ++ String d "%")%string /\
    ip <> "" /\ all_digits ip = true /\ is_digit d = true /\ digits_value (ip ++ String d "") = q.
Proof.
  split; [vm_compute; reflexivity|].
  apply (format_yoy_finite false 999999 (-2) false 1000000 (-2) "+-0.0%");
    [discriminate|vm_compute; reflexivity].
Defined.

(** X18 with a connection error, a 503 and three more connection errors. *)
Lemma shopify_get_backoff_witness :
  let fails := [ReqExc; Resp {| r_status := 503; r_retry_after := None; r_link := None;
                                r_body := BodyInvalid |}; ReqExc; ReqExc; ReqExc] in
  length fails = MAX_RETRIES /\ forallb request_error fails = true /\
  shopify_get (fun _ => Ok 1%Q) "orders" {| pending := fails ++ [ReqExc]; requests := []; slept := [] |}
  = Some (Ok None, {| pending := [ReqExc]; requests := [] ++ repeat (Endpoint "orders") MAX_RETRIES;
                      slept := [] ++ [1; 2; 4; 8]%Q |}) /\
  shopify_get_url (fun _ => Ok 1%Q) "https://shop.example/orders.json?page_info=p2"
    {| pending := fails ++ [ReqExc]; requests := []; slept := [] |}
  = Some (Ok None, {| pending := [ReqExc];
                      requests := [] ++ repeat (AbsUrl "https://shop.example/orders.json?page_info=p2") MAX_RETRIES;
                      slept := [] ++ [1; 2; 4; 8]%Q |}).
Proof.
  intros fails. split; [reflexivity|]. split; [reflexivity|].
  apply shopify_get_backoff; reflexivity.
Defined.

(** X19 with two pages. *)
Lemma fetch_all_orders_pages_witness :
  let pages := [("https://shop.example/orders.json?page_info=p2", [priced "5.00"])] in
  pages_ok pages = true /\
  fetch_all_orders (fun _ => Ok 1%Q)
    {| pending := page_trace [priced "10.00"] pages None ++ []; requests := []; slept := [] |}
  = Some (Ok ([priced "10.00"] ++ concat (map snd pages)),
          {| pending := []; requests := [] ++ Endpoint "orders" :: map (fun p => AbsUrl (fst p)) pages;
             slept := [] ++ repeat RATE_LIMIT_DELAY (S (length pages)) |}).
Proof.
  intros pages. split; [vm_compute; reflexivity|].
  apply fetch_all_orders_pages. vm_compute. reflexivity.
Defined.

(** X20 with five connection errors on the first page. *)
Lemma fetch_all_orders_gives_up_witness :
  let fails := repeat ReqExc MAX_RETRIES in
  length fails = MAX_RETRIES /\ forallb gives_up fails = true /\
  exists s', fetch_all_orders (fun _ => Ok 1%Q) {| pending := fails ++ []; requests := []; slept := [] |}
             = Some (Ok [], s') /\ pending s' = [].
Proof.
  intros fails. split; [reflexivity|]. split; [reflexivity|].
  apply (fetch_all_orders_gives_up (fun _ => Ok 1%Q) fails [] [] []); reflexivity.
Defined.

(** X21 on the counts of a day with two categories of 10 or more units. *)
Lemma build_report_lines_witness :
  let counts := [("Vinyl", 12); ("Books", 3); ("Posters", 10); ("Tees", 0)] in
  let y := DFin false 123456 (-2) in
  let q := DFin false 9876543 (-2) in
  let p := DFin false 8000000 (-2) in
  let out := match build_report y q p counts "2026-10-16" with Ok o => o | Raise _ => "" end in
  forallb (fun kv => no_newline (fst kv)) counts = true /\
  build_report y q p counts "2026-10-16" = Ok out /\
  exists ys qs ps yoy,
    format_currency y = Ok ys /\ format_currency q = Ok qs /\ format_currency p = Ok ps /\
    format_yoy q p = Ok yoy /\
    let vinyl := match assoc_lookup String.eqb "Vinyl" counts with Some v => v | None => 0 end in
    let big := filter (fun kv => 10 <=? snd kv) counts in
    py_split_char NEWLINE out =
      [("Yesterday: " ++ ys)%string;
       ("QTD: " ++ qs ++ " (vs " ++ ps ++ " last year " ++ ARROW ++ " " ++ yoy ++ ")")%string;
       "";
       (MUSICAL_NOTE ++ " Vinyl units yesterday: " ++ z_to_string vinyl)%string] ++
      match big with
      | [] => []
      | _ :: _ =>
          "" :: "Categories with 10+ units sold:" ::
          map (fun kv => (BULLET ++ " " ++ fst kv ++ ": " ++ z_to_string (snd kv) ++ " units")%string) big
      end.
Proof.
  intros counts y q p out.
  assert (Hc : forallb (fun kv => no_newline (fst kv)) counts = true) by (vm_compute; reflexivity).
  assert (Hb : build_report y q p counts "2026-10-16" = Ok out) by (vm_compute; reflexivity).
  split; [exact Hc|]. split; [exact Hb|].
  exact (build_report_lines y q p counts "2026-10-16" out Hc Hb).
Defined.


(** X23: a prior-year order priced "NaN". *)
Lemma update_daily_revenue_nan_total_witness :
  ~ In "2026-10-16" [] /\ In (priced "NaN") [priced "10.00"; priced "NaN"] /\
  total_of (priced "NaN") = Ok (DNaN false) /\
  update_daily_revenue [] "2026-10-16" [priced "10.00"] [priced "10.00"]
    [priced "10.00"; priced "NaN"] = Raise InvalidOperation.
Proof.
  assert (Hn : ~ In "2026-10-16" []) by (intros []).
  assert (Hi : In (priced "NaN") [priced "10.00"; priced "NaN"]) by (right; left; reflexivity).
  assert (Ht : total_of (priced "NaN") = Ok (DNaN false)) by (vm_compute; reflexivity).
  split; [exact Hn|]. split; [exact Hi|]. split; [exact Ht|].
  exact (update_daily_revenue_nan_total [] "2026-10-16" [priced "10.00"] [priced "10.00"]
           [priced "10.00"; priced "NaN"] (priced "NaN") Hn Hi Ht).
Defined.
